(** * I/O statistics of STXXL: [include/stxxl/bits/io/iostats.h]

    The header declares three things: the singleton aggregator [stats], the
    scoped timers nested in it ([scoped_write_timer], [scoped_read_timer],
    [scoped_wait_timer]) and the value class [stats_data] with its two
    constructors and the operators [+] and [-].  Each of them is embedded
    below as a record with pure functions; a member function that mutates
    the singleton becomes a function from the old aggregator to the new one.

    Number model.
    - [unsigned] is a 32-bit unsigned integer: a [Z] in [0, 2^32), every
      arithmetic result reduced modulo [2^32].
    - [int] and [int64] are signed; overflow on them is undefined behaviour,
      so they are unbounded [Z] and the development speaks about executions
      in which no signed overflow happens.
    - [double] values are seconds, and everything that computes with them
      is embedded twice.  In modules [stats] and [stats_data] a [double]
      is an exact number: a [Z] counting ticks, a tick being [2^e0]
      seconds for a fixed scale [e0].  In module [binary64] a [double] is
      an IEEE-754 binary64 number, and sums and differences are those of
      the format, rounded to nearest.  [run_refines], [of_stats_refines],
      [plus_refines] and [minus_refines] show that the second embedding
      computes what the first computes as long as the tick counts
      involved stay in [0, 2^53) and no stamp is subtracted from an
      earlier one.  Readings of a clock that counts seconds since the
      epoch are of this kind: binary64 holds them as multiples of
      [2^-22].  Outside this range a sum can be rounded, and what is
      proved about exact numbers need not hold to the last bit. *)

From Stdlib Require Import ZArith List Bool Lia Floats.
Import ListNotations.
Local Open Scope Z_scope.

(** ** Scalar types *)

Definition unsigned := Z.
Definition int := Z.
Definition int64 := Z.
(** A [double] of the exact model: a count of ticks. *)
Definition ticks := Z.

Definition UINT_RANGE : Z := 2 ^ 32.

(** Conversion of an integer value to [unsigned], and the result of an
    [unsigned] operation: reduction modulo [2^32]. *)
Definition to_unsigned (z : Z) : unsigned := z mod UINT_RANGE.

Definition is_unsigned (z : Z) : Prop := 0 <= z < UINT_RANGE.

(** ** Build configuration

    [STXXL_IO_STATS] defaults to 1 (iostats.h:17-19); [COUNT_WAIT_TIME] is
    either defined or not.  Both are fixed when the library is compiled. *)

Record config := mk_config {
  STXXL_IO_STATS : bool;
  COUNT_WAIT_TIME : bool
}.

Definition default_config : config := mk_config true true.

(** ** The aggregator, [class stats] (iostats.h:39-288) *)

Module stats.

(** The data members, in the order of the header (lines 43-55).  The four
    mutexes carry no data: the critical sections they protect are executed
    one after another, which is what state passing expresses. *)
Record t := mk {
  reads : unsigned;
  writes : unsigned;
  volume_read : int64;
  volume_written : int64;
  t_reads : ticks;
  t_writes : ticks;
  p_reads : ticks;
  p_writes : ticks;
  p_begin_read : ticks;
  p_begin_write : ticks;
  p_ios : ticks;
  p_begin_io : ticks;
  t_waits : ticks;
  p_waits : ticks;
  p_begin_wait : ticks;
  acc_reads : int;
  acc_writes : int;
  acc_ios : int;
  acc_waits : int;
  last_reset : ticks
}.

(** Getters (lines 195-271). *)
Definition get_reads (s : t) : unsigned := reads s.
Definition get_writes (s : t) : unsigned := writes s.
Definition get_read_volume (s : t) : int64 := volume_read s.
Definition get_written_volume (s : t) : int64 := volume_written s.
Definition get_read_time (s : t) : ticks := t_reads s.
Definition get_write_time (s : t) : ticks := t_writes s.
Definition get_pread_time (s : t) : ticks := p_reads s.
Definition get_pwrite_time (s : t) : ticks := p_writes s.
Definition get_pio_time (s : t) : ticks := p_ios s.
Definition get_io_wait_time (s : t) : ticks := t_waits s.
Definition get_last_reset_time (s : t) : ticks := last_reset s.

(** Modelled from the spec: the constructor [stats::stats()] is declared at
    line 58 and defined outside the header.  A freshly constructed
    aggregator has every counter, sum and active count at zero and
    [last_reset] at the time of construction, as after [reset()]. *)
Definition ctor (now : ticks) : t :=
  mk 0 0 0 0 0 0 0 0 0 0 0 0 0 0 0 0 0 0 0 now.

(** Modelled from the spec: [stats::reset()] is declared at line 275 and
    defined outside the header.  It zeroes all counters, sums and active
    counts and sets [last_reset] to the current time. *)
Definition reset (now : ticks) (s : t) : t :=
  mk 0 0 0 0 0 0 0 0
     (p_begin_read s) (p_begin_write s) 0 (p_begin_io s)
     0 0 (p_begin_wait s)
     0 0 0 0 now.

(** Modelled from the spec: the body of [stats::read_started(unsigned)]
    with [STXXL_IO_STATS] on is outside the header (declaration at line
    284).  It adds the size to the byte volume, increments the active
    count of reads and, on the transition from 0 to 1, records the
    current time as the begin of the parallel interval; the combined
    active count [acc_ios] is treated identically with its own begin
    stamp.  The count of completed operations is left to
    [read_finished]. *)
Definition read_started_body (now : ticks) (size_ : unsigned) (s : t) : t :=
  mk (reads s) (writes s)
     (volume_read s + size_) (volume_written s)
     (t_reads s) (t_writes s)
     (p_reads s) (p_writes s)
     (if acc_reads s =? 0 then now else p_begin_read s) (p_begin_write s)
     (p_ios s)
     (if acc_ios s =? 0 then now else p_begin_io s)
     (t_waits s) (p_waits s) (p_begin_wait s)
     (acc_reads s + 1) (acc_writes s) (acc_ios s + 1) (acc_waits s)
     (last_reset s).

(** Modelled from the spec: the body of [stats::read_finished()] with
    [STXXL_IO_STATS] on is outside the header (declaration at line 285).
    It adds [now - operation_start] to the serial duration, increments the
    count of completed reads, decrements the active count and, on the
    transition from 1 to 0, adds [now - p_begin_read] to the parallel
    duration; the same rule applies to [acc_ios] and [p_ios].  The member
    function takes no argument and the aggregator has no slot per
    operation, so the instant at which the finishing operation started is
    an explicit argument here. *)
Definition read_finished_body (now operation_start : ticks) (s : t) : t :=
  mk (to_unsigned (reads s + 1)) (writes s)
     (volume_read s) (volume_written s)
     (t_reads s + (now - operation_start)) (t_writes s)
     (if acc_reads s =? 1 then p_reads s + (now - p_begin_read s) else p_reads s)
     (p_writes s)
     (p_begin_read s) (p_begin_write s)
     (if acc_ios s =? 1 then p_ios s + (now - p_begin_io s) else p_ios s)
     (p_begin_io s)
     (t_waits s) (p_waits s) (p_begin_wait s)
     (acc_reads s - 1) (acc_writes s) (acc_ios s - 1) (acc_waits s)
     (last_reset s).

(** Modelled from the spec: the body of [stats::write_started(unsigned)]
    with [STXXL_IO_STATS] on (declaration at line 282); the write
    counterpart of [read_started_body]. *)
Definition write_started_body (now : ticks) (size_ : unsigned) (s : t) : t :=
  mk (reads s) (writes s)
     (volume_read s) (volume_written s + size_)
     (t_reads s) (t_writes s)
     (p_reads s) (p_writes s)
     (p_begin_read s) (if acc_writes s =? 0 then now else p_begin_write s)
     (p_ios s)
     (if acc_ios s =? 0 then now else p_begin_io s)
     (t_waits s) (p_waits s) (p_begin_wait s)
     (acc_reads s) (acc_writes s + 1) (acc_ios s + 1) (acc_waits s)
     (last_reset s).

(** Modelled from the spec: the body of [stats::write_finished()] with
    [STXXL_IO_STATS] on (declaration at line 283); the write counterpart
    of [read_finished_body]. *)
Definition write_finished_body (now operation_start : ticks) (s : t) : t :=
  mk (reads s) (to_unsigned (writes s + 1))
     (volume_read s) (volume_written s)
     (t_reads s) (t_writes s + (now - operation_start))
     (p_reads s)
     (if acc_writes s =? 1 then p_writes s + (now - p_begin_write s) else p_writes s)
     (p_begin_read s) (p_begin_write s)
     (if acc_ios s =? 1 then p_ios s + (now - p_begin_io s) else p_ios s)
     (p_begin_io s)
     (t_waits s) (p_waits s) (p_begin_wait s)
     (acc_reads s) (acc_writes s - 1) (acc_ios s - 1) (acc_waits s)
     (last_reset s).

(** Modelled from the spec: the body of [stats::wait_started()] with
    [COUNT_WAIT_TIME] defined (declaration at line 286): the same
    accounting for wait periods, which have no size and do not take part
    in the combined count. *)
Definition wait_started_body (now : ticks) (s : t) : t :=
  mk (reads s) (writes s)
     (volume_read s) (volume_written s)
     (t_reads s) (t_writes s)
     (p_reads s) (p_writes s)
     (p_begin_read s) (p_begin_write s)
     (p_ios s) (p_begin_io s)
     (t_waits s) (p_waits s)
     (if acc_waits s =? 0 then now else p_begin_wait s)
     (acc_reads s) (acc_writes s) (acc_ios s) (acc_waits s + 1)
     (last_reset s).

(** Modelled from the spec: the body of [stats::wait_finished()] with
    [COUNT_WAIT_TIME] defined (declaration at line 287). *)
Definition wait_finished_body (now operation_start : ticks) (s : t) : t :=
  mk (reads s) (writes s)
     (volume_read s) (volume_written s)
     (t_reads s) (t_writes s)
     (p_reads s) (p_writes s)
     (p_begin_read s) (p_begin_write s)
     (p_ios s) (p_begin_io s)
     (t_waits s + (now - operation_start))
     (if acc_waits s =? 1 then p_waits s + (now - p_begin_wait s) else p_waits s)
     (p_begin_wait s)
     (acc_reads s) (acc_writes s) (acc_ios s) (acc_waits s - 1)
     (last_reset s).

(** The six hooks (lines 282-287).  With [STXXL_IO_STATS] off the four
    read/write hooks are the empty inline functions of lines 290-301;
    with [COUNT_WAIT_TIME] undefined the two wait hooks are the empty
    inline functions of lines 302-305. *)
Definition write_started (cfg : config) (now : ticks) (size_ : unsigned) (s : t) : t :=
  if STXXL_IO_STATS cfg then write_started_body now size_ s else s.

Definition write_finished (cfg : config) (now operation_start : ticks) (s : t) : t :=
  if STXXL_IO_STATS cfg then write_finished_body now operation_start s else s.

Definition read_started (cfg : config) (now : ticks) (size_ : unsigned) (s : t) : t :=
  if STXXL_IO_STATS cfg then read_started_body now size_ s else s.

Definition read_finished (cfg : config) (now operation_start : ticks) (s : t) : t :=
  if STXXL_IO_STATS cfg then read_finished_body now operation_start s else s.

Definition wait_started (cfg : config) (now : ticks) (s : t) : t :=
  if COUNT_WAIT_TIME cfg then wait_started_body now s else s.

Definition wait_finished (cfg : config) (now operation_start : ticks) (s : t) : t :=
  if COUNT_WAIT_TIME cfg then wait_finished_body now operation_start s else s.

End stats.

(** ** Calls on the singleton

    A scoped timer does not touch the aggregator's fields; it calls a hook
    on [stats::get_instance()].  A timer method therefore returns, next to
    the new timer, the hook calls it made, in order. *)

Inductive hook_call :=
| call_write_started (size_ : unsigned)
| call_write_finished
| call_read_started (size_ : unsigned)
| call_read_finished
| call_wait_started
| call_wait_finished.

(** ** [class stats::scoped_write_timer] (iostats.h:61-104)

    [size_type] is [unsigned_type], an unsigned integer of the platform's
    pointer width declared in another header; its values are the
    non-negative [Z].  [write_started] takes an [unsigned], so the call at
    line 88 converts the size. *)

Module scoped_write_timer.

(** With [STXXL_IO_STATS] off the class has no member; the flag is then
    never read or written. *)
Record t := mk { running : bool }.

Definition start (cfg : config) (size : Z) (g : t) : t * list hook_call :=
  if STXXL_IO_STATS cfg then
    if negb (running g)
    then (mk true, [call_write_started (to_unsigned size)])
    else (g, [])
  else (g, []).

Definition stop (cfg : config) (g : t) : t * list hook_call :=
  if STXXL_IO_STATS cfg then
    if running g
    then (mk false, [call_write_finished])
    else (g, [])
  else (g, []).

(** Constructor (lines 70-76): [running(false)], then [start(size)]. *)
Definition ctor (cfg : config) (size : Z) : t * list hook_call :=
  start cfg size (mk false).

(** Destructor (lines 78-81): [stop()]; the object is gone afterwards. *)
Definition dtor (cfg : config) (g : t) : list hook_call :=
  snd (stop cfg g).

End scoped_write_timer.

(** ** [class stats::scoped_read_timer] (iostats.h:106-149) *)

Module scoped_read_timer.

Record t := mk { running : bool }.

Definition start (cfg : config) (size : Z) (g : t) : t * list hook_call :=
  if STXXL_IO_STATS cfg then
    if negb (running g)
    then (mk true, [call_read_started (to_unsigned size)])
    else (g, [])
  else (g, []).

Definition stop (cfg : config) (g : t) : t * list hook_call :=
  if STXXL_IO_STATS cfg then
    if running g
    then (mk false, [call_read_finished])
    else (g, [])
  else (g, []).

Definition ctor (cfg : config) (size : Z) : t * list hook_call :=
  start cfg size (mk false).

Definition dtor (cfg : config) (g : t) : list hook_call :=
  snd (stop cfg g).

End scoped_read_timer.

(** ** [class stats::scoped_wait_timer] (iostats.h:151-190) *)

Module scoped_wait_timer.

Record t := mk { running : bool }.

Definition start (cfg : config) (g : t) : t * list hook_call :=
  if COUNT_WAIT_TIME cfg then
    if negb (running g)
    then (mk true, [call_wait_started])
    else (g, [])
  else (g, []).

Definition stop (cfg : config) (g : t) : t * list hook_call :=
  if COUNT_WAIT_TIME cfg then
    if running g
    then (mk false, [call_wait_finished])
    else (g, [])
  else (g, []).

Definition ctor (cfg : config) : t * list hook_call :=
  start cfg (mk false).

Definition dtor (cfg : config) (g : t) : list hook_call :=
  snd (stop cfg g).

End scoped_wait_timer.

(** ** The life of a timer

    Between construction and destruction the owner may call [stop()] any
    number of times.  [stops n] performs [n] such calls and collects the
    hook calls; the three lifetimes below are: construct, [n] explicit
    stops, destruct. *)

Fixpoint write_stops (cfg : config) (n : nat) (g : scoped_write_timer.t)
  : scoped_write_timer.t * list hook_call :=
  match n with
  | O => (g, [])
  | S n' =>
      let (g1, c1) := scoped_write_timer.stop cfg g in
      let (g2, c2) := write_stops cfg n' g1 in
      (g2, c1 ++ c2)
  end.

Definition write_timer_life (cfg : config) (size : Z) (n : nat) : list hook_call :=
  let (g0, c0) := scoped_write_timer.ctor cfg size in
  let (g1, c1) := write_stops cfg n g0 in
  c0 ++ c1 ++ scoped_write_timer.dtor cfg g1.

Fixpoint read_stops (cfg : config) (n : nat) (g : scoped_read_timer.t)
  : scoped_read_timer.t * list hook_call :=
  match n with
  | O => (g, [])
  | S n' =>
      let (g1, c1) := scoped_read_timer.stop cfg g in
      let (g2, c2) := read_stops cfg n' g1 in
      (g2, c1 ++ c2)
  end.

Definition read_timer_life (cfg : config) (size : Z) (n : nat) : list hook_call :=
  let (g0, c0) := scoped_read_timer.ctor cfg size in
  let (g1, c1) := read_stops cfg n g0 in
  c0 ++ c1 ++ scoped_read_timer.dtor cfg g1.

Fixpoint wait_stops (cfg : config) (n : nat) (g : scoped_wait_timer.t)
  : scoped_wait_timer.t * list hook_call :=
  match n with
  | O => (g, [])
  | S n' =>
      let (g1, c1) := scoped_wait_timer.stop cfg g in
      let (g2, c2) := wait_stops cfg n' g1 in
      (g2, c1 ++ c2)
  end.

Definition wait_timer_life (cfg : config) (n : nat) : list hook_call :=
  let (g0, c0) := scoped_wait_timer.ctor cfg in
  let (g1, c1) := wait_stops cfg n g0 in
  c0 ++ c1 ++ scoped_wait_timer.dtor cfg g1.

(** ** Executions of the aggregator

    An event is one call of a member function of the singleton together
    with the reading of [timestamp()] it works with; a finish event also
    names the instant its operation started. *)

Inductive event :=
| ev_write_started (now : ticks) (size_ : unsigned)
| ev_write_finished (now operation_start : ticks)
| ev_read_started (now : ticks) (size_ : unsigned)
| ev_read_finished (now operation_start : ticks)
| ev_wait_started (now : ticks)
| ev_wait_finished (now operation_start : ticks)
| ev_reset (now : ticks).

Definition step (cfg : config) (s : stats.t) (e : event) : stats.t :=
  match e with
  | ev_write_started now size_ => stats.write_started cfg now size_ s
  | ev_write_finished now st => stats.write_finished cfg now st s
  | ev_read_started now size_ => stats.read_started cfg now size_ s
  | ev_read_finished now st => stats.read_finished cfg now st s
  | ev_wait_started now => stats.wait_started cfg now s
  | ev_wait_finished now st => stats.wait_finished cfg now st s
  | ev_reset now => stats.reset now s
  end.

Definition run (cfg : config) (es : list event) (s : stats.t) : stats.t :=
  fold_left (step cfg) es s.

(** A hook call issued by a timer becomes an event once the clock reading
    and, for a finish, the start instant of the operation are known. *)
Definition observe (now operation_start : ticks) (c : hook_call) : event :=
  match c with
  | call_write_started size_ => ev_write_started now size_
  | call_write_finished => ev_write_finished now operation_start
  | call_read_started size_ => ev_read_started now size_
  | call_read_finished => ev_read_finished now operation_start
  | call_wait_started => ev_wait_started now
  | call_wait_finished => ev_wait_finished now operation_start
  end.

Definition is_reset (e : event) : bool :=
  match e with ev_reset _ => true | _ => false end.

(** No operation of any category is in flight. *)
Definition idle (s : stats.t) : Prop :=
  stats.acc_reads s = 0 /\ stats.acc_writes s = 0 /\
  stats.acc_ios s = 0 /\ stats.acc_waits s = 0.

(** ** The caller's contract

    Section 7 of the specification lists what callers owe the aggregator:
    every finish matches exactly one earlier start of its category, reset
    is called only when nothing is in flight, and (the clock being
    monotone) events arrive with non-decreasing time stamps.  [flight] is
    the book-keeping that checks this for a sequence of events: the time of
    the last event and, per category, the start instants of the operations
    still open. *)

Record flight := mk_flight {
  clock : ticks;
  open_reads : list ticks;
  open_writes : list ticks;
  open_waits : list ticks
}.

Definition ground (now : ticks) : flight := mk_flight now [] [] [].

Fixpoint take_out (x : ticks) (l : list ticks) : option (list ticks) :=
  match l with
  | [] => None
  | y :: l' =>
      if x =? y then Some l'
      else match take_out x l' with
           | Some r => Some (y :: r)
           | None => None
           end
  end.

Definition track (f : flight) (e : event) : option flight :=
  match e with
  | ev_write_started now _ =>
      if clock f <=? now
      then Some (mk_flight now (open_reads f) (now :: open_writes f) (open_waits f))
      else None
  | ev_write_finished now st =>
      if clock f <=? now
      then match take_out st (open_writes f) with
           | Some l => Some (mk_flight now (open_reads f) l (open_waits f))
           | None => None
           end
      else None
  | ev_read_started now _ =>
      if clock f <=? now
      then Some (mk_flight now (now :: open_reads f) (open_writes f) (open_waits f))
      else None
  | ev_read_finished now st =>
      if clock f <=? now
      then match take_out st (open_reads f) with
           | Some l => Some (mk_flight now l (open_writes f) (open_waits f))
           | None => None
           end
      else None
  | ev_wait_started now =>
      if clock f <=? now
      then Some (mk_flight now (open_reads f) (open_writes f) (now :: open_waits f))
      else None
  | ev_wait_finished now st =>
      if clock f <=? now
      then match take_out st (open_waits f) with
           | Some l => Some (mk_flight now (open_reads f) (open_writes f) l)
           | None => None
           end
      else None
  | ev_reset now =>
      if clock f <=? now
      then match open_reads f, open_writes f, open_waits f with
           | [], [], [] => Some (ground now)
           | _, _, _ => None
           end
      else None
  end.

Fixpoint track_all (f : flight) (es : list event) : option flight :=
  match es with
  | [] => Some f
  | e :: es' =>
      match track f e with
      | Some f' => track_all f' es'
      | None => None
      end
  end.

(** [es] is a contract-abiding execution of an aggregator constructed at
    time [t0]. *)
Definition abides (t0 : ticks) (es : list event) : Prop :=
  exists f, track_all (ground t0) es = Some f.

(** ** The snapshot, [class stats_data] (iostats.h:308-435) *)

Module stats_data.

Record t := mk {
  reads : unsigned;
  writes : unsigned;
  volume_read : int64;
  volume_written : int64;
  t_reads : ticks;
  t_writes : ticks;
  p_reads : ticks;
  p_writes : ticks;
  p_ios : ticks;
  t_wait : ticks;
  elapsed : ticks
}.

(** Default constructor (lines 319-331). *)
Definition zero : t := mk 0 0 0 0 0 0 0 0 0 0 0.

(** Constructor from the aggregator (lines 333-345); [timestamp] is the
    reading of [timestamp()] taken by the last member initialiser. *)
Definition of_stats (timestamp : ticks) (s : stats.t) : t :=
  mk (stats.get_reads s)
     (stats.get_writes s)
     (stats.get_read_volume s)
     (stats.get_written_volume s)
     (stats.get_read_time s)
     (stats.get_write_time s)
     (stats.get_pread_time s)
     (stats.get_pwrite_time s)
     (stats.get_pio_time s)
     (stats.get_io_wait_time s)
     (timestamp - stats.get_last_reset_time s).

(** [operator +] (lines 347-362). *)
Definition plus (x a : t) : t :=
  mk (to_unsigned (reads x + reads a))
     (to_unsigned (writes x + writes a))
     (volume_read x + volume_read a)
     (volume_written x + volume_written a)
     (t_reads x + t_reads a)
     (t_writes x + t_writes a)
     (p_reads x + p_reads a)
     (p_writes x + p_writes a)
     (p_ios x + p_ios a)
     (t_wait x + t_wait a)
     (elapsed x + elapsed a).

(** [operator -] (lines 364-379). *)
Definition minus (x a : t) : t :=
  mk (to_unsigned (reads x - reads a))
     (to_unsigned (writes x - writes a))
     (volume_read x - volume_read a)
     (volume_written x - volume_written a)
     (t_reads x - t_reads a)
     (t_writes x - t_writes a)
     (p_reads x - p_reads a)
     (p_writes x - p_writes a)
     (p_ios x - p_ios a)
     (t_wait x - t_wait a)
     (elapsed x - elapsed a).

(** Getters (lines 381-434). *)
Definition get_reads (d : t) : unsigned := reads d.
Definition get_writes (d : t) : unsigned := writes d.
Definition get_read_volume (d : t) : int64 := volume_read d.
Definition get_written_volume (d : t) : int64 := volume_written d.
Definition get_read_time (d : t) : ticks := t_reads d.
Definition get_write_time (d : t) : ticks := t_writes d.
Definition get_pread_time (d : t) : ticks := p_reads d.
Definition get_pwrite_time (d : t) : ticks := p_writes d.
Definition get_pio_time (d : t) : ticks := p_ios d.
Definition get_elapsed_time (d : t) : ticks := elapsed d.
Definition get_io_wait_time (d : t) : ticks := t_wait d.

(** The two [unsigned] members hold values of their type. *)
Definition well_typed (d : t) : Prop :=
  is_unsigned (reads d) /\ is_unsigned (writes d).

End stats_data.

(** The [unsigned] members of the aggregator hold values of their type. *)
Definition stats_well_typed (s : stats.t) : Prop :=
  is_unsigned (stats.reads s) /\ is_unsigned (stats.writes s).

(** ** Operations and schedules

    An operation as the I/O layer performs it: its size in bytes, the
    clock reading when it starts and the clock reading when it finishes. *)

Record operation := mk_operation {
  op_size : unsigned;
  op_start : ticks;
  op_finish : ticks
}.

Definition duration (o : operation) : ticks := op_finish o - op_start o.

Definition zsum (l : list Z) : Z := fold_right Z.add 0 l.

Definition read_events (o : operation) : list event :=
  [ev_read_started (op_start o) (op_size o);
   ev_read_finished (op_finish o) (op_start o)].

Definition write_events (o : operation) : list event :=
  [ev_write_started (op_start o) (op_size o);
   ev_write_finished (op_finish o) (op_start o)].

(** Reads performed one after the other: each finishes before the next
    starts. *)
Definition sequential_reads (ops : list operation) : list event :=
  flat_map read_events ops.

(** Reads that overlap fully: one per size, all started at [t0], all
    finished at [t0 + d]. *)
Definition overlapped_reads (t0 d : ticks) (sizes : list unsigned) : list event :=
  map (ev_read_started t0) sizes
  ++ repeat (ev_read_finished (t0 + d) t0) (length sizes).

(** The orders in which the aggregator can see a read [r] and a write [w]
    that are in flight together: both starts, in either order, then both
    finishes, in either order. *)
Definition overlapped_orders (r w : operation) : list (list event) :=
  let rs := ev_read_started (op_start r) (op_size r) in
  let rf := ev_read_finished (op_finish r) (op_start r) in
  let ws := ev_write_started (op_start w) (op_size w) in
  let wf := ev_write_finished (op_finish w) (op_start w) in
  [ [rs; ws; rf; wf]; [rs; ws; wf; rf]; [ws; rs; rf; wf]; [ws; rs; wf; rf] ].

(** One interval lies within the other. *)
Definition nested (r w : operation) : Prop :=
  (op_start r <= op_start w /\ op_finish w <= op_finish r) \/
  (op_start w <= op_start r /\ op_finish r <= op_finish w).

Definition event_time (e : event) : ticks :=
  match e with
  | ev_write_started now _ => now
  | ev_write_finished now _ => now
  | ev_read_started now _ => now
  | ev_read_finished now _ => now
  | ev_wait_started now => now
  | ev_wait_finished now _ => now
  | ev_reset now => now
  end.

(** Events in the order of their clock readings, none before [t]. *)
Fixpoint chronological (t : ticks) (es : list event) : Prop :=
  match es with
  | [] => True
  | e :: es' => t <= event_time e /\ chronological (event_time e) es'
  end.

(** The events contain no call of [reset()]. *)
Definition no_reset (es : list event) : Prop :=
  forallb (fun e => negb (is_reset e)) es = true.

(** [s'] and [f'] have seen the same events since the moment at which the
    aggregator was in the idle state [b] and a second, fresh aggregator
    was constructed: the counters of [s'] are those of [f'] on top of
    those of [b], the active counts agree, and so do the begin stamps of
    every category with an operation in flight. *)
Definition in_step (b s' f' : stats.t) : Prop :=
  (stats.reads s' = to_unsigned (stats.reads b + stats.reads f') /\
   stats.writes s' = to_unsigned (stats.writes b + stats.writes f') /\
   is_unsigned (stats.reads f') /\ is_unsigned (stats.writes f')) /\
  (stats.volume_read s' = stats.volume_read b + stats.volume_read f' /\
   stats.volume_written s' = stats.volume_written b + stats.volume_written f') /\
  (stats.t_reads s' = stats.t_reads b + stats.t_reads f' /\
   stats.t_writes s' = stats.t_writes b + stats.t_writes f' /\
   stats.p_reads s' = stats.p_reads b + stats.p_reads f' /\
   stats.p_writes s' = stats.p_writes b + stats.p_writes f' /\
   stats.p_ios s' = stats.p_ios b + stats.p_ios f' /\
   stats.t_waits s' = stats.t_waits b + stats.t_waits f') /\
  (stats.acc_reads s' = stats.acc_reads f' /\
   stats.acc_writes s' = stats.acc_writes f' /\
   stats.acc_ios s' = stats.acc_ios f' /\
   stats.acc_waits s' = stats.acc_waits f') /\
  ((1 <= stats.acc_reads s' -> stats.p_begin_read s' = stats.p_begin_read f') /\
   (1 <= stats.acc_writes s' -> stats.p_begin_write s' = stats.p_begin_write f') /\
   (1 <= stats.acc_ios s' -> stats.p_begin_io s' = stats.p_begin_io f') /\
   (1 <= stats.acc_waits s' -> stats.p_begin_wait s' = stats.p_begin_wait f')) /\
  stats.last_reset s' = stats.last_reset b.

(** Serial time the open operations [l] have accrued at clock reading
    [c]: for each of them, the time since it started. *)
Definition open_time (c : ticks) (l : list ticks) : ticks :=
  fold_right (fun r acc => (c - r) + acc) 0 l.

(** Parallel time the open interval of a category has accrued at clock
    reading [c]: the time since [begin] if some operation is open. *)
Definition busy_time (c begin : ticks) (l : list ticks) : ticks :=
  match l with
  | [] => 0
  | _ :: _ => c - begin
  end.

(** The invariant that links the aggregator [s] to the book-keeping [f] of
    the execution that produced it.  The active counts are the numbers of
    open operations, and the durations, completed to the present by what
    the open operations have accrued, are ordered as the durations of an
    idle aggregator are. *)
Definition balanced (f : flight) (s : stats.t) : Prop :=
  let c := clock f in
  let T_r := stats.t_reads s + open_time c (open_reads f) in
  let P_r := stats.p_reads s + busy_time c (stats.p_begin_read s) (open_reads f) in
  let T_w := stats.t_writes s + open_time c (open_writes f) in
  let P_w := stats.p_writes s + busy_time c (stats.p_begin_write s) (open_writes f) in
  let P_io := stats.p_ios s
              + busy_time c (stats.p_begin_io s) (open_reads f ++ open_writes f) in
  stats.acc_reads s = Z.of_nat (length (open_reads f)) /\
  stats.acc_writes s = Z.of_nat (length (open_writes f)) /\
  stats.acc_ios s
    = Z.of_nat (length (open_reads f)) + Z.of_nat (length (open_writes f)) /\
  (0 <= P_r /\ P_r <= T_r) /\
  (0 <= P_w /\ P_w <= T_w) /\
  P_r <= P_io /\ P_w <= P_io /\ P_io <= P_r + P_w.

(** ** The snapshot class on binary64

    [seconds e0 n] is the [double] that holds [n] ticks of [2^e0] seconds:
    the correctly rounded value of [n * 2^e0], which is exact for
    [0 <= n < 2^53].  The scale is kept within the normal range of the
    format. *)

Definition ticks_sf (e0 n : Z) : spec_float :=
  binary_normalize prec emax n e0 false.

Definition seconds (e0 n : Z) : float := SF2Prim (ticks_sf e0 n).

Definition scale_ok (e0 : Z) : Prop := -1022 <= e0 <= 971.

Definition is_ticks (n : Z) : Prop := 0 <= n < 2 ^ 53.

(** A positive mantissa shifted left by [k] bits, its number of binary
    digits, and the normal form of the binary64 number [q * 2^e0]. *)
Definition shl (k : nat) (q : positive) : positive := Nat.iter k xO q.

Definition digits (q : positive) : Z := Z.pos (digits2_pos q).

Definition canonical (e0 : Z) (q : positive) : spec_float :=
  S754_finite false (shl (Z.to_nat (53 - digits q)) q) (e0 + digits q - 53).

Module binary64.

Module stats.

(** The data members of [class stats] (lines 43-55) with [double] as
    binary64, and the getters (lines 195-271). *)
Record t := mk {
  reads : unsigned;
  writes : unsigned;
  volume_read : int64;
  volume_written : int64;
  t_reads : float;
  t_writes : float;
  p_reads : float;
  p_writes : float;
  p_begin_read : float;
  p_begin_write : float;
  p_ios : float;
  p_begin_io : float;
  t_waits : float;
  p_waits : float;
  p_begin_wait : float;
  acc_reads : int;
  acc_writes : int;
  acc_ios : int;
  acc_waits : int;
  last_reset : float
}.

Definition get_reads (s : t) : unsigned := reads s.
Definition get_writes (s : t) : unsigned := writes s.
Definition get_read_volume (s : t) : int64 := volume_read s.
Definition get_written_volume (s : t) : int64 := volume_written s.
Definition get_read_time (s : t) : float := t_reads s.
Definition get_write_time (s : t) : float := t_writes s.
Definition get_pread_time (s : t) : float := p_reads s.
Definition get_pwrite_time (s : t) : float := p_writes s.
Definition get_pio_time (s : t) : float := p_ios s.
Definition get_io_wait_time (s : t) : float := t_waits s.
Definition get_last_reset_time (s : t) : float := last_reset s.

(** Modelled from the spec: the constructor [stats::stats()], as in module
    [stats] above, on binary64. *)
Definition ctor (now : float) : t :=
  mk 0 0 0 0 PrimFloat.zero PrimFloat.zero PrimFloat.zero PrimFloat.zero
     PrimFloat.zero PrimFloat.zero PrimFloat.zero PrimFloat.zero
     PrimFloat.zero PrimFloat.zero PrimFloat.zero
     0 0 0 0 now.

(** Modelled from the spec: [stats::reset()], as in module [stats] above, on
    binary64. *)
Definition reset (now : float) (s : t) : t :=
  mk 0 0 0 0 PrimFloat.zero PrimFloat.zero PrimFloat.zero PrimFloat.zero
     (p_begin_read s) (p_begin_write s) PrimFloat.zero (p_begin_io s)
     PrimFloat.zero PrimFloat.zero (p_begin_wait s)
     0 0 0 0 now.

(** Modelled from the spec: the body of [stats::read_started(unsigned)], as in
    module [stats] above, on binary64. *)
Definition read_started_body (now : float) (size_ : unsigned) (s : t) : t :=
  mk (reads s) (writes s)
     (volume_read s + size_) (volume_written s)
     (t_reads s) (t_writes s)
     (p_reads s) (p_writes s)
     (if acc_reads s =? 0 then now else p_begin_read s) (p_begin_write s)
     (p_ios s)
     (if acc_ios s =? 0 then now else p_begin_io s)
     (t_waits s) (p_waits s) (p_begin_wait s)
     (acc_reads s + 1) (acc_writes s) (acc_ios s + 1) (acc_waits s)
     (last_reset s).

(** Modelled from the spec: the body of [stats::read_finished()], as in
    module [stats] above, on binary64. *)
Definition read_finished_body (now operation_start : float) (s : t) : t :=
  mk (to_unsigned (reads s + 1)) (writes s)
     (volume_read s) (volume_written s)
     (PrimFloat.add (t_reads s) (PrimFloat.sub now operation_start)) (t_writes s)
     (if acc_reads s =? 1
      then PrimFloat.add (p_reads s) (PrimFloat.sub now (p_begin_read s))
      else p_reads s)
     (p_writes s)
     (p_begin_read s) (p_begin_write s)
     (if acc_ios s =? 1
      then PrimFloat.add (p_ios s) (PrimFloat.sub now (p_begin_io s))
      else p_ios s)
     (p_begin_io s)
     (t_waits s) (p_waits s) (p_begin_wait s)
     (acc_reads s - 1) (acc_writes s) (acc_ios s - 1) (acc_waits s)
     (last_reset s).

(** Modelled from the spec: the body of [stats::write_started(unsigned)], as in
    module [stats] above, on binary64. *)
Definition write_started_body (now : float) (size_ : unsigned) (s : t) : t :=
  mk (reads s) (writes s)
     (volume_read s) (volume_written s + size_)
     (t_reads s) (t_writes s)
     (p_reads s) (p_writes s)
     (p_begin_read s) (if acc_writes s =? 0 then now else p_begin_write s)
     (p_ios s)
     (if acc_ios s =? 0 then now else p_begin_io s)
     (t_waits s) (p_waits s) (p_begin_wait s)
     (acc_reads s) (acc_writes s + 1) (acc_ios s + 1) (acc_waits s)
     (last_reset s).

(** Modelled from the spec: the body of [stats::write_finished()], as in
    module [stats] above, on binary64. *)
Definition write_finished_body (now operation_start : float) (s : t) : t :=
  mk (reads s) (to_unsigned (writes s + 1))
     (volume_read s) (volume_written s)
     (t_reads s) (PrimFloat.add (t_writes s) (PrimFloat.sub now operation_start))
     (p_reads s)
     (if acc_writes s =? 1
      then PrimFloat.add (p_writes s) (PrimFloat.sub now (p_begin_write s))
      else p_writes s)
     (p_begin_read s) (p_begin_write s)
     (if acc_ios s =? 1
      then PrimFloat.add (p_ios s) (PrimFloat.sub now (p_begin_io s))
      else p_ios s)
     (p_begin_io s)
     (t_waits s) (p_waits s) (p_begin_wait s)
     (acc_reads s) (acc_writes s - 1) (acc_ios s - 1) (acc_waits s)
     (last_reset s).

(** Modelled from the spec: the body of [stats::wait_started()], as in
    module [stats] above, on binary64. *)
Definition wait_started_body (now : float) (s : t) : t :=
  mk (reads s) (writes s)
     (volume_read s) (volume_written s)
     (t_reads s) (t_writes s)
     (p_reads s) (p_writes s)
     (p_begin_read s) (p_begin_write s)
     (p_ios s) (p_begin_io s)
     (t_waits s) (p_waits s)
     (if acc_waits s =? 0 then now else p_begin_wait s)
     (acc_reads s) (acc_writes s) (acc_ios s) (acc_waits s + 1)
     (last_reset s).

(** Modelled from the spec: the body of [stats::wait_finished()], as in
    module [stats] above, on binary64. *)
Definition wait_finished_body (now operation_start : float) (s : t) : t :=
  mk (reads s) (writes s)
     (volume_read s) (volume_written s)
     (t_reads s) (t_writes s)
     (p_reads s) (p_writes s)
     (p_begin_read s) (p_begin_write s)
     (p_ios s) (p_begin_io s)
     (PrimFloat.add (t_waits s) (PrimFloat.sub now operation_start))
     (if acc_waits s =? 1
      then PrimFloat.add (p_waits s) (PrimFloat.sub now (p_begin_wait s))
      else p_waits s)
     (p_begin_wait s)
     (acc_reads s) (acc_writes s) (acc_ios s) (acc_waits s - 1)
     (last_reset s).

(** The six hooks; the no-op variants are those of lines 290-305. *)
Definition write_started (cfg : config) (now : float) (size_ : unsigned) (s : t) : t :=
  if STXXL_IO_STATS cfg then write_started_body now size_ s else s.

Definition write_finished (cfg : config) (now operation_start : float) (s : t) : t :=
  if STXXL_IO_STATS cfg then write_finished_body now operation_start s else s.

Definition read_started (cfg : config) (now : float) (size_ : unsigned) (s : t) : t :=
  if STXXL_IO_STATS cfg then read_started_body now size_ s else s.

Definition read_finished (cfg : config) (now operation_start : float) (s : t) : t :=
  if STXXL_IO_STATS cfg then read_finished_body now operation_start s else s.

Definition wait_started (cfg : config) (now : float) (s : t) : t :=
  if COUNT_WAIT_TIME cfg then wait_started_body now s else s.

Definition wait_finished (cfg : config) (now operation_start : float) (s : t) : t :=
  if COUNT_WAIT_TIME cfg then wait_finished_body now operation_start s else s.

End stats.

Module stats_data.

(** [class stats_data] (lines 308-379) with [double] as binary64. *)
Record t := mk {
  reads : unsigned;
  writes : unsigned;
  volume_read : int64;
  volume_written : int64;
  t_reads : float;
  t_writes : float;
  p_reads : float;
  p_writes : float;
  p_ios : float;
  t_wait : float;
  elapsed : float
}.

Definition zero : t :=
  mk 0 0 0 0 PrimFloat.zero PrimFloat.zero PrimFloat.zero PrimFloat.zero
     PrimFloat.zero PrimFloat.zero PrimFloat.zero.

Definition of_stats (timestamp : float) (s : stats.t) : t :=
  mk (stats.get_reads s)
     (stats.get_writes s)
     (stats.get_read_volume s)
     (stats.get_written_volume s)
     (stats.get_read_time s)
     (stats.get_write_time s)
     (stats.get_pread_time s)
     (stats.get_pwrite_time s)
     (stats.get_pio_time s)
     (stats.get_io_wait_time s)
     (PrimFloat.sub timestamp (stats.get_last_reset_time s)).

Definition plus (x a : t) : t :=
  mk (to_unsigned (reads x + reads a))
     (to_unsigned (writes x + writes a))
     (volume_read x + volume_read a)
     (volume_written x + volume_written a)
     (PrimFloat.add (t_reads x) (t_reads a))
     (PrimFloat.add (t_writes x) (t_writes a))
     (PrimFloat.add (p_reads x) (p_reads a))
     (PrimFloat.add (p_writes x) (p_writes a))
     (PrimFloat.add (p_ios x) (p_ios a))
     (PrimFloat.add (t_wait x) (t_wait a))
     (PrimFloat.add (elapsed x) (elapsed a)).

Definition minus (x a : t) : t :=
  mk (to_unsigned (reads x - reads a))
     (to_unsigned (writes x - writes a))
     (volume_read x - volume_read a)
     (volume_written x - volume_written a)
     (PrimFloat.sub (t_reads x) (t_reads a))
     (PrimFloat.sub (t_writes x) (t_writes a))
     (PrimFloat.sub (p_reads x) (p_reads a))
     (PrimFloat.sub (p_writes x) (p_writes a))
     (PrimFloat.sub (p_ios x) (p_ios a))
     (PrimFloat.sub (t_wait x) (t_wait a))
     (PrimFloat.sub (elapsed x) (elapsed a)).

(** Getters (lines 381-434). *)
Definition get_reads (d : t) : unsigned := reads d.
Definition get_writes (d : t) : unsigned := writes d.
Definition get_read_volume (d : t) : int64 := volume_read d.
Definition get_written_volume (d : t) : int64 := volume_written d.
Definition get_read_time (d : t) : float := t_reads d.
Definition get_write_time (d : t) : float := t_writes d.
Definition get_pread_time (d : t) : float := p_reads d.
Definition get_pwrite_time (d : t) : float := p_writes d.
Definition get_pio_time (d : t) : float := p_ios d.
Definition get_elapsed_time (d : t) : float := elapsed d.
Definition get_io_wait_time (d : t) : float := t_wait d.

(** The two [unsigned] members hold values of their type. *)
Definition well_typed (d : t) : Prop :=
  is_unsigned (reads d) /\ is_unsigned (writes d).

(** No [double] member is a NaN. *)
Definition no_nan (d : t) : Prop :=
  PrimFloat.is_nan (t_reads d) = false /\ PrimFloat.is_nan (t_writes d) = false /\
  PrimFloat.is_nan (p_reads d) = false /\ PrimFloat.is_nan (p_writes d) = false /\
  PrimFloat.is_nan (p_ios d) = false /\ PrimFloat.is_nan (t_wait d) = false /\
  PrimFloat.is_nan (elapsed d) = false.

(** Member by member comparison with the [==] of each member's type. *)
Definition equal (a b : t) : bool :=
  Z.eqb (reads a) (reads b) && Z.eqb (writes a) (writes b) &&
  Z.eqb (volume_read a) (volume_read b) &&
  Z.eqb (volume_written a) (volume_written b) &&
  PrimFloat.eqb (t_reads a) (t_reads b) &&
  PrimFloat.eqb (t_writes a) (t_writes b) &&
  PrimFloat.eqb (p_reads a) (p_reads b) &&
  PrimFloat.eqb (p_writes a) (p_writes b) &&
  PrimFloat.eqb (p_ios a) (p_ios b) &&
  PrimFloat.eqb (t_wait a) (t_wait b) &&
  PrimFloat.eqb (elapsed a) (elapsed b).

(** No [double] member is the negative zero. *)
Definition no_negative_zero (d : t) : Prop :=
  t_reads d <> PrimFloat.neg_zero /\ t_writes d <> PrimFloat.neg_zero /\
  p_reads d <> PrimFloat.neg_zero /\ p_writes d <> PrimFloat.neg_zero /\
  p_ios d <> PrimFloat.neg_zero /\ t_wait d <> PrimFloat.neg_zero /\
  elapsed d <> PrimFloat.neg_zero.

End stats_data.

(** Events with binary64 clock readings, and their execution. *)
Inductive event :=
| ev_write_started (now : float) (size_ : unsigned)
| ev_write_finished (now operation_start : float)
| ev_read_started (now : float) (size_ : unsigned)
| ev_read_finished (now operation_start : float)
| ev_wait_started (now : float)
| ev_wait_finished (now operation_start : float)
| ev_reset (now : float).

Definition step (cfg : config) (s : stats.t) (e : event) : stats.t :=
  match e with
  | ev_write_started now size_ => stats.write_started cfg now size_ s
  | ev_write_finished now st => stats.write_finished cfg now st s
  | ev_read_started now size_ => stats.read_started cfg now size_ s
  | ev_read_finished now st => stats.read_finished cfg now st s
  | ev_wait_started now => stats.wait_started cfg now s
  | ev_wait_finished now st => stats.wait_finished cfg now st s
  | ev_reset now => stats.reset now s
  end.

Definition run (cfg : config) (es : list event) (s : stats.t) : stats.t :=
  fold_left (step cfg) es s.

(** An operation with binary64 clock readings, its measured duration, and
    reads performed one after the other. *)
Record operation := mk_operation {
  op_size : unsigned;
  op_start : float;
  op_finish : float
}.

Definition duration (o : operation) : float :=
  PrimFloat.sub (op_finish o) (op_start o).

Definition read_events (o : operation) : list event :=
  [ev_read_started (op_start o) (op_size o);
   ev_read_finished (op_finish o) (op_start o)].

Definition write_events (o : operation) : list event :=
  [ev_write_started (op_start o) (op_size o);
   ev_write_finished (op_finish o) (op_start o)].

Definition sequential_reads (ops : list operation) : list event :=
  flat_map read_events ops.

(** Reads that overlap fully: one per size, all started at [t0], all
    finished at [t1]. *)
Definition overlapped_reads (t0 t1 : float) (sizes : list unsigned) : list event :=
  map (ev_read_started t0) sizes
  ++ repeat (ev_read_finished t1 t0) (length sizes).

(** The time from the start of [a] to the finish of [b]. *)
Definition span (a b : operation) : float :=
  PrimFloat.sub (op_finish b) (op_start a).

(** The binary64 sum of [ds], accumulated from left to right onto
    [start]. *)
Definition accumulate (start : float) (ds : list float) : float :=
  fold_left PrimFloat.add ds start.

End binary64.

(** The binary64 aggregator and snapshot that hold the tick counts of an
    aggregator and a snapshot of the exact model. *)
Definition hold_stats (e0 : Z) (s : stats.t) : binary64.stats.t :=
  binary64.stats.mk
    (stats.reads s) (stats.writes s)
    (stats.volume_read s) (stats.volume_written s)
    (seconds e0 (stats.t_reads s)) (seconds e0 (stats.t_writes s))
    (seconds e0 (stats.p_reads s)) (seconds e0 (stats.p_writes s))
    (seconds e0 (stats.p_begin_read s)) (seconds e0 (stats.p_begin_write s))
    (seconds e0 (stats.p_ios s)) (seconds e0 (stats.p_begin_io s))
    (seconds e0 (stats.t_waits s)) (seconds e0 (stats.p_waits s))
    (seconds e0 (stats.p_begin_wait s))
    (stats.acc_reads s) (stats.acc_writes s)
    (stats.acc_ios s) (stats.acc_waits s)
    (seconds e0 (stats.last_reset s)).

Definition hold (e0 : Z) (d : stats_data.t) : binary64.stats_data.t :=
  binary64.stats_data.mk
    (stats_data.reads d) (stats_data.writes d)
    (stats_data.volume_read d) (stats_data.volume_written d)
    (seconds e0 (stats_data.t_reads d)) (seconds e0 (stats_data.t_writes d))
    (seconds e0 (stats_data.p_reads d)) (seconds e0 (stats_data.p_writes d))
    (seconds e0 (stats_data.p_ios d)) (seconds e0 (stats_data.t_wait d))
    (seconds e0 (stats_data.elapsed d)).

(** Every [double] member of the snapshot is a tick count that binary64
    holds exactly. *)
Definition in_range (d : stats_data.t) : Prop :=
  is_ticks (stats_data.t_reads d) /\ is_ticks (stats_data.t_writes d) /\
  is_ticks (stats_data.p_reads d) /\ is_ticks (stats_data.p_writes d) /\
  is_ticks (stats_data.p_ios d) /\ is_ticks (stats_data.t_wait d) /\
  is_ticks (stats_data.elapsed d).

(** The binary64 event that carries the clock readings of an event of the
    exact model. *)
Definition hold_event (e0 : Z) (e : event) : binary64.event :=
  match e with
  | ev_write_started now size_ => binary64.ev_write_started (seconds e0 now) size_
  | ev_write_finished now st =>
      binary64.ev_write_finished (seconds e0 now) (seconds e0 st)
  | ev_read_started now size_ => binary64.ev_read_started (seconds e0 now) size_
  | ev_read_finished now st =>
      binary64.ev_read_finished (seconds e0 now) (seconds e0 st)
  | ev_wait_started now => binary64.ev_wait_started (seconds e0 now)
  | ev_wait_finished now st =>
      binary64.ev_wait_finished (seconds e0 now) (seconds e0 st)
  | ev_reset now => binary64.ev_reset (seconds e0 now)
  end.

(** Every duration and stamp of the aggregator is a tick count that
    binary64 holds exactly. *)
Definition ticks_state (s : stats.t) : Prop :=
  (is_ticks (stats.t_reads s) /\ is_ticks (stats.t_writes s) /\
   is_ticks (stats.p_reads s) /\ is_ticks (stats.p_writes s) /\
   is_ticks (stats.p_ios s) /\
   is_ticks (stats.t_waits s) /\ is_ticks (stats.p_waits s)) /\
  (is_ticks (stats.p_begin_read s) /\ is_ticks (stats.p_begin_write s) /\
   is_ticks (stats.p_begin_io s) /\ is_ticks (stats.p_begin_wait s)).

(** The event [e] on the aggregator [s] involves tick counts below [2^53]
    only and subtracts no stamp from an earlier one: the state before and
    the state after hold such tick counts, the clock reading does, and for
    a finish the start instant of the operation and the begin stamps are
    not later than the clock reading. *)
Definition exact_step (cfg : config) (s : stats.t) (e : event) : Prop :=
  ticks_state s /\ ticks_state (step cfg s e) /\ is_ticks (event_time e) /\
  match e with
  | ev_write_finished now st | ev_read_finished now st | ev_wait_finished now st =>
      is_ticks st /\ st <= now /\
      stats.p_begin_read s <= now /\ stats.p_begin_write s <= now /\
      stats.p_begin_io s <= now /\ stats.p_begin_wait s <= now
  | _ => True
  end.

Fixpoint exact_run (cfg : config) (s : stats.t) (es : list event) : Prop :=
  match es with
  | [] => True
  | e :: es' => exact_step cfg s e /\ exact_run cfg (step cfg s e) es'
  end.

(** The events [es] of the exact model, executed on binary64 by an
    aggregator freshly constructed at [c0]. *)
Definition run64 (e0 : Z) (cfg : config) (es : list event) (c0 : ticks)
  : binary64.stats.t :=
  binary64.run cfg (map (hold_event e0) es) (binary64.stats.ctor (seconds e0 c0)).

(** ** Sessions of a timer

    The owner of a timer may call [start] and [stop] in any order between
    construction and destruction.  A session is the constructor, a list of
    such calls, and the destructor; [*_timer_alive] is the timer and the
    hook calls made so far just before the destructor runs. *)

Inductive timer_method :=
| do_start (size : Z)
| do_stop.

Inductive wait_timer_method :=
| do_wait_start
| do_wait_stop.

Fixpoint read_methods (cfg : config) (ms : list timer_method)
  (g : scoped_read_timer.t) : scoped_read_timer.t * list hook_call :=
  match ms with
  | [] => (g, [])
  | m :: ms' =>
      let (g1, c1) := match m with
                      | do_start size => scoped_read_timer.start cfg size g
                      | do_stop => scoped_read_timer.stop cfg g
                      end in
      let (g2, c2) := read_methods cfg ms' g1 in
      (g2, c1 ++ c2)
  end.

Definition read_timer_alive (cfg : config) (size : Z) (ms : list timer_method)
  : scoped_read_timer.t * list hook_call :=
  let (g0, c0) := scoped_read_timer.ctor cfg size in
  let (g1, c1) := read_methods cfg ms g0 in
  (g1, c0 ++ c1).

Definition read_timer_session (cfg : config) (size : Z) (ms : list timer_method)
  : list hook_call :=
  let (g, cs) := read_timer_alive cfg size ms in
  cs ++ scoped_read_timer.dtor cfg g.

Fixpoint write_methods (cfg : config) (ms : list timer_method)
  (g : scoped_write_timer.t) : scoped_write_timer.t * list hook_call :=
  match ms with
  | [] => (g, [])
  | m :: ms' =>
      let (g1, c1) := match m with
                      | do_start size => scoped_write_timer.start cfg size g
                      | do_stop => scoped_write_timer.stop cfg g
                      end in
      let (g2, c2) := write_methods cfg ms' g1 in
      (g2, c1 ++ c2)
  end.

Definition write_timer_alive (cfg : config) (size : Z) (ms : list timer_method)
  : scoped_write_timer.t * list hook_call :=
  let (g0, c0) := scoped_write_timer.ctor cfg size in
  let (g1, c1) := write_methods cfg ms g0 in
  (g1, c0 ++ c1).

Definition write_timer_session (cfg : config) (size : Z) (ms : list timer_method)
  : list hook_call :=
  let (g, cs) := write_timer_alive cfg size ms in
  cs ++ scoped_write_timer.dtor cfg g.

Fixpoint wait_methods (cfg : config) (ms : list wait_timer_method)
  (g : scoped_wait_timer.t) : scoped_wait_timer.t * list hook_call :=
  match ms with
  | [] => (g, [])
  | m :: ms' =>
      let (g1, c1) := match m with
                      | do_wait_start => scoped_wait_timer.start cfg g
                      | do_wait_stop => scoped_wait_timer.stop cfg g
                      end in
      let (g2, c2) := wait_methods cfg ms' g1 in
      (g2, c1 ++ c2)
  end.

Definition wait_timer_alive (cfg : config) (ms : list wait_timer_method)
  : scoped_wait_timer.t * list hook_call :=
  let (g0, c0) := scoped_wait_timer.ctor cfg in
  let (g1, c1) := wait_methods cfg ms g0 in
  (g1, c0 ++ c1).

Definition wait_timer_session (cfg : config) (ms : list wait_timer_method)
  : list hook_call :=
  let (g, cs) := wait_timer_alive cfg ms in
  cs ++ scoped_wait_timer.dtor cfg g.

(** The category a hook call belongs to, and whether it opens an
    operation. *)
Inductive category := cat_write | cat_read | cat_wait.

Definition call_category (c : hook_call) : category :=
  match c with
  | call_write_started _ | call_write_finished => cat_write
  | call_read_started _ | call_read_finished => cat_read
  | call_wait_started | call_wait_finished => cat_wait
  end.

Definition is_started (c : hook_call) : bool :=
  match c with
  | call_write_started _ | call_read_started _ | call_wait_started => true
  | _ => false
  end.

Definition category_eqb (a b : category) : bool :=
  match a, b with
  | cat_write, cat_write | cat_read, cat_read | cat_wait, cat_wait => true
  | _, _ => false
  end.

(** [alternates k open cs] checks the calls [cs] from a point where an
    operation is open or not: every call is of category [k], a start comes
    only when none is open and a finish only when one is.  It answers
    whether an operation is open after [cs], or [None] if the check
    fails. *)
Fixpoint alternates (k : category) (open : bool) (cs : list hook_call)
  : option bool :=
  match cs with
  | [] => Some open
  | c :: cs' =>
      if category_eqb (call_category c) k && negb (Bool.eqb (is_started c) open)
      then alternates k (is_started c) cs'
      else None
  end.

Definition started_count (cs : list hook_call) : nat :=
  length (filter is_started cs).

Definition finished_count (cs : list hook_call) : nat :=
  length (filter (fun c => negb (is_started c)) cs).

(** ** Finite snapshots

    Every [double] member of the snapshot, resp. every [double] counter of
    the aggregator that a snapshot copies, is neither an infinity nor a
    NaN. *)
Definition finite_members (d : binary64.stats_data.t) : Prop :=
  PrimFloat.is_finite (binary64.stats_data.t_reads d) = true /\
  PrimFloat.is_finite (binary64.stats_data.t_writes d) = true /\
  PrimFloat.is_finite (binary64.stats_data.p_reads d) = true /\
  PrimFloat.is_finite (binary64.stats_data.p_writes d) = true /\
  PrimFloat.is_finite (binary64.stats_data.p_ios d) = true /\
  PrimFloat.is_finite (binary64.stats_data.t_wait d) = true /\
  PrimFloat.is_finite (binary64.stats_data.elapsed d) = true.

Definition finite_counters (s : binary64.stats.t) : Prop :=
  PrimFloat.is_finite (binary64.stats.get_read_time s) = true /\
  PrimFloat.is_finite (binary64.stats.get_write_time s) = true /\
  PrimFloat.is_finite (binary64.stats.get_pread_time s) = true /\
  PrimFloat.is_finite (binary64.stats.get_pwrite_time s) = true /\
  PrimFloat.is_finite (binary64.stats.get_pio_time s) = true /\
  PrimFloat.is_finite (binary64.stats.get_io_wait_time s) = true.

(** ** Sample values *)

(** Two aggregators that differ in nothing but [p_waits]. *)
Definition waited_3 : stats.t :=
  stats.mk 2 1 8192 4096 50 20 40 20 0 0 55 0 9 3 0 0 0 0 0 100.

Definition waited_5 : stats.t :=
  stats.mk 2 1 8192 4096 50 20 40 20 0 0 55 0 9 5 0 0 0 0 0 100.

(** A snapshot with every member non-zero. *)
Definition sample_snapshot : stats_data.t :=
  stats_data.mk 12 7 49152 28672 340 210 300 200 450 25 1000.

(** Hook calls issued by a timer, paired in order with the clock readings
    under which they execute. *)
Definition observe_all (stamps : list (ticks * ticks)) (cs : list hook_call)
  : list event :=
  map (fun p => observe (fst (fst p)) (snd (fst p)) (snd p)) (combine stamps cs).

(** * Properties *)

(** Proof steps used throughout: split a conjunction without unfolding
    definitions, and decide every integer comparison in sight. *)
Ltac split_conj := repeat match goal with |- _ /\ _ => split end.

Ltac split_eqb :=
  repeat match goal with
         | |- context [?a =? ?b] => destruct (Z.eqb_spec a b)
         | H : context [?a =? ?b] |- _ => destruct (Z.eqb_spec a b)
         end.

(** ** Scoped timers *)

Section TimerLife.
Variable cfg : config.

Lemma read_stops_stopped (n : nat) :
  read_stops cfg n (scoped_read_timer.mk false) = (scoped_read_timer.mk false, []).
Proof.
  induction n as [|n IH]; simpl; [reflexivity|].
  unfold scoped_read_timer.stop; simpl.
  destruct (STXXL_IO_STATS cfg); rewrite IH; reflexivity.
Qed.

Lemma write_stops_stopped (n : nat) :
  write_stops cfg n (scoped_write_timer.mk false) = (scoped_write_timer.mk false, []).
Proof.
  induction n as [|n IH]; simpl; [reflexivity|].
  unfold scoped_write_timer.stop; simpl.
  destruct (STXXL_IO_STATS cfg); rewrite IH; reflexivity.
Qed.

Lemma wait_stops_stopped (n : nat) :
  wait_stops cfg n (scoped_wait_timer.mk false) = (scoped_wait_timer.mk false, []).
Proof.
  induction n as [|n IH]; simpl; [reflexivity|].
  unfold scoped_wait_timer.stop; simpl.
  destruct (COUNT_WAIT_TIME cfg); rewrite IH; reflexivity.
Qed.

Hypothesis io_on : STXXL_IO_STATS cfg = true.

Lemma read_life_calls (size : Z) (n : nat) :
  read_timer_life cfg size n =
  [call_read_started (to_unsigned size); call_read_finished].
Proof.
  unfold read_timer_life, scoped_read_timer.ctor, scoped_read_timer.start.
  rewrite io_on; simpl.
  destruct n as [|n]; simpl.
  - unfold scoped_read_timer.dtor, scoped_read_timer.stop.
    rewrite io_on; reflexivity.
  - unfold scoped_read_timer.stop at 1. rewrite io_on; simpl.
    rewrite read_stops_stopped; simpl.
    unfold scoped_read_timer.dtor, scoped_read_timer.stop.
    rewrite io_on; reflexivity.
Qed.

Lemma write_life_calls (size : Z) (n : nat) :
  write_timer_life cfg size n =
  [call_write_started (to_unsigned size); call_write_finished].
Proof.
  unfold write_timer_life, scoped_write_timer.ctor, scoped_write_timer.start.
  rewrite io_on; simpl.
  destruct n as [|n]; simpl.
  - unfold scoped_write_timer.dtor, scoped_write_timer.stop.
    rewrite io_on; reflexivity.
  - unfold scoped_write_timer.stop at 1. rewrite io_on; simpl.
    rewrite write_stops_stopped; simpl.
    unfold scoped_write_timer.dtor, scoped_write_timer.stop.
    rewrite io_on; reflexivity.
Qed.

End TimerLife.

(** C1. With read/write instrumentation compiled in, constructing a scoped
    read (write) timer calls [read_started] ([write_started]) exactly
    once, and the whole life of the timer - construction, any number [n]
    of explicit [stop()] calls (none, one, two, ...), destruction - calls
    [read_finished] ([write_finished]) exactly once after it: the calls
    made are precisely one start followed by one finish.  Executed on the
    aggregator under any clock readings they raise [reads] ([writes]) by
    exactly one, in the arithmetic of [unsigned]. *)
Theorem scoped_timer_counts_once
  (cfg : config) (size : Z) (n : nat) (t1 o1 t2 o2 : ticks) (s : stats.t) :
  STXXL_IO_STATS cfg = true ->
  (snd (scoped_read_timer.ctor cfg size) = [call_read_started (to_unsigned size)]
   /\ read_timer_life cfg size n =
      [call_read_started (to_unsigned size); call_read_finished]
   /\ stats.get_reads
        (run cfg (observe_all [(t1, o1); (t2, o2)] (read_timer_life cfg size n)) s)
      = to_unsigned (stats.get_reads s + 1))
  /\
  (snd (scoped_write_timer.ctor cfg size) = [call_write_started (to_unsigned size)]
   /\ write_timer_life cfg size n =
      [call_write_started (to_unsigned size); call_write_finished]
   /\ stats.get_writes
        (run cfg (observe_all [(t1, o1); (t2, o2)] (write_timer_life cfg size n)) s)
      = to_unsigned (stats.get_writes s + 1)).
Proof.
  intros Hon. split.
  - split; [|split].
    + unfold scoped_read_timer.ctor, scoped_read_timer.start.
      rewrite Hon; reflexivity.
    + apply read_life_calls; assumption.
    + rewrite read_life_calls by assumption.
      simpl. unfold stats.read_finished, stats.read_started.
      rewrite Hon. reflexivity.
  - split; [|split].
    + unfold scoped_write_timer.ctor, scoped_write_timer.start.
      rewrite Hon; reflexivity.
    + apply write_life_calls; assumption.
    + rewrite write_life_calls by assumption.
      simpl. unfold stats.write_finished, stats.write_started.
      rewrite Hon. reflexivity.
Qed.

(** The statement of C1 at a 4 KiB transfer with two explicit stops before
    destruction, on an aggregator that has already completed 7 reads and
    7 writes. *)
Lemma scoped_timer_counts_once_witness :
  STXXL_IO_STATS default_config = true /\
  read_timer_life default_config 4096 2 =
    [call_read_started 4096; call_read_finished] /\
  stats.get_reads
    (run default_config
       (observe_all [(10, 0); (15, 10)] (read_timer_life default_config 4096 2))
       (stats.mk 7 7 0 0 0 0 0 0 0 0 0 0 0 0 0 0 0 0 0 0)) = 8.
Proof.
  split; [reflexivity|].
  pose proof (scoped_timer_counts_once default_config 4096 2 10 0 15 10
                (stats.mk 7 7 0 0 0 0 0 0 0 0 0 0 0 0 0 0 0 0 0 0)
                eq_refl) as [[_ [Hl Hr]] _].
  split; [exact Hl | exact Hr].
Defined.

(** ** Unsigned arithmetic *)

Lemma to_unsigned_small (z : Z) : is_unsigned z -> to_unsigned z = z.
Proof. unfold is_unsigned, to_unsigned. intros H. apply Z.mod_small; exact H. Qed.

Lemma to_unsigned_is_unsigned (z : Z) : is_unsigned (to_unsigned z).
Proof.
  unfold is_unsigned, to_unsigned, UINT_RANGE.
  apply Z.mod_pos_bound. reflexivity.
Qed.

Lemma to_unsigned_add_l (a b : Z) :
  to_unsigned (to_unsigned a + b) = to_unsigned (a + b).
Proof. unfold to_unsigned. apply Zplus_mod_idemp_l. Qed.

Lemma to_unsigned_sub_add (b a : Z) :
  is_unsigned b -> to_unsigned (to_unsigned (b - a) + a) = b.
Proof.
  intros Hb. rewrite to_unsigned_add_l.
  replace (b - a + a) with b by ring.
  apply to_unsigned_small; exact Hb.
Qed.

(** ** Exactness of binary64 on tick counts *)

Lemma pos_iter_nat {A} (f : A -> A) (x : A) (p : positive) :
  Pos.iter f x p = Nat.iter (Pos.to_nat p) f x.
Proof. rewrite Pos2Nat.inj_iter. reflexivity. Qed.

Lemma iter_pos_nat {A} (f : A -> A) (p : positive) (x : A) :
  SpecFloat.iter_pos f p x = Nat.iter (Pos.to_nat p) f x.
Proof.
  revert x. induction p as [p IH|p IH|]; intros x; cbn [SpecFloat.iter_pos].
  - rewrite !IH, Pos2Nat.inj_xI.
    rewrite <- Nat.iter_add, Nat.iter_swap.
    replace (S (2 * Pos.to_nat p)) with (S (Pos.to_nat p + Pos.to_nat p)) by lia.
    reflexivity.
  - rewrite !IH, Pos2Nat.inj_xO.
    rewrite <- Nat.iter_add.
    replace (2 * Pos.to_nat p)%nat with (Pos.to_nat p + Pos.to_nat p)%nat by lia.
    reflexivity.
  - reflexivity.
Qed.

Lemma digits_shl (k : nat) (q : positive) :
  Z.pos (digits2_pos (shl k q)) = Z.pos (digits2_pos q) + Z.of_nat k.
Proof.
  induction k as [|k IH]; [simpl; lia|].
  unfold shl in *. rewrite Nat.iter_succ. cbn [digits2_pos].
  rewrite Pos2Z.inj_succ, IH. lia.
Qed.

Lemma shl_value (k : nat) (q : positive) :
  Z.pos (shl k q) = Z.pos q * 2 ^ Z.of_nat k.
Proof.
  induction k as [|k IH]; [simpl; lia|].
  unfold shl in *. rewrite Nat.iter_succ.
  change (Z.pos (Nat.iter k xO q)~0) with (2 * Z.pos (Nat.iter k xO q)).
  rewrite IH, Nat2Z.inj_succ, Z.pow_succ_r by lia. lia.
Qed.

Lemma shl_add (j k : nat) (q : positive) : shl j (shl k q) = shl (j + k) q.
Proof. unfold shl. symmetry. apply Nat.iter_add. Qed.

Lemma shr_shl (k : nat) (q : positive) :
  Nat.iter k shr_1 (Build_shr_record (Z.pos (shl k q)) false false)
  = Build_shr_record (Z.pos q) false false.
Proof.
  induction k as [|k IH]; [reflexivity|].
  rewrite Nat.iter_succ_r. unfold shl. rewrite Nat.iter_succ. simpl shr_1.
  exact IH.
Qed.

Lemma digits_lower (q : positive) :
  2 ^ (Z.pos (digits2_pos q) - 1) <= Z.pos q.
Proof.
  induction q as [q IH|q IH|]; cbn [digits2_pos].
  - rewrite Pos2Z.inj_succ. change (Z.pos q~1) with (2 * Z.pos q + 1).
    replace (Z.succ (Z.pos (digits2_pos q)) - 1)
      with (Z.succ (Z.pos (digits2_pos q) - 1)) by lia.
    rewrite Z.pow_succ_r by lia.
    set (P := 2 ^ _) in *. lia.
  - rewrite Pos2Z.inj_succ. change (Z.pos q~0) with (2 * Z.pos q).
    replace (Z.succ (Z.pos (digits2_pos q)) - 1)
      with (Z.succ (Z.pos (digits2_pos q) - 1)) by lia.
    rewrite Z.pow_succ_r by lia.
    set (P := 2 ^ _) in *. lia.
  - simpl. lia.
Qed.

Lemma digits_bound (q : positive) :
  Z.pos q < 2 ^ 53 -> Z.pos (digits2_pos q) <= 53.
Proof.
  intros H. pose proof (digits_lower q) as Hl.
  destruct (Z_le_gt_dec (Z.pos (digits2_pos q)) 53) as [|Hgt]; [assumption|exfalso].
  assert (2 ^ 53 <= 2 ^ (Z.pos (digits2_pos q) - 1))
    by (apply Z.pow_le_mono_r; lia).
  lia.
Qed.

Lemma digits_pos (q : positive) : 1 <= digits q.
Proof. unfold digits. lia. Qed.

Lemma fexp_normal (e : Z) : -1021 <= e -> fexp prec emax e = e - 53.
Proof. intros H. unfold fexp, SpecFloat.emin, prec, emax. lia. Qed.

Lemma shl_align_spec (mx : positive) (ex ex' : Z) :
  ex' <= ex -> shl_align mx ex ex' = (shl (Z.to_nat (ex - ex')) mx, ex').
Proof.
  intros H. unfold shl_align.
  destruct (ex' - ex) as [|p|p] eqn:E; try lia.
  - replace (ex - ex') with 0 by lia. simpl. f_equal. lia.
  - rewrite pos_iter_nat. unfold shl. f_equal. f_equal. lia.
Qed.

Lemma shl_align_keep (mx : positive) (ex ex' : Z) :
  ex <= ex' -> shl_align mx ex ex' = (mx, ex).
Proof.
  intros H. unfold shl_align.
  destruct (ex' - ex) as [|p|p] eqn:E; try lia; reflexivity.
Qed.

Lemma round_aux_shifted (m : positive) (e : Z) (j : nat) :
  digits m = 53 -> -1074 <= e <= 971 ->
  binary_round_aux prec emax false (Z.pos (shl j m)) (e - Z.of_nat j) loc_Exact
  = S754_finite false m e.
Proof.
  intros Hd He.
  unfold binary_round_aux.
  assert (H1 : shr_fexp prec emax (Z.pos (shl j m)) (e - Z.of_nat j) loc_Exact
               = (Build_shr_record (Z.pos m) false false, e)).
  { unfold shr_fexp. cbn [Zdigits2 shr_record_of_loc].
    rewrite digits_shl. fold (digits m). rewrite Hd.
    rewrite fexp_normal by lia.
    replace (53 + Z.of_nat j + (e - Z.of_nat j) - 53 - (e - Z.of_nat j))
      with (Z.of_nat j) by lia.
    unfold shr. destruct j as [|j].
    - cbn [Z.of_nat shl Nat.iter nat_rect]. rewrite Z.sub_0_r. reflexivity.
    - cbn [Z.of_nat]. rewrite iter_pos_nat, SuccNat2Pos.id_succ, shr_shl.
      f_equal. lia. }
  rewrite H1. cbn [shr_m loc_of_shr_record round_nearest_even].
  assert (H2 : shr_fexp prec emax (Z.pos m) e loc_Exact
               = (Build_shr_record (Z.pos m) false false, e)).
  { unfold shr_fexp. cbn [Zdigits2 shr_record_of_loc].
    fold (digits m). rewrite Hd, fexp_normal by lia.
    replace (53 + e - 53 - e) with 0 by lia. reflexivity. }
  rewrite H2. cbn [shr_m].
  unfold emax, prec. replace (e <=? 1024 - 53) with true; [reflexivity|].
  symmetry. apply Z.leb_le. lia.
Qed.

Lemma round_shifted (e0 : Z) (q : positive) (k : nat) :
  Z.pos q < 2 ^ 53 -> -1022 <= e0 <= 971 ->
  binary_round prec emax false (shl k q) (e0 - Z.of_nat k) = canonical e0 q.
Proof.
  intros Hq He0.
  pose proof (digits_bound q Hq) as Hd. fold (digits q) in Hd.
  pose proof (digits_pos q) as Hd1.
  unfold binary_round.
  rewrite digits_shl. fold (digits q).
  rewrite fexp_normal by lia.
  set (m := shl (Z.to_nat (53 - digits q)) q).
  assert (Hm : digits m = 53).
  { unfold m, digits. rewrite digits_shl. fold (digits q). lia. }
  destruct (Z_le_gt_dec (Z.of_nat k) (53 - digits q)) as [Hk|Hk].
  - rewrite shl_align_spec by lia.
    rewrite shl_add.
    replace (Z.to_nat (e0 - Z.of_nat k - (digits q + Z.of_nat k + (e0 - Z.of_nat k) - 53)) + k)%nat
      with (Z.to_nat (53 - digits q)) by lia.
    fold m.
    pose proof (round_aux_shifted m (e0 + digits q - 53) 0 Hm ltac:(lia)) as H.
    simpl shl in H. rewrite Z.sub_0_r in H.
    replace (digits q + Z.of_nat k + (e0 - Z.of_nat k) - 53)
      with (e0 + digits q - 53) by lia.
    exact H.
  - rewrite shl_align_keep by lia.
    set (j := (k - Z.to_nat (53 - digits q))%nat).
    replace (shl k q) with (shl j m)
      by (unfold m, j; rewrite shl_add; f_equal; lia).
    replace (e0 - Z.of_nat k) with (e0 + digits q - 53 - Z.of_nat j)
      by (unfold j; lia).
    apply round_aux_shifted; [exact Hm | lia].
Qed.

Lemma ticks_sf_pos (e0 : Z) (q : positive) :
  Z.pos q < 2 ^ 53 -> scale_ok e0 -> ticks_sf e0 (Z.pos q) = canonical e0 q.
Proof.
  intros Hq He. unfold ticks_sf, binary_normalize.
  pose proof (round_shifted e0 q 0 Hq He) as H.
  cbn [shl Nat.iter nat_rect Z.of_nat] in H. rewrite Z.sub_0_r in H. exact H.
Qed.

Lemma ticks_sf_shifted (e0 : Z) (q : positive) (k : nat) :
  Z.pos q < 2 ^ 53 -> scale_ok e0 ->
  binary_normalize prec emax (Z.pos (shl k q)) (e0 - Z.of_nat k) false
  = ticks_sf e0 (Z.pos q).
Proof.
  intros Hq He. rewrite ticks_sf_pos by assumption.
  apply round_shifted; assumption.
Qed.

(** Alignment of a canonical mantissa to a smaller exponent. *)

Lemma align_canonical (e0 : Z) (q : positive) (ez : Z) :
  Z.pos q < 2 ^ 53 ->
  ez <= e0 + digits q - 53 ->
  fst (shl_align (shl (Z.to_nat (53 - digits q)) q) (e0 + digits q - 53) ez)
  = shl (Z.to_nat (e0 - ez)) q.
Proof.
  intros Hq Hez.
  pose proof (digits_bound q Hq) as Hd. fold (digits q) in Hd.
  rewrite shl_align_spec by lia. cbn [fst].
  rewrite shl_add. f_equal. lia.
Qed.

Lemma add_exact_sf (e0 m n : Z) :
  scale_ok e0 -> 0 <= m -> 0 <= n -> m + n < 2 ^ 53 ->
  SFadd prec emax (ticks_sf e0 m) (ticks_sf e0 n) = ticks_sf e0 (m + n).
Proof.
  intros He Hm Hn Hs.
  destruct m as [|a|a].
  - destruct n as [|b|b]; [reflexivity| |lia].
    rewrite Z.add_0_l. unfold ticks_sf at 1. cbn [binary_normalize].
    rewrite ticks_sf_pos by (assumption || lia). reflexivity.
  - destruct n as [|b|b]; [| |lia].
    + rewrite Z.add_0_r. unfold ticks_sf at 2. cbn [binary_normalize].
      rewrite ticks_sf_pos by (assumption || lia). reflexivity.
    + assert (Ha : Z.pos a < 2 ^ 53) by lia.
      assert (Hb : Z.pos b < 2 ^ 53) by lia.
      rewrite (ticks_sf_pos e0 a Ha He), (ticks_sf_pos e0 b Hb He).
      unfold canonical, SFadd.
      set (ez := Z.min (e0 + digits a - 53) (e0 + digits b - 53)).
      rewrite (align_canonical e0 a ez Ha) by (unfold ez; lia).
      rewrite (align_canonical e0 b ez Hb) by (unfold ez; lia).
      cbn [cond_Zopp].
      pose proof (digits_pos a). pose proof (digits_pos b).
      pose proof (digits_bound a Ha) as Hda. fold (digits a) in Hda.
      pose proof (digits_bound b Hb) as Hdb. fold (digits b) in Hdb.
      set (K := Z.to_nat (e0 - ez)).
      replace (Z.pos (shl K a) + Z.pos (shl K b)) with (Z.pos (shl K (a + b)))
        by (rewrite !shl_value, Pos2Z.inj_add; ring).
      replace ez with (e0 - Z.of_nat K) at 1 by (unfold K, ez; lia).
      change (Z.pos a + Z.pos b) with (Z.pos (a + b)).
      apply ticks_sf_shifted; [simpl; lia | exact He].
  - lia.
Qed.

Lemma sub_exact_sf (e0 m n : Z) :
  scale_ok e0 -> 0 <= n -> n <= m -> m < 2 ^ 53 ->
  SFsub prec emax (ticks_sf e0 m) (ticks_sf e0 n) = ticks_sf e0 (m - n).
Proof.
  intros He Hn Hnm Hm.
  destruct n as [|b|b]; [| |lia].
  - rewrite Z.sub_0_r. unfold ticks_sf at 2. cbn [binary_normalize].
    destruct m as [|a|a]; [reflexivity| |lia].
    rewrite ticks_sf_pos by (assumption || lia). reflexivity.
  - destruct m as [|a|a]; [lia| |lia].
    assert (Ha : Z.pos a < 2 ^ 53) by lia.
    assert (Hb : Z.pos b < 2 ^ 53) by lia.
    rewrite (ticks_sf_pos e0 a Ha He), (ticks_sf_pos e0 b Hb He).
    unfold canonical, SFsub.
    set (ez := Z.min (e0 + digits a - 53) (e0 + digits b - 53)).
    rewrite (align_canonical e0 a ez Ha) by (unfold ez; lia).
    rewrite (align_canonical e0 b ez Hb) by (unfold ez; lia).
    cbn [cond_Zopp].
    pose proof (digits_pos a). pose proof (digits_pos b).
    pose proof (digits_bound a Ha) as Hda. fold (digits a) in Hda.
    pose proof (digits_bound b Hb) as Hdb. fold (digits b) in Hdb.
    set (K := Z.to_nat (e0 - ez)).
    destruct (Z.eq_dec (Z.pos a) (Z.pos b)) as [Heq|Hne].
    + inversion Heq; subst b. rewrite !Z.sub_diag. reflexivity.
    + destruct (Z.pos a - Z.pos b) as [|c|c] eqn:Ec; [lia| |lia].
      replace (Z.pos (shl K a) - Z.pos (shl K b)) with (Z.pos (shl K c))
        by (rewrite !shl_value, <- Ec; ring).
      replace ez with (e0 - Z.of_nat K) at 1 by (unfold K, ez; lia).
      apply ticks_sf_shifted; [lia | exact He].
Qed.

Lemma ticks_sf_valid (e0 n : Z) :
  scale_ok e0 -> 0 <= n < 2 ^ 53 -> valid_binary (ticks_sf e0 n) = true.
Proof.
  intros He [Hn0 Hn].
  destruct n as [|q|q]; [reflexivity| |lia].
  rewrite ticks_sf_pos by assumption.
  pose proof (digits_bound q Hn) as Hd. fold (digits q) in Hd.
  pose proof (digits_pos q) as Hd1.
  unfold canonical, SpecFloat.valid_binary, bounded, canonical_mantissa.
  rewrite digits_shl. fold (digits q).
  rewrite fexp_normal by (unfold scale_ok in He; lia).
  apply andb_true_intro. split.
  - apply Z.eqb_eq. lia.
  - apply Z.leb_le. unfold emax, prec. unfold scale_ok in He. lia.
Qed.

Lemma Prim2SF_seconds (e0 n : Z) :
  scale_ok e0 -> 0 <= n < 2 ^ 53 -> Prim2SF (seconds e0 n) = ticks_sf e0 n.
Proof. intros He Hn. apply Prim2SF_SF2Prim, ticks_sf_valid; assumption. Qed.

Lemma seconds_add (e0 m n : Z) :
  scale_ok e0 -> 0 <= m -> 0 <= n -> m + n < 2 ^ 53 ->
  (seconds e0 m + seconds e0 n)%float = seconds e0 (m + n).
Proof.
  intros He Hm Hn Hs. apply Prim2SF_inj.
  rewrite add_spec, !Prim2SF_seconds by (assumption || lia).
  apply add_exact_sf; assumption.
Qed.

Lemma seconds_sub (e0 m n : Z) :
  scale_ok e0 -> 0 <= n -> n <= m -> m < 2 ^ 53 ->
  (seconds e0 m - seconds e0 n)%float = seconds e0 (m - n).
Proof.
  intros He Hn Hnm Hm. apply Prim2SF_inj.
  rewrite sub_spec, !Prim2SF_seconds by (assumption || lia).
  apply sub_exact_sf; assumption.
Qed.

(** Adding the positive zero changes no binary64 number but the negative
    zero, which it turns into the positive zero. *)
Lemma add_zero_r (x : float) :
  x <> PrimFloat.neg_zero -> PrimFloat.add x PrimFloat.zero = x.
Proof.
  intros Hx. apply Prim2SF_inj. rewrite add_spec.
  change (Prim2SF PrimFloat.zero) with (S754_zero false).
  destruct (Prim2SF x) as [s| s| |s m e] eqn:E; try reflexivity.
  destruct s; [|reflexivity].
  exfalso. apply Hx. rewrite <- (SF2Prim_Prim2SF x), E. reflexivity.
Qed.

Lemma add_zero_l (x : float) :
  x <> PrimFloat.neg_zero -> PrimFloat.add PrimFloat.zero x = x.
Proof.
  intros Hx. apply Prim2SF_inj. rewrite add_spec.
  change (Prim2SF PrimFloat.zero) with (S754_zero false).
  destruct (Prim2SF x) as [s| s| |s m e] eqn:E; try reflexivity.
  destruct s; [|reflexivity].
  exfalso. apply Hx. rewrite <- (SF2Prim_Prim2SF x), E. reflexivity.
Qed.

Lemma neg_zero_dec (x : float) :
  x = PrimFloat.neg_zero \/ x <> PrimFloat.neg_zero.
Proof.
  destruct (Prim2SF x) as [[|]| s| |s m e] eqn:E.
  - left. rewrite <- (SF2Prim_Prim2SF x), E. reflexivity.
  - right. intros ->. discriminate E.
  - right. intros ->. discriminate E.
  - right. intros ->. discriminate E.
  - right. intros ->. discriminate E.
Qed.

(** Under [==], adding the positive zero changes no number at all. *)
Lemma add_zero_r_eqb (x : float) :
  PrimFloat.is_nan x = false ->
  PrimFloat.eqb (PrimFloat.add x PrimFloat.zero) x = true.
Proof.
  intros Hn. destruct (neg_zero_dec x) as [->|Hx]; [reflexivity|].
  rewrite add_zero_r by assumption.
  unfold PrimFloat.is_nan in Hn. apply negb_false_iff in Hn. exact Hn.
Qed.

Lemma add_zero_l_eqb (x : float) :
  PrimFloat.is_nan x = false ->
  PrimFloat.eqb (PrimFloat.add PrimFloat.zero x) x = true.
Proof.
  intros Hn. destruct (neg_zero_dec x) as [->|Hx]; [reflexivity|].
  rewrite add_zero_l by assumption.
  unfold PrimFloat.is_nan in Hn. apply negb_false_iff in Hn. exact Hn.
Qed.

(** ** The binary64 snapshot class computes what the exact model computes *)

Lemma hold_zero (e0 : Z) : hold e0 stats_data.zero = binary64.stats_data.zero.
Proof. reflexivity. Qed.

Lemma plus_refines (e0 : Z) (x a : stats_data.t) :
  scale_ok e0 -> in_range x -> in_range a -> in_range (stats_data.plus x a) ->
  binary64.stats_data.plus (hold e0 x) (hold e0 a) = hold e0 (stats_data.plus x a).
Proof.
  intros He (X1 & X2 & X3 & X4 & X5 & X6 & X7) (A1 & A2 & A3 & A4 & A5 & A6 & A7)
         (S1 & S2 & S3 & S4 & S5 & S6 & S7).
  unfold is_ticks in *.
  destruct x, a; simpl in *.
  unfold binary64.stats_data.plus, hold; simpl.
  rewrite !(seconds_add e0) by (assumption || lia).
  reflexivity.
Qed.

Lemma minus_refines (e0 : Z) (x a : stats_data.t) :
  scale_ok e0 -> in_range x -> in_range a -> in_range (stats_data.minus x a) ->
  binary64.stats_data.minus (hold e0 x) (hold e0 a) = hold e0 (stats_data.minus x a).
Proof.
  intros He (X1 & X2 & X3 & X4 & X5 & X6 & X7) (A1 & A2 & A3 & A4 & A5 & A6 & A7)
         (S1 & S2 & S3 & S4 & S5 & S6 & S7).
  unfold is_ticks in *.
  destruct x, a; simpl in *.
  unfold binary64.stats_data.minus, hold; simpl.
  rewrite !(seconds_sub e0) by (assumption || lia).
  reflexivity.
Qed.

Lemma of_stats_refines (e0 : Z) (timestamp : ticks) (s : stats.t) :
  scale_ok e0 -> is_ticks timestamp -> is_ticks (stats.last_reset s) ->
  stats.last_reset s <= timestamp ->
  binary64.stats_data.of_stats (seconds e0 timestamp) (hold_stats e0 s)
  = hold e0 (stats_data.of_stats timestamp s).
Proof.
  intros He Ht Hl Hle. unfold is_ticks in *.
  unfold binary64.stats_data.of_stats, hold, hold_stats, stats_data.of_stats; simpl.
  unfold stats.get_last_reset_time.
  rewrite (seconds_sub e0) by (assumption || lia).
  reflexivity.
Qed.

Lemma step_refines (e0 : Z) (cfg : config) (s : stats.t) (e : event) :
  scale_ok e0 -> exact_step cfg s e ->
  binary64.step cfg (hold_stats e0 s) (hold_event e0 e)
  = hold_stats e0 (step cfg s e).
Proof.
  intros He (Hpre & Hpost & Hnow & Hst).
  destruct cfg as [io wt].
  destruct Hpre as ((P1 & P2 & P3 & P4 & P5 & P6 & P7) & (B1 & B2 & B3 & B4)).
  destruct e as [now sz|now st|now sz|now st|now|now st|now];
    simpl in Hnow, Hst;
    unfold step, binary64.step, hold_event,
      stats.read_started, stats.read_finished, stats.write_started,
      stats.write_finished, stats.wait_started, stats.wait_finished,
      binary64.stats.read_started, binary64.stats.read_finished,
      binary64.stats.write_started, binary64.stats.write_finished,
      binary64.stats.wait_started, binary64.stats.wait_finished in *;
    cbn [STXXL_IO_STATS COUNT_WAIT_TIME] in *;
    try (destruct io); try (destruct wt); try reflexivity;
    destruct Hpost as ((Q1 & Q2 & Q3 & Q4 & Q5 & Q6 & Q7) & _);
    unfold hold_stats, binary64.stats.read_started_body,
      binary64.stats.read_finished_body, binary64.stats.write_started_body,
      binary64.stats.write_finished_body, binary64.stats.wait_started_body,
      binary64.stats.wait_finished_body, binary64.stats.reset;
    simpl in *; unfold is_ticks in *;
    split_eqb; try reflexivity;
    rewrite ?(seconds_sub e0) by (assumption || lia);
    rewrite ?(seconds_add e0) by (assumption || lia);
    reflexivity.
Qed.

Lemma run_refines (e0 : Z) (cfg : config) (es : list event) (s : stats.t) :
  scale_ok e0 -> exact_run cfg s es ->
  binary64.run cfg (map (hold_event e0) es) (hold_stats e0 s)
  = hold_stats e0 (run cfg es s).
Proof.
  intros He. revert s. induction es as [|e es IH]; intros s Hx.
  - reflexivity.
  - destruct Hx as [Hstep Hrest]. simpl.
    rewrite (step_refines e0 cfg s e He Hstep).
    apply IH. exact Hrest.
Qed.

Lemma ctor_refines (e0 : Z) (now : ticks) :
  binary64.stats.ctor (seconds e0 now) = hold_stats e0 (stats.ctor now).
Proof. reflexivity. Qed.

Lemma run64_refines (e0 : Z) (cfg : config) (es : list event) (c0 : ticks) :
  scale_ok e0 -> exact_run cfg (stats.ctor c0) es ->
  run64 e0 cfg es c0 = hold_stats e0 (run cfg es (stats.ctor c0)).
Proof.
  intros He Hx. unfold run64. rewrite ctor_refines.
  apply run_refines; assumption.
Qed.

Lemma exact_run_ticks (cfg : config) (es : list event) (s : stats.t) :
  ticks_state s -> exact_run cfg s es -> ticks_state (run cfg es s).
Proof.
  revert s. induction es as [|e es IH]; intros s Hs Hx; [exact Hs|].
  destruct Hx as [(_ & Hpost & _) Hrest]. simpl.
  apply IH; assumption.
Qed.

Lemma ctor_ticks (c0 : ticks) : ticks_state (stats.ctor c0).
Proof. unfold ticks_state, is_ticks; simpl. lia. Qed.

(** *** Comparisons *)

Lemma digits_upper (q : positive) : Z.pos q < 2 ^ digits q.
Proof.
  unfold digits. induction q as [q IH|q IH|]; cbn [digits2_pos].
  - rewrite Pos2Z.inj_succ. change (Z.pos q~1) with (2 * Z.pos q + 1).
    rewrite Z.pow_succ_r by lia. set (P := 2 ^ _) in *. lia.
  - rewrite Pos2Z.inj_succ. change (Z.pos q~0) with (2 * Z.pos q).
    rewrite Z.pow_succ_r by lia. set (P := 2 ^ _) in *. lia.
  - simpl. lia.
Qed.

Lemma digits_lt (a b : positive) : digits a < digits b -> Z.pos a < Z.pos b.
Proof.
  intros H. pose proof (digits_upper a) as Ha.
  pose proof (digits_lower b) as Hb. fold (digits b) in Hb.
  pose proof (digits_pos a).
  assert (2 ^ digits a <= 2 ^ (digits b - 1)) by (apply Z.pow_le_mono_r; lia).
  lia.
Qed.

Lemma shl_compare (k : nat) (a b : positive) :
  Pos.compare_cont Eq (shl k a) (shl k b) = Pos.compare_cont Eq a b.
Proof.
  induction k as [|k IH]; [reflexivity|].
  unfold shl in *. rewrite !Nat.iter_succ. simpl. exact IH.
Qed.

Lemma compare_exact_sf (e0 m n : Z) :
  scale_ok e0 -> is_ticks m -> is_ticks n ->
  SFcompare (ticks_sf e0 m) (ticks_sf e0 n) = Some (m ?= n).
Proof.
  intros He [Hm0 Hm] [Hn0 Hn].
  destruct m as [|a|a]; [| |lia]; destruct n as [|b|b]; try lia.
  - reflexivity.
  - rewrite ticks_sf_pos by assumption. reflexivity.
  - rewrite ticks_sf_pos by assumption. reflexivity.
  - rewrite !ticks_sf_pos by assumption.
    unfold canonical, SFcompare.
    destruct (Z.compare_spec (e0 + digits a - 53) (e0 + digits b - 53))
      as [Heq|Hlt|Hgt].
    + assert (Hd : digits a = digits b) by lia. rewrite Hd.
      rewrite shl_compare. reflexivity.
    + assert (Hab : Z.pos a < Z.pos b) by (apply digits_lt; lia).
      symmetry. f_equal. apply Z.compare_lt_iff. exact Hab.
    + assert (Hab : Z.pos b < Z.pos a) by (apply digits_lt; lia).
      symmetry. f_equal. apply Z.compare_gt_iff. exact Hab.
Qed.

Lemma seconds_ltb (e0 m n : Z) :
  scale_ok e0 -> is_ticks m -> is_ticks n ->
  PrimFloat.ltb (seconds e0 m) (seconds e0 n) = (m <? n).
Proof.
  intros He Hm Hn.
  rewrite ltb_spec, !Prim2SF_seconds by assumption.
  unfold SFltb. rewrite compare_exact_sf by assumption.
  unfold Z.ltb. destruct (m ?= n); reflexivity.
Qed.

Lemma seconds_leb (e0 m n : Z) :
  scale_ok e0 -> is_ticks m -> is_ticks n ->
  PrimFloat.leb (seconds e0 m) (seconds e0 n) = (m <=? n).
Proof.
  intros He Hm Hn.
  rewrite leb_spec, !Prim2SF_seconds by assumption.
  unfold SFleb. rewrite compare_exact_sf by assumption.
  unfold Z.leb. destruct (m ?= n); reflexivity.
Qed.

(** ** Disabled instrumentation *)

Lemma read_stops_off (w : bool) (n : nat) (g : scoped_read_timer.t) :
  read_stops (mk_config false w) n g = (g, []).
Proof.
  induction n as [|n IH]; simpl; [reflexivity|].
  rewrite IH. reflexivity.
Qed.

Lemma write_stops_off (w : bool) (n : nat) (g : scoped_write_timer.t) :
  write_stops (mk_config false w) n g = (g, []).
Proof.
  induction n as [|n IH]; simpl; [reflexivity|].
  rewrite IH. reflexivity.
Qed.

Lemma wait_stops_off (io : bool) (n : nat) (g : scoped_wait_timer.t) :
  wait_stops (mk_config io false) n g = (g, []).
Proof.
  induction n as [|n IH]; simpl; [reflexivity|].
  rewrite IH. reflexivity.
Qed.

Lemma io_off_counters_zero64 (w : bool) (es : list binary64.event)
  (s : binary64.stats.t) :
  binary64.stats.reads s = 0 -> binary64.stats.writes s = 0 ->
  binary64.stats.volume_read s = 0 -> binary64.stats.volume_written s = 0 ->
  binary64.stats.t_reads s = PrimFloat.zero ->
  binary64.stats.t_writes s = PrimFloat.zero ->
  binary64.stats.p_reads s = PrimFloat.zero ->
  binary64.stats.p_writes s = PrimFloat.zero ->
  binary64.stats.p_ios s = PrimFloat.zero ->
  let s' := binary64.run (mk_config false w) es s in
  binary64.stats.reads s' = 0 /\ binary64.stats.writes s' = 0 /\
  binary64.stats.volume_read s' = 0 /\ binary64.stats.volume_written s' = 0 /\
  binary64.stats.t_reads s' = PrimFloat.zero /\
  binary64.stats.t_writes s' = PrimFloat.zero /\
  binary64.stats.p_reads s' = PrimFloat.zero /\
  binary64.stats.p_writes s' = PrimFloat.zero /\
  binary64.stats.p_ios s' = PrimFloat.zero.
Proof.
  revert s. induction es as [|e es IH]; intros s H1 H2 H3 H4 H5 H6 H7 H8 H9.
  - simpl. repeat split; assumption.
  - simpl. apply IH;
      destruct e; simpl;
        unfold binary64.stats.wait_started, binary64.stats.wait_finished;
        destruct w; simpl; assumption || reflexivity.
Qed.

Lemma io_off_counters_zero (w : bool) (es : list event) (s : stats.t) :
  stats.reads s = 0 -> stats.writes s = 0 ->
  stats.volume_read s = 0 -> stats.volume_written s = 0 ->
  stats.t_reads s = 0 -> stats.t_writes s = 0 ->
  stats.p_reads s = 0 -> stats.p_writes s = 0 -> stats.p_ios s = 0 ->
  let s' := run (mk_config false w) es s in
  stats.reads s' = 0 /\ stats.writes s' = 0 /\
  stats.volume_read s' = 0 /\ stats.volume_written s' = 0 /\
  stats.t_reads s' = 0 /\ stats.t_writes s' = 0 /\
  stats.p_reads s' = 0 /\ stats.p_writes s' = 0 /\ stats.p_ios s' = 0.
Proof.
  revert s. induction es as [|e es IH]; intros s H1 H2 H3 H4 H5 H6 H7 H8 H9.
  - simpl. repeat split; assumption.
  - simpl. apply IH;
      destruct e; simpl;
        unfold stats.wait_started, stats.wait_finished;
        destruct w; simpl; assumption || reflexivity.
Qed.

(** C7. With [STXXL_IO_STATS] off - whatever the wait switch [w] is - the
    four read/write hooks return the aggregator unchanged, [start] and
    [stop] of the scoped read and write timers change nothing and call
    nothing, so that the whole life of such a timer calls no hook, and
    after any sequence of events on a freshly constructed aggregator every
    read/write getter returns zero, in the exact model and on binary64.  With
    [COUNT_WAIT_TIME] undefined - whatever the read/write switch [io] is -
    the two wait hooks return the aggregator unchanged and the scoped wait
    timer changes nothing and calls nothing.  Each switch governs its own
    category only: with it on, a hook runs its body whatever the other
    switch says. *)
Theorem disabled_instrumentation_is_inert :
  (forall (w : bool) (now st : ticks) (size_ : unsigned) (s : stats.t),
      stats.read_started (mk_config false w) now size_ s = s /\
      stats.read_finished (mk_config false w) now st s = s /\
      stats.write_started (mk_config false w) now size_ s = s /\
      stats.write_finished (mk_config false w) now st s = s)
  /\
  (forall (w : bool) (size : Z) (gr : scoped_read_timer.t) (gw : scoped_write_timer.t),
      scoped_read_timer.start (mk_config false w) size gr = (gr, []) /\
      scoped_read_timer.stop (mk_config false w) gr = (gr, []) /\
      scoped_write_timer.start (mk_config false w) size gw = (gw, []) /\
      scoped_write_timer.stop (mk_config false w) gw = (gw, []))
  /\
  (forall (w : bool) (size : Z) (n : nat),
      read_timer_life (mk_config false w) size n = [] /\
      write_timer_life (mk_config false w) size n = [])
  /\
  (forall (w : bool) (t0 : ticks) (es : list event),
      let s := run (mk_config false w) es (stats.ctor t0) in
      stats.get_reads s = 0 /\ stats.get_writes s = 0 /\
      stats.get_read_volume s = 0 /\ stats.get_written_volume s = 0 /\
      stats.get_read_time s = 0 /\ stats.get_write_time s = 0 /\
      stats.get_pread_time s = 0 /\ stats.get_pwrite_time s = 0 /\
      stats.get_pio_time s = 0)
  /\
  (forall (w : bool) (t0 : float) (es : list binary64.event),
      let s := binary64.run (mk_config false w) es (binary64.stats.ctor t0) in
      binary64.stats.get_reads s = 0 /\ binary64.stats.get_writes s = 0 /\
      binary64.stats.get_read_volume s = 0 /\
      binary64.stats.get_written_volume s = 0 /\
      binary64.stats.get_read_time s = PrimFloat.zero /\
      binary64.stats.get_write_time s = PrimFloat.zero /\
      binary64.stats.get_pread_time s = PrimFloat.zero /\
      binary64.stats.get_pwrite_time s = PrimFloat.zero /\
      binary64.stats.get_pio_time s = PrimFloat.zero)
  /\
  (forall (io : bool) (now st : ticks) (s : stats.t) (g : scoped_wait_timer.t),
      stats.wait_started (mk_config io false) now s = s /\
      stats.wait_finished (mk_config io false) now st s = s /\
      scoped_wait_timer.start (mk_config io false) g = (g, []) /\
      scoped_wait_timer.stop (mk_config io false) g = (g, []))
  /\
  (forall (io : bool) (n : nat), wait_timer_life (mk_config io false) n = [])
  /\
  (forall (b : bool) (now st : ticks) (size_ : unsigned) (s : stats.t),
      stats.read_started (mk_config true b) now size_ s
        = stats.read_started_body now size_ s /\
      stats.read_finished (mk_config true b) now st s
        = stats.read_finished_body now st s /\
      stats.write_started (mk_config true b) now size_ s
        = stats.write_started_body now size_ s /\
      stats.write_finished (mk_config true b) now st s
        = stats.write_finished_body now st s /\
      stats.wait_started (mk_config b true) now s
        = stats.wait_started_body now s /\
      stats.wait_finished (mk_config b true) now st s
        = stats.wait_finished_body now st s).
Proof.
  split; [intros; repeat split|].
  split; [intros; repeat split|].
  split.
  { intros w size n. unfold read_timer_life, write_timer_life; simpl.
    rewrite read_stops_off, write_stops_off. split; reflexivity. }
  split.
  { intros w t0 es. apply (io_off_counters_zero w es (stats.ctor t0)); reflexivity. }
  split.
  { intros w t0 es.
    apply (io_off_counters_zero64 w es (binary64.stats.ctor t0)); reflexivity. }
  split; [intros; repeat split|].
  split.
  { intros io n. unfold wait_timer_life; simpl.
    rewrite wait_stops_off. reflexivity. }
  intros; repeat split.
Qed.

(** ** The snapshot constructor *)

(** C8, as stated, fails: [p_waits] is not copied.  The two aggregators
    above hold different values of [p_waits] and yield the same snapshot,
    so no function of the snapshot - in particular no getter - returns the
    aggregator's [p_waits]. *)
Lemma snapshot_omits_p_waits :
  stats.p_waits waited_3 <> stats.p_waits waited_5 /\
  stats_data.of_stats 160 waited_3 = stats_data.of_stats 160 waited_5 /\
  ~ (exists g : stats_data.t -> ticks,
        forall (now : ticks) (s : stats.t),
          g (stats_data.of_stats now s) = stats.p_waits s).
Proof.
  split; [discriminate|]. split; [reflexivity|].
  intros [g Hg].
  pose proof (Hg 160 waited_3) as H3.
  pose proof (Hg 160 waited_5) as H5.
  change (stats_data.of_stats 160 waited_5)
    with (stats_data.of_stats 160 waited_3) in H5.
  rewrite H3 in H5. discriminate H5.
Qed.

(** C8, amended.  The snapshot taken at time [now] copies the ten counters
    [reads], [writes], [volume_read], [volume_written], [t_reads],
    [t_writes], [p_reads], [p_writes], [p_ios] and [t_waits], stores
    [elapsed = now - last_reset], and has a getter for each of the eleven.
    Nothing else enters it: whatever values the four active counts, the
    four begin stamps and [p_waits] take, the snapshot is the same.  The
    one subtraction the constructor performs is exact on binary64 as long
    as [last_reset <= now] are tick counts below [2^53]. *)
Theorem snapshot_copies_counters (now : ticks) (s : stats.t) :
  let d := stats_data.of_stats now s in
  (stats_data.get_reads d = stats.reads s /\
   stats_data.get_writes d = stats.writes s /\
   stats_data.get_read_volume d = stats.volume_read s /\
   stats_data.get_written_volume d = stats.volume_written s /\
   stats_data.get_read_time d = stats.t_reads s /\
   stats_data.get_write_time d = stats.t_writes s /\
   stats_data.get_pread_time d = stats.p_reads s /\
   stats_data.get_pwrite_time d = stats.p_writes s /\
   stats_data.get_pio_time d = stats.p_ios s /\
   stats_data.get_io_wait_time d = stats.t_waits s /\
   stats_data.get_elapsed_time d = now - stats.last_reset s)
  /\
  (forall (begin_read begin_write begin_io begin_wait waits_p : ticks)
          (a_reads a_writes a_ios a_waits : int),
      stats_data.of_stats now
        (stats.mk (stats.reads s) (stats.writes s)
                  (stats.volume_read s) (stats.volume_written s)
                  (stats.t_reads s) (stats.t_writes s)
                  (stats.p_reads s) (stats.p_writes s)
                  begin_read begin_write
                  (stats.p_ios s) begin_io
                  (stats.t_waits s) waits_p begin_wait
                  a_reads a_writes a_ios a_waits
                  (stats.last_reset s))
      = d)
  /\
  (forall e0 : Z,
      scale_ok e0 -> is_ticks now -> is_ticks (stats.last_reset s) ->
      stats.last_reset s <= now ->
      binary64.stats_data.of_stats (seconds e0 now) (hold_stats e0 s) = hold e0 d).
Proof.
  split; [|split].
  - repeat split.
  - intros. reflexivity.
  - intros e0 He Hn Hl Hle. apply of_stats_refines; assumption.
Qed.

(** C8, amended, on an aggregator reset at time 100 and observed at time
    160. *)
Lemma snapshot_copies_counters_witness :
  scale_ok (-20) /\ is_ticks 160 /\ is_ticks (stats.last_reset waited_3) /\
  stats.last_reset waited_3 <= 160 /\
  stats_data.of_stats 160 waited_3 = stats_data.mk 2 1 8192 4096 50 20 40 20 55 9 60 /\
  binary64.stats_data.of_stats (seconds (-20) 160) (hold_stats (-20) waited_3)
    = hold (-20) (stats_data.of_stats 160 waited_3).
Proof.
  assert (Hs : scale_ok (-20)) by (unfold scale_ok; lia).
  assert (Hn : is_ticks 160) by (unfold is_ticks; lia).
  assert (Hl : is_ticks (stats.last_reset waited_3)) by (unfold is_ticks; simpl; lia).
  assert (Hle : stats.last_reset waited_3 <= 160) by (simpl; lia).
  split; [exact Hs|]. split; [exact Hn|]. split; [exact Hl|]. split; [exact Hle|].
  split; [reflexivity|].
  exact (proj2 (proj2 (snapshot_copies_counters 160 waited_3)) (-20) Hs Hn Hl Hle).
Defined.

(** ** The size handed to the hooks *)

(** C9. A scoped read (write) timer constructed with a size of type
    [unsigned_type] passes it to [read_started] ([write_started]), whose
    parameter is [unsigned]: the hook is called with the size reduced
    modulo [2^32], and that is what the byte volume grows by.  The amount
    is the transfer size exactly when the size is below [2^32]; for any
    larger size - which a 64-bit [unsigned_type] can hold - it is
    strictly smaller. *)
Theorem timer_size_is_truncated
  (cfg : config) (size : Z) (now st : ticks) (s : stats.t) :
  STXXL_IO_STATS cfg = true ->
  0 <= size ->
  let recorded := size mod 2 ^ 32 in
  snd (scoped_read_timer.ctor cfg size) = [call_read_started recorded] /\
  snd (scoped_write_timer.ctor cfg size) = [call_write_started recorded] /\
  stats.get_read_volume
    (run cfg (observe_all [(now, st)] (snd (scoped_read_timer.ctor cfg size))) s)
    = stats.get_read_volume s + recorded /\
  stats.get_written_volume
    (run cfg (observe_all [(now, st)] (snd (scoped_write_timer.ctor cfg size))) s)
    = stats.get_written_volume s + recorded /\
  (size < 2 ^ 32 -> recorded = size) /\
  (2 ^ 32 <= size -> recorded < size).
Proof.
  intros Hon Hsize recorded.
  unfold scoped_read_timer.ctor, scoped_read_timer.start,
         scoped_write_timer.ctor, scoped_write_timer.start.
  rewrite Hon; simpl.
  unfold stats.read_started, stats.write_started. rewrite Hon; simpl.
  repeat split.
  - intros Hlt. apply Z.mod_small. lia.
  - intros Hge.
    pose proof (Z.mod_pos_bound size (2 ^ 32) ltac:(reflexivity)) as Hb.
    unfold recorded. lia.
Qed.

(** C9 at a transfer of [2^32 + 5] bytes: the volume grows by 5. *)
Lemma timer_size_is_truncated_witness :
  STXXL_IO_STATS default_config = true /\
  0 <= 2 ^ 32 + 5 /\
  snd (scoped_read_timer.ctor default_config (2 ^ 32 + 5)) = [call_read_started 5] /\
  stats.get_read_volume
    (run default_config
       (observe_all [(10, 0)] (snd (scoped_read_timer.ctor default_config (2 ^ 32 + 5))))
       (stats.ctor 0)) = 5.
Proof.
  split; [reflexivity|]. split; [discriminate|].
  pose proof (timer_size_is_truncated default_config (2 ^ 32 + 5) 10 0 (stats.ctor 0)
                eq_refl ltac:(discriminate)) as [H1 [_ [H3 _]]].
  split; [exact H1 | exact H3].
Defined.

(** ** The zero snapshot *)

(** C10. The default-constructed snapshot has all eleven members at zero,
    and it is a left and right identity of [operator +] on every snapshot
    whose [unsigned] members hold values of their type.  The same holds
    on binary64: the default-constructed snapshot has the positive zero
    in every [double] member, and adding it on either side to any
    snapshot returns that very snapshot, provided no [double] member of
    the latter is the negative zero (which the addition turns into the
    positive zero); and it returns a snapshot that compares equal to it,
    member by member under [==], provided no [double] member is a NaN
    (which compares equal to nothing). *)
Theorem zero_snapshot_is_identity (d : stats_data.t) :
  stats_data.well_typed d ->
  (stats_data.reads stats_data.zero = 0 /\
   stats_data.writes stats_data.zero = 0 /\
   stats_data.volume_read stats_data.zero = 0 /\
   stats_data.volume_written stats_data.zero = 0 /\
   stats_data.t_reads stats_data.zero = 0 /\
   stats_data.t_writes stats_data.zero = 0 /\
   stats_data.p_reads stats_data.zero = 0 /\
   stats_data.p_writes stats_data.zero = 0 /\
   stats_data.p_ios stats_data.zero = 0 /\
   stats_data.t_wait stats_data.zero = 0 /\
   stats_data.elapsed stats_data.zero = 0)
  /\ stats_data.plus d stats_data.zero = d
  /\ stats_data.plus stats_data.zero d = d
  /\ (binary64.stats_data.get_reads binary64.stats_data.zero = 0 /\
      binary64.stats_data.get_writes binary64.stats_data.zero = 0 /\
      binary64.stats_data.get_read_volume binary64.stats_data.zero = 0 /\
      binary64.stats_data.get_written_volume binary64.stats_data.zero = 0 /\
      binary64.stats_data.get_read_time binary64.stats_data.zero = PrimFloat.zero /\
      binary64.stats_data.get_write_time binary64.stats_data.zero = PrimFloat.zero /\
      binary64.stats_data.get_pread_time binary64.stats_data.zero = PrimFloat.zero /\
      binary64.stats_data.get_pwrite_time binary64.stats_data.zero = PrimFloat.zero /\
      binary64.stats_data.get_pio_time binary64.stats_data.zero = PrimFloat.zero /\
      binary64.stats_data.get_io_wait_time binary64.stats_data.zero = PrimFloat.zero /\
      binary64.stats_data.get_elapsed_time binary64.stats_data.zero = PrimFloat.zero)
  /\ (forall d64 : binary64.stats_data.t,
        binary64.stats_data.well_typed d64 ->
        binary64.stats_data.no_negative_zero d64 ->
        binary64.stats_data.plus d64 binary64.stats_data.zero = d64 /\
        binary64.stats_data.plus binary64.stats_data.zero d64 = d64)
  /\ (forall d64 : binary64.stats_data.t,
        binary64.stats_data.well_typed d64 ->
        binary64.stats_data.no_nan d64 ->
        binary64.stats_data.equal
          (binary64.stats_data.plus d64 binary64.stats_data.zero) d64 = true /\
        binary64.stats_data.equal
          (binary64.stats_data.plus binary64.stats_data.zero d64) d64 = true).
Proof.
  intros [Hr Hw]. split; [repeat split|].
  assert (Hid : stats_data.plus d stats_data.zero = d /\
                stats_data.plus stats_data.zero d = d).
  { destruct d as [r w vr vw tr tw pr pw pio twt el]; simpl in Hr, Hw.
    unfold stats_data.plus, stats_data.zero; simpl.
    rewrite !Z.add_0_r, !(to_unsigned_small _ Hr), !(to_unsigned_small _ Hw).
    split; reflexivity. }
  destruct Hid as [Hright Hleft].
  split; [exact Hright|]. split; [exact Hleft|].
  split; [repeat split|].
  split.
  - intros d64 [Hr64 Hw64] (N1 & N2 & N3 & N4 & N5 & N6 & N7).
    destruct d64 as [r w vr vw tr tw pr pw pio twt el]; simpl in *.
    unfold binary64.stats_data.plus, binary64.stats_data.zero; simpl.
    rewrite !Z.add_0_r, !(to_unsigned_small _ Hr64), !(to_unsigned_small _ Hw64).
    rewrite !add_zero_r, !add_zero_l by assumption.
    split; reflexivity.
  - intros d64 [Hr64 Hw64] (N1 & N2 & N3 & N4 & N5 & N6 & N7).
    destruct d64 as [r w vr vw tr tw pr pw pio twt el]; simpl in *.
    unfold binary64.stats_data.equal, binary64.stats_data.plus,
      binary64.stats_data.zero; simpl.
    rewrite !Z.add_0_r, !(to_unsigned_small _ Hr64), !(to_unsigned_small _ Hw64).
    rewrite !add_zero_r_eqb, !add_zero_l_eqb by assumption.
    rewrite !Z.eqb_refl. split; reflexivity.
Qed.

(** C10 at a concrete snapshot. *)
Lemma zero_snapshot_is_identity_witness :
  stats_data.well_typed sample_snapshot /\
  binary64.stats_data.well_typed (hold (-20) sample_snapshot) /\
  binary64.stats_data.no_negative_zero (hold (-20) sample_snapshot) /\
  stats_data.plus sample_snapshot stats_data.zero = sample_snapshot /\
  stats_data.plus stats_data.zero sample_snapshot = sample_snapshot /\
  binary64.stats_data.plus (hold (-20) sample_snapshot) binary64.stats_data.zero
    = hold (-20) sample_snapshot /\
  binary64.stats_data.plus binary64.stats_data.zero (hold (-20) sample_snapshot)
    = hold (-20) sample_snapshot.
Proof.
  assert (Hwt : stats_data.well_typed sample_snapshot)
    by (unfold stats_data.well_typed, is_unsigned, UINT_RANGE; simpl; lia).
  assert (Hwt64 : binary64.stats_data.well_typed (hold (-20) sample_snapshot))
    by (unfold binary64.stats_data.well_typed, is_unsigned, UINT_RANGE; simpl; lia).
  assert (Hnz : binary64.stats_data.no_negative_zero (hold (-20) sample_snapshot))
    by (unfold binary64.stats_data.no_negative_zero; simpl; repeat split;
        intros H; apply (f_equal PrimFloat.is_zero) in H;
        vm_compute in H; discriminate H).
  split; [exact Hwt|]. split; [exact Hwt64|]. split; [exact Hnz|].
  destruct (zero_snapshot_is_identity sample_snapshot Hwt)
    as (_ & H1 & H2 & _ & H3 & _).
  split; [exact H1|]. split; [exact H2|].
  exact (H3 (hold (-20) sample_snapshot) Hwt64 Hnz).
Defined.

(** ** Sequences of read operations *)

Section ReadAccounting.
Variable cfg : config.
Hypothesis io_on : STXXL_IO_STATS cfg = true.

Lemma step_read_started (now : ticks) (size_ : unsigned) (s : stats.t) :
  step cfg s (ev_read_started now size_) = stats.read_started_body now size_ s.
Proof. simpl. unfold stats.read_started. rewrite io_on. reflexivity. Qed.

Lemma step_read_finished (now st : ticks) (s : stats.t) :
  step cfg s (ev_read_finished now st) = stats.read_finished_body now st s.
Proof. simpl. unfold stats.read_finished. rewrite io_on. reflexivity. Qed.

(** One read after the other, starting with no read in flight. *)
Lemma sequential_reads_from (ops : list operation) (s : stats.t) :
  stats.acc_reads s = 0 ->
  is_unsigned (stats.reads s) ->
  let s' := run cfg (sequential_reads ops) s in
  stats.reads s' = to_unsigned (stats.reads s + Z.of_nat (length ops)) /\
  stats.volume_read s' = stats.volume_read s + zsum (map op_size ops) /\
  stats.t_reads s' = stats.t_reads s + zsum (map duration ops) /\
  stats.p_reads s' = stats.p_reads s + zsum (map duration ops) /\
  stats.acc_reads s' = 0.
Proof.
  revert s. induction ops as [|o ops IH]; intros s Hacc Hr.
  - simpl. rewrite !Z.add_0_r, (to_unsigned_small _ Hr). repeat split. exact Hacc.
  - cbn [sequential_reads flat_map read_events app run fold_left].
    rewrite step_read_started, step_read_finished.
    set (s1 := stats.read_finished_body _ _ _).
    assert (Hacc1 : stats.acc_reads s1 = 0) by (subst s1; simpl; lia).
    assert (Hr1 : is_unsigned (stats.reads s1))
      by (subst s1; simpl; apply to_unsigned_is_unsigned).
    destruct (IH s1 Hacc1 Hr1) as (Ha & Hb & Hc & Hd & He).
    unfold sequential_reads, run in Ha, Hb, Hc, Hd, He.
    rewrite Ha, Hb, Hc, Hd, He.
    subst s1; simpl. rewrite Hacc; simpl.
    rewrite to_unsigned_add_l.
    unfold duration.
    repeat split; try (f_equal; lia); lia.
Qed.

(** Fully overlapping reads: after the starts. *)
Lemma overlapped_starts_from (t0 : ticks) (sizes : list unsigned) (s : stats.t) :
  0 <= stats.acc_reads s ->
  let s' := run cfg (map (ev_read_started t0) sizes) s in
  stats.reads s' = stats.reads s /\
  stats.t_reads s' = stats.t_reads s /\
  stats.p_reads s' = stats.p_reads s /\
  stats.acc_reads s' = stats.acc_reads s + Z.of_nat (length sizes) /\
  (stats.acc_reads s = 0 -> sizes <> [] -> stats.p_begin_read s' = t0) /\
  (0 < stats.acc_reads s -> stats.p_begin_read s' = stats.p_begin_read s).
Proof.
  revert s. induction sizes as [|z sizes IH]; intros s Hacc.
  - simpl. rewrite Z.add_0_r. repeat split; try reflexivity.
    intros _ Hne; contradiction.
  - cbn [map run fold_left]. rewrite step_read_started.
    set (s1 := stats.read_started_body _ _ _).
    assert (Hacc1 : 0 <= stats.acc_reads s1) by (subst s1; simpl; lia).
    destruct (IH s1 Hacc1) as (Ha & Hb & Hc & Hd & He & Hf).
    unfold run in Ha, Hb, Hc, Hd, He, Hf.
    rewrite Ha, Hb, Hc, Hd.
    assert (Hpos : 0 < stats.acc_reads s1) by (subst s1; simpl; lia).
    rewrite (Hf Hpos).
    subst s1; simpl.
    repeat split; try lia.
    + intros H0 _. rewrite H0. reflexivity.
    + intros Hp. destruct (stats.acc_reads s =? 0) eqn:E; [|reflexivity].
      apply Z.eqb_eq in E. lia.
Qed.

(** Fully overlapping reads: [k] of the operations in flight finish. *)
Lemma overlapped_finishes_from (now st : ticks) (k : nat) (s : stats.t) :
  Z.of_nat k <= stats.acc_reads s ->
  let s' := run cfg (repeat (ev_read_finished now st) k) s in
  stats.t_reads s' = stats.t_reads s + Z.of_nat k * (now - st) /\
  stats.acc_reads s' = stats.acc_reads s - Z.of_nat k /\
  stats.p_reads s' =
    (if (stats.acc_reads s =? Z.of_nat k) && negb (stats.acc_reads s =? 0)
     then stats.p_reads s + (now - stats.p_begin_read s)
     else stats.p_reads s).
Proof.
  revert s. induction k as [|k IH]; intros s Hk.
  - simpl. rewrite Z.sub_0_r, Z.add_0_r.
    destruct (stats.acc_reads s =? 0); repeat split; reflexivity.
  - cbn [repeat run fold_left]. rewrite step_read_finished.
    set (s1 := stats.read_finished_body _ _ _).
    assert (Hk1 : Z.of_nat k <= stats.acc_reads s1) by (subst s1; simpl; lia).
    destruct (IH s1 Hk1) as (Ha & Hb & Hc).
    unfold run in Ha, Hb, Hc. rewrite Ha, Hb, Hc.
    subst s1; simpl stats.t_reads; simpl stats.acc_reads;
      simpl stats.p_reads; simpl stats.p_begin_read.
    split; [lia|]. split; [lia|].
    destruct (stats.acc_reads s =? 1) eqn:E1;
      destruct (stats.acc_reads s - 1 =? Z.of_nat k) eqn:E2;
      destruct (stats.acc_reads s - 1 =? 0) eqn:E3;
      destruct (stats.acc_reads s =? Z.of_nat (S k)) eqn:E4;
      destruct (stats.acc_reads s =? 0) eqn:E5;
      simpl; try reflexivity;
      rewrite ?Z.eqb_eq, ?Z.eqb_neq in *; lia.
Qed.

End ReadAccounting.

Lemma run_app (cfg : config) (es1 es2 : list event) (s : stats.t) :
  run cfg (es1 ++ es2) s = run cfg es2 (run cfg es1 s).
Proof. unfold run. apply fold_left_app. Qed.

(** One read after the other on binary64, whatever the clock readings:
    serial and parallel time accumulate the same rounded durations in the
    same order. *)
Lemma sequential_reads_from_binary64
  (cfg : config) (ops : list binary64.operation) (s : binary64.stats.t) :
  STXXL_IO_STATS cfg = true ->
  binary64.stats.acc_reads s = 0 ->
  is_unsigned (binary64.stats.reads s) ->
  let s' := binary64.run cfg (binary64.sequential_reads ops) s in
  binary64.stats.reads s'
    = to_unsigned (binary64.stats.reads s + Z.of_nat (length ops)) /\
  binary64.stats.volume_read s'
    = binary64.stats.volume_read s + zsum (map binary64.op_size ops) /\
  binary64.stats.t_reads s'
    = binary64.accumulate (binary64.stats.t_reads s)
        (map binary64.duration ops) /\
  binary64.stats.p_reads s'
    = binary64.accumulate (binary64.stats.p_reads s)
        (map binary64.duration ops) /\
  binary64.stats.acc_reads s' = 0.
Proof.
  intros Hon. revert s. induction ops as [|o ops IH]; intros s Hacc Hr.
  - simpl. rewrite !Z.add_0_r, (to_unsigned_small _ Hr). repeat split. exact Hacc.
  - cbn [binary64.sequential_reads flat_map binary64.read_events app
         binary64.run fold_left binary64.step].
    unfold binary64.stats.read_started, binary64.stats.read_finished.
    rewrite Hon.
    set (s1 := binary64.stats.read_finished_body _ _ _).
    assert (Hacc1 : binary64.stats.acc_reads s1 = 0) by (subst s1; simpl; lia).
    assert (Hr1 : is_unsigned (binary64.stats.reads s1))
      by (subst s1; simpl; apply to_unsigned_is_unsigned).
    destruct (IH s1 Hacc1 Hr1) as (Ha & Hb & Hc & Hd & He).
    unfold binary64.sequential_reads, binary64.run in Ha, Hb, Hc, Hd, He.
    rewrite Ha, Hb, Hc, Hd, He.
    subst s1; simpl. rewrite Hacc; simpl.
    rewrite to_unsigned_add_l.
    unfold binary64.duration.
    repeat split; try (f_equal; lia); lia.
Qed.

(** Counting of sequential reads in the exact model. *)
Lemma sequential_reads_counted_exact
  (cfg : config) (t0 : ticks) (ops : list operation)
  (now st : ticks) (size_ : unsigned) (u : stats.t) :
  STXXL_IO_STATS cfg = true ->
  let s := run cfg (sequential_reads ops) (stats.ctor t0) in
  let N := Z.of_nat (length ops) in
  stats.get_reads s = to_unsigned N /\
  (N < 2 ^ 32 -> stats.get_reads s = N) /\
  stats.get_read_volume s = zsum (map op_size ops) /\
  stats.get_read_time s = zsum (map duration ops) /\
  stats.get_pread_time s = stats.get_read_time s /\
  stats.get_read_volume (stats.read_started cfg now size_ u)
    = stats.get_read_volume u + size_ /\
  stats.get_reads (stats.read_started cfg now size_ u) = stats.get_reads u /\
  stats.get_read_volume (stats.read_finished cfg now st u)
    = stats.get_read_volume u /\
  stats.get_reads (stats.read_finished cfg now st u)
    = to_unsigned (stats.get_reads u + 1).
Proof.
  intros Hon s N.
  assert (Hz : is_unsigned (stats.reads (stats.ctor t0)))
    by (unfold is_unsigned, UINT_RANGE; simpl; lia).
  destruct (sequential_reads_from cfg Hon ops (stats.ctor t0) eq_refl Hz)
    as (Ha & Hb & Hc & Hd & _).
  fold s in Ha, Hb, Hc, Hd. simpl in Ha, Hb, Hc, Hd.
  unfold stats.get_reads, stats.get_read_volume, stats.get_read_time,
         stats.get_pread_time, stats.read_started, stats.read_finished.
  rewrite Hon, Ha, Hb, Hc, Hd. fold N.
  repeat split.
  intros Hlt. apply to_unsigned_small.
  unfold is_unsigned, UINT_RANGE, N in *. lia.
Qed.

(** C6. On a freshly constructed aggregator, after [N] reads performed one
    after the other, [get_reads()] is [N] (in the arithmetic of
    [unsigned], hence [N] itself below [2^32]), [get_read_volume()] is the
    sum of the sizes, [get_read_time()] is the sum of the durations and
    [get_pread_time()] equals [get_read_time()].  On any aggregator [u],
    [read_started] adds the size to the volume and leaves the count
    alone, while [read_finished] increments the count and leaves the
    volume alone: a start that is never finished contributes volume but
    no count.  The same
    values result on binary64, with equal serial and parallel time, as
    long as the execution involves tick counts below [2^53] only.  For
    arbitrary binary64 clock readings the count and the volume are the
    same again, the serial time is the binary64 sum, accumulated in
    order from zero, of the rounded differences finish - start, and the
    parallel time is that same number. *)
Theorem sequential_reads_counted
  (cfg : config) (t0 : ticks) (ops : list operation)
  (now st : ticks) (size_ : unsigned) (u : stats.t) :
  STXXL_IO_STATS cfg = true ->
  let s := run cfg (sequential_reads ops) (stats.ctor t0) in
  let N := Z.of_nat (length ops) in
  (stats.get_reads s = to_unsigned N /\
   (N < 2 ^ 32 -> stats.get_reads s = N) /\
   stats.get_read_volume s = zsum (map op_size ops) /\
   stats.get_read_time s = zsum (map duration ops) /\
   stats.get_pread_time s = stats.get_read_time s) /\
  (stats.get_read_volume (stats.read_started cfg now size_ u)
     = stats.get_read_volume u + size_ /\
   stats.get_reads (stats.read_started cfg now size_ u) = stats.get_reads u /\
   stats.get_read_volume (stats.read_finished cfg now st u)
     = stats.get_read_volume u /\
   stats.get_reads (stats.read_finished cfg now st u)
     = to_unsigned (stats.get_reads u + 1)) /\
  (forall e0 : Z,
      scale_ok e0 ->
      exact_run cfg (stats.ctor t0) (sequential_reads ops) ->
      let s64 := run64 e0 cfg (sequential_reads ops) t0 in
      binary64.stats.get_reads s64 = to_unsigned N /\
      binary64.stats.get_read_volume s64 = zsum (map op_size ops) /\
      binary64.stats.get_read_time s64 = seconds e0 (zsum (map duration ops)) /\
      binary64.stats.get_pread_time s64 = binary64.stats.get_read_time s64) /\
  (forall (r0 : float) (ops64 : list binary64.operation),
      let s64 := binary64.run cfg (binary64.sequential_reads ops64)
                   (binary64.stats.ctor r0) in
      binary64.stats.get_reads s64 = to_unsigned (Z.of_nat (length ops64)) /\
      binary64.stats.get_read_volume s64 = zsum (map binary64.op_size ops64) /\
      binary64.stats.get_read_time s64
        = binary64.accumulate PrimFloat.zero (map binary64.duration ops64) /\
      binary64.stats.get_pread_time s64 = binary64.stats.get_read_time s64).
Proof.
  intros Hon s N.
  destruct (sequential_reads_counted_exact cfg t0 ops now st size_ u Hon)
    as (H1 & H2 & H3 & H4 & H5 & H6 & H7 & H8 & H9).
  fold s in H1, H2, H3, H4, H5. fold N in H1, H2.
  split; [repeat split; assumption|].
  split; [repeat split; assumption|].
  split.
  { intros e0 He Hx s64.
    unfold s64. rewrite (run64_refines e0 cfg _ t0 He Hx). fold s.
    unfold stats.get_reads, stats.get_read_volume, stats.get_read_time,
           stats.get_pread_time in H1, H3, H4, H5.
    unfold binary64.stats.get_reads, binary64.stats.get_read_volume,
           binary64.stats.get_read_time, binary64.stats.get_pread_time,
           hold_stats; simpl.
    rewrite H1, H3, H5, H4. repeat split. }
  intros r0 ops64 s64.
  assert (Hz : is_unsigned (binary64.stats.reads (binary64.stats.ctor r0)))
    by (unfold is_unsigned, UINT_RANGE; simpl; lia).
  destruct (sequential_reads_from_binary64 cfg ops64 (binary64.stats.ctor r0)
              Hon eq_refl Hz) as (Ka & Kb & Kc & Kd & _).
  fold s64 in Ka, Kb, Kc, Kd. simpl in Ka, Kb, Kc, Kd.
  unfold binary64.stats.get_reads, binary64.stats.get_read_volume,
         binary64.stats.get_read_time, binary64.stats.get_pread_time.
  rewrite Ka, Kb, Kc, Kd. repeat split.
Qed.

(** C3 fails as stated when the common duration is zero: two reads that
    start and finish at the same clock reading leave the parallel time
    equal to the serial time, not strictly below it, in the exact model
    and on binary64 alike. *)
Lemma overlapped_zero_duration_not_strict :
  let s := run default_config (overlapped_reads 5 0 [4096; 4096]) (stats.ctor 0) in
  let s64 := run64 0 default_config (overlapped_reads 5 0 [4096; 4096]) 0 in
  (1 < length [4096; 4096])%nat /\
  stats.get_read_time s = 0 /\
  stats.get_pread_time s = 0 /\
  ~ (stats.get_pread_time s < stats.get_read_time s) /\
  binary64.stats.get_read_time s64 = PrimFloat.zero /\
  binary64.stats.get_pread_time s64 = PrimFloat.zero /\
  PrimFloat.ltb (binary64.stats.get_pread_time s64)
                (binary64.stats.get_read_time s64) = false.
Proof.
  cbv zeta. split; [simpl; lia|]. split; [reflexivity|]. split; [reflexivity|].
  split; [vm_compute; discriminate|].
  split; [reflexivity|]. split; reflexivity.
Qed.

(** Fully overlapping reads on binary64, whatever the clock readings. *)
Lemma overlapped_starts_from_binary64
  (cfg : config) (t0 : float) (sizes : list unsigned) (s : binary64.stats.t) :
  STXXL_IO_STATS cfg = true ->
  0 <= binary64.stats.acc_reads s ->
  let s' := binary64.run cfg (map (binary64.ev_read_started t0) sizes) s in
  binary64.stats.t_reads s' = binary64.stats.t_reads s /\
  binary64.stats.p_reads s' = binary64.stats.p_reads s /\
  binary64.stats.acc_reads s'
    = binary64.stats.acc_reads s + Z.of_nat (length sizes) /\
  (binary64.stats.acc_reads s = 0 -> sizes <> [] ->
   binary64.stats.p_begin_read s' = t0) /\
  (0 < binary64.stats.acc_reads s ->
   binary64.stats.p_begin_read s' = binary64.stats.p_begin_read s).
Proof.
  intros Hon. revert s. induction sizes as [|z sizes IH]; intros s Hacc.
  - simpl. rewrite Z.add_0_r. repeat split; try reflexivity.
    intros _ Hne; contradiction.
  - cbn [map binary64.run fold_left binary64.step].
    unfold binary64.stats.read_started. rewrite Hon.
    set (s1 := binary64.stats.read_started_body _ _ _).
    assert (Hacc1 : 0 <= binary64.stats.acc_reads s1) by (subst s1; simpl; lia).
    destruct (IH s1 Hacc1) as (Hb & Hc & Hd & He & Hf).
    unfold binary64.run in Hb, Hc, Hd, He, Hf.
    rewrite Hb, Hc, Hd.
    assert (Hpos : 0 < binary64.stats.acc_reads s1) by (subst s1; simpl; lia).
    rewrite (Hf Hpos).
    subst s1; simpl.
    repeat split; try lia.
    + intros H0 _. rewrite H0. reflexivity.
    + intros Hp. destruct (binary64.stats.acc_reads s =? 0) eqn:E; [|reflexivity].
      apply Z.eqb_eq in E. lia.
Qed.

Lemma overlapped_finishes_from_binary64
  (cfg : config) (now st : float) (k : nat) (s : binary64.stats.t) :
  STXXL_IO_STATS cfg = true ->
  Z.of_nat k <= binary64.stats.acc_reads s ->
  let s' := binary64.run cfg (repeat (binary64.ev_read_finished now st) k) s in
  binary64.stats.t_reads s'
    = binary64.accumulate (binary64.stats.t_reads s)
        (repeat (PrimFloat.sub now st) k) /\
  binary64.stats.acc_reads s' = binary64.stats.acc_reads s - Z.of_nat k /\
  binary64.stats.p_reads s' =
    (if (binary64.stats.acc_reads s =? Z.of_nat k)
        && negb (binary64.stats.acc_reads s =? 0)
     then PrimFloat.add (binary64.stats.p_reads s)
            (PrimFloat.sub now (binary64.stats.p_begin_read s))
     else binary64.stats.p_reads s).
Proof.
  intros Hon. revert s. induction k as [|k IH]; intros s Hk.
  - simpl. rewrite Z.sub_0_r.
    destruct (binary64.stats.acc_reads s =? 0); repeat split; reflexivity.
  - cbn [repeat binary64.run fold_left binary64.step].
    unfold binary64.stats.read_finished. rewrite Hon.
    set (s1 := binary64.stats.read_finished_body _ _ _).
    assert (Hk1 : Z.of_nat k <= binary64.stats.acc_reads s1)
      by (subst s1; simpl; lia).
    destruct (IH s1 Hk1) as (Ha & Hb & Hc).
    unfold binary64.run in Ha, Hb, Hc. rewrite Ha, Hb, Hc.
    subst s1; simpl binary64.stats.t_reads; simpl binary64.stats.acc_reads;
      simpl binary64.stats.p_reads; simpl binary64.stats.p_begin_read.
    split; [reflexivity|]. split; [lia|].
    destruct (binary64.stats.acc_reads s =? 1) eqn:E1;
      destruct (binary64.stats.acc_reads s - 1 =? Z.of_nat k) eqn:E2;
      destruct (binary64.stats.acc_reads s - 1 =? 0) eqn:E3;
      destruct (binary64.stats.acc_reads s =? Z.of_nat (S k)) eqn:E4;
      destruct (binary64.stats.acc_reads s =? 0) eqn:E5;
      simpl; try reflexivity;
      rewrite ?Z.eqb_eq, ?Z.eqb_neq in *; lia.
Qed.

Lemma run_app_binary64
  (cfg : config) (es1 es2 : list binary64.event) (s : binary64.stats.t) :
  binary64.run cfg (es1 ++ es2) s = binary64.run cfg es2 (binary64.run cfg es1 s).
Proof. unfold binary64.run. apply fold_left_app. Qed.

Lemma overlapped_reads_times_binary64
  (cfg : config) (r0 t0 t1 : float) (sizes : list unsigned) :
  STXXL_IO_STATS cfg = true ->
  sizes <> [] ->
  let s := binary64.run cfg (binary64.overlapped_reads t0 t1 sizes)
             (binary64.stats.ctor r0) in
  binary64.stats.get_read_time s
    = binary64.accumulate PrimFloat.zero
        (repeat (PrimFloat.sub t1 t0) (length sizes)) /\
  binary64.stats.get_pread_time s
    = binary64.accumulate PrimFloat.zero [PrimFloat.sub t1 t0].
Proof.
  intros Hon Hne s.
  assert (HK : 1 <= Z.of_nat (length sizes)).
  { destruct sizes; [contradiction|]. simpl length. lia. }
  unfold s, binary64.overlapped_reads. rewrite run_app_binary64.
  destruct (overlapped_starts_from_binary64 cfg t0 sizes
              (binary64.stats.ctor r0) Hon)
    as (Hb & Hc & Hd & He & _); [simpl; lia|].
  set (s1 := binary64.run cfg (map (binary64.ev_read_started t0) sizes)
               (binary64.stats.ctor r0)) in *.
  simpl in Hb, Hc, Hd. specialize (He eq_refl Hne).
  destruct (overlapped_finishes_from_binary64 cfg t1 t0 (length sizes) s1 Hon)
    as (Hf & _ & Hg); [rewrite Hd; lia|].
  unfold binary64.stats.get_read_time, binary64.stats.get_pread_time.
  rewrite Hf, Hg, Hb, Hc, Hd, He.
  rewrite Z.eqb_refl.
  replace (Z.of_nat (length sizes) =? 0) with false
    by (symmetry; apply Z.eqb_neq; lia).
  split; reflexivity.
Qed.

(** Fully overlapping reads in the exact model. *)
Lemma overlapped_reads_times_exact
  (cfg : config) (c0 t0 d : ticks) (sizes : list unsigned) :
  STXXL_IO_STATS cfg = true ->
  sizes <> [] ->
  let K := Z.of_nat (length sizes) in
  let s := run cfg (overlapped_reads t0 d sizes) (stats.ctor c0) in
  stats.get_read_time s = K * d /\
  stats.get_pread_time s = d /\
  (1 < K -> 0 < d -> stats.get_pread_time s < stats.get_read_time s).
Proof.
  intros Hon Hne K s.
  assert (HK : 1 <= K).
  { unfold K. destruct sizes; [contradiction|]. simpl length. lia. }
  unfold s, overlapped_reads. rewrite run_app.
  destruct (overlapped_starts_from cfg Hon t0 sizes (stats.ctor c0))
    as (_ & Hb & Hc & Hd & He & _); [simpl; lia|].
  set (s1 := run cfg (map (ev_read_started t0) sizes) (stats.ctor c0)) in *.
  simpl in Hb, Hc, Hd. specialize (He eq_refl Hne).
  destruct (overlapped_finishes_from cfg Hon (t0 + d) t0 (length sizes) s1)
    as (Hf & _ & Hg); [rewrite Hd; lia|].
  unfold stats.get_read_time, stats.get_pread_time.
  rewrite Hf, Hg, Hb, Hc, Hd, He. fold K.
  rewrite Z.eqb_refl.
  replace (K =? 0) with false by (symmetry; apply Z.eqb_neq; lia).
  simpl. replace (t0 + d - t0) with d by lia.
  split; [reflexivity|]. split; [reflexivity|].
  intros H1 Hd0. nia.
Qed.

(** C3, amended.  On a freshly constructed aggregator, after [K >= 1]
    reads that all start at [t0] and all finish at [t0 + d],
    [get_read_time()] is [K * d] and [get_pread_time()] is [d]; when
    [K > 1] and the duration [d] is positive, the parallel time is
    strictly less than the serial time.  The same values
    and the same strict comparison result on binary64 as long as the
    execution involves tick counts below [2^53] only.  For arbitrary
    binary64 clock readings [r1] and [r2] of the starts and the finishes,
    the serial time is the rounded difference [r2 - r1] added [K] times
    in binary64 onto zero, and the parallel time is that difference added
    once. *)
Theorem overlapped_reads_times
  (cfg : config) (c0 t0 d : ticks) (sizes : list unsigned) :
  STXXL_IO_STATS cfg = true ->
  sizes <> [] ->
  let K := Z.of_nat (length sizes) in
  let s := run cfg (overlapped_reads t0 d sizes) (stats.ctor c0) in
  (stats.get_read_time s = K * d /\
   stats.get_pread_time s = d /\
   (1 < K -> 0 < d -> stats.get_pread_time s < stats.get_read_time s)) /\
  (forall e0 : Z,
      scale_ok e0 ->
      exact_run cfg (stats.ctor c0) (overlapped_reads t0 d sizes) ->
      let s64 := run64 e0 cfg (overlapped_reads t0 d sizes) c0 in
      binary64.stats.get_read_time s64 = seconds e0 (K * d) /\
      binary64.stats.get_pread_time s64 = seconds e0 d /\
      (1 < K -> 0 < d ->
       PrimFloat.ltb (binary64.stats.get_pread_time s64)
                     (binary64.stats.get_read_time s64) = true)) /\
  (forall r0 r1 r2 : float,
      let s64 := binary64.run cfg (binary64.overlapped_reads r1 r2 sizes)
                   (binary64.stats.ctor r0) in
      binary64.stats.get_read_time s64
        = binary64.accumulate PrimFloat.zero
            (repeat (PrimFloat.sub r2 r1) (length sizes)) /\
      binary64.stats.get_pread_time s64
        = binary64.accumulate PrimFloat.zero [PrimFloat.sub r2 r1]).
Proof.
  intros Hon Hne K s.
  destruct (overlapped_reads_times_exact cfg c0 t0 d sizes Hon Hne)
    as (H1 & H2 & H3).
  fold K in H1, H3. fold s in H1, H2, H3.
  split; [repeat split; assumption|].
  split; cycle 1.
  { intros r0 r1 r2.
    exact (overlapped_reads_times_binary64 cfg r0 r1 r2 sizes Hon Hne). }
  intros e0 He Hx s64.
  pose proof (exact_run_ticks cfg _ _ (ctor_ticks c0) Hx)
    as ((T1 & _ & T3 & _) & _).
  fold s in T1, T3.
  unfold s64. rewrite (run64_refines e0 cfg _ c0 He Hx). fold s.
  unfold stats.get_read_time, stats.get_pread_time in H1, H2, H3.
  unfold binary64.stats.get_read_time, binary64.stats.get_pread_time,
         hold_stats; simpl.
  split; [rewrite H1; reflexivity|]. split; [rewrite H2; reflexivity|].
  intros HK Hd.
  rewrite seconds_ltb by assumption.
  apply Z.ltb_lt. apply H3; assumption.
Qed.

(** C3, amended, at three reads of duration 7 started at time 100, in
    ticks of [2^-20] seconds. *)
Lemma overlapped_reads_times_witness :
  STXXL_IO_STATS default_config = true /\
  [512; 1024; 4096] <> [] /\
  let es := overlapped_reads 100 7 [512; 1024; 4096] in
  let s := run default_config es (stats.ctor 0) in
  let s64 := run64 (-20) default_config es 0 in
  scale_ok (-20) /\ exact_run default_config (stats.ctor 0) es /\
  stats.get_read_time s = 21 /\
  stats.get_pread_time s = 7 /\
  stats.get_pread_time s < stats.get_read_time s /\
  binary64.stats.get_read_time s64 = seconds (-20) 21 /\
  binary64.stats.get_pread_time s64 = seconds (-20) 7 /\
  PrimFloat.ltb (binary64.stats.get_pread_time s64)
                (binary64.stats.get_read_time s64) = true.
Proof.
  split; [reflexivity|]. split; [discriminate|].
  intros es s s64.
  assert (Hs : scale_ok (-20)) by (unfold scale_ok; lia).
  assert (Hx : exact_run default_config (stats.ctor 0) es)
    by (unfold es; simpl; unfold exact_step, ticks_state, is_ticks; simpl;
        repeat split; lia).
  split; [exact Hs|]. split; [exact Hx|].
  pose proof (overlapped_reads_times default_config 0 100 7 [512; 1024; 4096]
                eq_refl ltac:(discriminate)) as ((Ha & Hb & Hc) & H64 & _).
  split; [exact Ha|]. split; [exact Hb|].
  split; [apply Hc; reflexivity|].
  destruct (H64 (-20) Hs Hx) as (Hd & He & Hf).
  split; [exact Hd|]. split; [exact He|].
  apply Hf; reflexivity.
Defined.

(** C6 at three reads of 512, 1024 and 4096 bytes lasting 3, 5 and 2
    ticks of [2^-20] seconds. *)
Lemma sequential_reads_counted_witness :
  STXXL_IO_STATS default_config = true /\
  let ops := [mk_operation 512 10 13; mk_operation 1024 13 18; mk_operation 4096 20 22] in
  let s := run default_config (sequential_reads ops) (stats.ctor 0) in
  let s64 := run64 (-20) default_config (sequential_reads ops) 0 in
  scale_ok (-20) /\
  exact_run default_config (stats.ctor 0) (sequential_reads ops) /\
  stats.get_reads s = 3 /\
  stats.get_read_volume s = 5632 /\
  stats.get_read_time s = 10 /\
  stats.get_pread_time s = stats.get_read_time s /\
  binary64.stats.get_read_time s64 = seconds (-20) 10 /\
  binary64.stats.get_pread_time s64 = binary64.stats.get_read_time s64.
Proof.
  split; [reflexivity|].
  intros ops s s64.
  assert (Hs : scale_ok (-20)) by (unfold scale_ok; lia).
  assert (Hx : exact_run default_config (stats.ctor 0) (sequential_reads ops))
    by (unfold ops; simpl; unfold exact_step, ticks_state, is_ticks; simpl;
        repeat split; lia).
  split; [exact Hs|]. split; [exact Hx|].
  pose proof (sequential_reads_counted default_config 0 ops 0 0 0 (stats.ctor 0)
                eq_refl) as ((_ & Ha & Hb & Hc & Hd) & _ & H64 & _).
  split; [apply Ha; reflexivity|]. split; [exact Hb|].
  split; [exact Hc|]. split; [exact Hd|].
  destruct (H64 (-20) Hs Hx) as (_ & _ & He & Hf).
  split; [exact He | exact Hf].
Defined.

(** ** Combined read and write time *)

Ltac run_io_on Hon :=
  unfold run, read_events, write_events;
  cbn [app fold_left step];
  unfold stats.read_started, stats.read_finished,
         stats.write_started, stats.write_finished;
  rewrite Hon;
  unfold stats.get_pio_time, stats.read_started_body, stats.read_finished_body,
         stats.write_started_body, stats.write_finished_body;
  cbn.

(** Combined time of one read and one write in the exact model. *)
Lemma combined_io_time_is_union_exact
  (cfg : config) (c0 : ticks) (r w : operation)
  (now : ticks) (size_ : unsigned) (u : stats.t) :
  STXXL_IO_STATS cfg = true ->
  stats.get_pio_time (run cfg (read_events r ++ write_events w) (stats.ctor c0))
    = duration r + duration w /\
  stats.get_pio_time (run cfg (write_events w ++ read_events r) (stats.ctor c0))
    = duration r + duration w /\
  (nested r w ->
   forall es, In es (overlapped_orders r w) ->
     chronological c0 es ->
     stats.get_pio_time (run cfg es (stats.ctor c0))
       = Z.max (duration r) (duration w)) /\
  stats.acc_ios (stats.read_started cfg now size_ u) = stats.acc_ios u + 1 /\
  stats.acc_ios (stats.write_started cfg now size_ u) = stats.acc_ios u + 1.
Proof.
  intros Hon.
  split; [|split; [|split; [|split]]].
  - run_io_on Hon. unfold duration. lia.
  - run_io_on Hon. unfold duration. lia.
  - intros Hnest es Hin Hchr.
    unfold overlapped_orders in Hin. simpl in Hin.
    unfold nested in Hnest. unfold duration.
    destruct Hin as [E|[E|[E|[E|[]]]]]; subst es;
      simpl in Hchr; run_io_on Hon; lia.
  - unfold stats.read_started. rewrite Hon. reflexivity.
  - unfold stats.write_started. rewrite Hon. reflexivity.
Qed.

(** C4. On a freshly constructed aggregator, a read and a write that do
    not overlap (either one first) leave [p_ios] at the sum of their
    durations.  If instead they are in flight together and one interval
    lies within the other, then in each order in which the aggregator can
    see the four events [p_ios] is the larger of the two durations.  On
    any aggregator, [read_started] and [write_started] each increment
    [acc_ios] by one, whatever [acc_reads] and [acc_writes] are.  The same values
    of [p_ios] result on binary64 as long as the execution involves tick
    counts below [2^53] only.  For arbitrary binary64 clock readings,
    [p_ios] is the binary64 sum of the two rounded durations in the first
    case; in the second it is, in each of the four orders, the rounded
    time from the first start to the last finish, which is the duration
    of the enclosing operation when one interval lies within the other. *)
Theorem combined_io_time_is_union
  (cfg : config) (c0 : ticks) (r w : operation)
  (now : ticks) (size_ : unsigned) (u : stats.t) :
  STXXL_IO_STATS cfg = true ->
  (stats.get_pio_time (run cfg (read_events r ++ write_events w) (stats.ctor c0))
     = duration r + duration w /\
   stats.get_pio_time (run cfg (write_events w ++ read_events r) (stats.ctor c0))
     = duration r + duration w) /\
  (nested r w ->
   forall es, In es (overlapped_orders r w) ->
     chronological c0 es ->
     stats.get_pio_time (run cfg es (stats.ctor c0))
       = Z.max (duration r) (duration w)) /\
  (stats.acc_ios (stats.read_started cfg now size_ u) = stats.acc_ios u + 1 /\
   stats.acc_ios (stats.write_started cfg now size_ u) = stats.acc_ios u + 1) /\
  (forall e0 : Z,
      scale_ok e0 ->
      (exact_run cfg (stats.ctor c0) (read_events r ++ write_events w) ->
       binary64.stats.get_pio_time
         (run64 e0 cfg (read_events r ++ write_events w) c0)
       = seconds e0 (duration r + duration w)) /\
      (exact_run cfg (stats.ctor c0) (write_events w ++ read_events r) ->
       binary64.stats.get_pio_time
         (run64 e0 cfg (write_events w ++ read_events r) c0)
       = seconds e0 (duration r + duration w)) /\
      (nested r w ->
       forall es, In es (overlapped_orders r w) ->
         chronological c0 es ->
         exact_run cfg (stats.ctor c0) es ->
         binary64.stats.get_pio_time (run64 e0 cfg es c0)
         = seconds e0 (Z.max (duration r) (duration w)))) /\
  (forall (r0 : float) (r64 w64 : binary64.operation),
      let rs := binary64.ev_read_started (binary64.op_start r64)
                  (binary64.op_size r64) in
      let rf := binary64.ev_read_finished (binary64.op_finish r64)
                  (binary64.op_start r64) in
      let ws := binary64.ev_write_started (binary64.op_start w64)
                  (binary64.op_size w64) in
      let wf := binary64.ev_write_finished (binary64.op_finish w64)
                  (binary64.op_start w64) in
      let pio es := binary64.stats.get_pio_time
                      (binary64.run cfg es (binary64.stats.ctor r0)) in
      pio (binary64.read_events r64 ++ binary64.write_events w64)
        = binary64.accumulate PrimFloat.zero
            [binary64.duration r64; binary64.duration w64] /\
      pio (binary64.write_events w64 ++ binary64.read_events r64)
        = binary64.accumulate PrimFloat.zero
            [binary64.duration w64; binary64.duration r64] /\
      pio [rs; ws; rf; wf]
        = binary64.accumulate PrimFloat.zero [binary64.span r64 w64] /\
      pio [rs; ws; wf; rf]
        = binary64.accumulate PrimFloat.zero [binary64.span r64 r64] /\
      pio [ws; rs; rf; wf]
        = binary64.accumulate PrimFloat.zero [binary64.span w64 w64] /\
      pio [ws; rs; wf; rf]
        = binary64.accumulate PrimFloat.zero [binary64.span w64 r64]).
Proof.
  intros Hon.
  destruct (combined_io_time_is_union_exact cfg c0 r w now size_ u Hon)
    as (H1 & H2 & H3 & H4 & H5).
  split; [split; assumption|].
  split; [exact H3|].
  split; [split; assumption|].
  split; cycle 1.
  { intros r0 r64 w64 rs rf ws wf pio.
    unfold pio, rs, rf, ws, wf, binary64.run, binary64.read_events,
      binary64.write_events.
    cbn [app fold_left binary64.step].
    unfold binary64.stats.read_started, binary64.stats.read_finished,
      binary64.stats.write_started, binary64.stats.write_finished.
    rewrite Hon. repeat split. }
  intros e0 He.
  unfold stats.get_pio_time in H1, H2, H3.
  split; [|split].
  - intros Hx. rewrite (run64_refines e0 cfg _ c0 He Hx).
    unfold binary64.stats.get_pio_time, hold_stats;
      cbn [binary64.stats.p_ios].
    rewrite H1. reflexivity.
  - intros Hx. rewrite (run64_refines e0 cfg _ c0 He Hx).
    unfold binary64.stats.get_pio_time, hold_stats;
      cbn [binary64.stats.p_ios].
    rewrite H2. reflexivity.
  - intros Hn es Hin Hc Hx. rewrite (run64_refines e0 cfg _ c0 He Hx).
    unfold binary64.stats.get_pio_time, hold_stats;
      cbn [binary64.stats.p_ios].
    rewrite (H3 Hn es Hin Hc). reflexivity.
Qed.

(** C4 at a read over [10, 40] and a write over [15, 30] within it, seen
    as read start, write start, write finish, read finish; and at the same
    read followed by a write over [50, 58]; in ticks of [2^-20] seconds. *)
Lemma combined_io_time_is_union_witness :
  STXXL_IO_STATS default_config = true /\
  let r := mk_operation 4096 10 40 in
  let w := mk_operation 512 15 30 in
  let w' := mk_operation 512 50 58 in
  let es := [ev_read_started 10 4096; ev_write_started 15 512;
             ev_write_finished 30 15; ev_read_finished 40 10] in
  nested r w /\ In es (overlapped_orders r w) /\ chronological 0 es /\
  scale_ok (-20) /\ exact_run default_config (stats.ctor 0) es /\
  exact_run default_config (stats.ctor 0) (read_events r ++ write_events w') /\
  stats.get_pio_time (run default_config es (stats.ctor 0)) = 30 /\
  stats.get_pio_time
    (run default_config (read_events r ++ write_events w') (stats.ctor 0)) = 38 /\
  binary64.stats.get_pio_time (run64 (-20) default_config es 0) = seconds (-20) 30 /\
  binary64.stats.get_pio_time
    (run64 (-20) default_config (read_events r ++ write_events w') 0)
    = seconds (-20) 38.
Proof.
  split; [reflexivity|].
  intros r w w' es.
  assert (Hn : nested r w) by (left; simpl; lia).
  assert (Hin : In es (overlapped_orders r w)) by (right; left; reflexivity).
  assert (Hc : chronological 0 es) by (simpl; lia).
  assert (Hs : scale_ok (-20)) by (unfold scale_ok; lia).
  assert (Hx : exact_run default_config (stats.ctor 0) es)
    by (unfold es; simpl; unfold exact_step, ticks_state, is_ticks; simpl;
        repeat split; lia).
  assert (Hx' : exact_run default_config (stats.ctor 0)
                  (read_events r ++ write_events w'))
    by (simpl; unfold exact_step, ticks_state, is_ticks; simpl;
        repeat split; lia).
  split; [exact Hn|]. split; [exact Hin|]. split; [exact Hc|].
  split; [exact Hs|]. split; [exact Hx|]. split; [exact Hx'|].
  pose proof (combined_io_time_is_union default_config 0 r w 0 0 (stats.ctor 0)
                eq_refl) as (_ & Hnest & _ & H64 & _).
  pose proof (combined_io_time_is_union default_config 0 r w' 0 0 (stats.ctor 0)
                eq_refl) as ((Hdis & _) & _ & _ & H64' & _).
  split; [exact (Hnest Hn es Hin Hc)|].
  split; [exact Hdis|].
  split.
  - exact (proj2 (proj2 (H64 (-20) Hs)) Hn es Hin Hc Hx).
  - exact (proj1 (H64' (-20) Hs) Hx').
Defined.

(** ** Differences of snapshots *)

Lemma to_unsigned_add_r (a b : Z) :
  to_unsigned (a + to_unsigned b) = to_unsigned (a + b).
Proof. unfold to_unsigned. apply Zplus_mod_idemp_r. Qed.

Lemma to_unsigned_incr (a b : Z) :
  to_unsigned (to_unsigned (a + b) + 1) = to_unsigned (a + to_unsigned (b + 1)).
Proof.
  rewrite to_unsigned_add_l, to_unsigned_add_r. f_equal. lia.
Qed.

Lemma in_step_step (cfg : config) (b s' f' : stats.t) (e : event) :
  is_reset e = false ->
  in_step b s' f' ->
  in_step b (step cfg s' e) (step cfg f' e).
Proof.
  intros Hnr ((Hr & Hw & Hur & Huw) & (Hvr & Hvw)
              & (Htr & Htw & Hpr & Hpw & Hpio & Htwt)
              & (Har & Haw & Haio & Hawt)
              & (Hbr & Hbw & Hbio & Hbwt) & Hlr).
  destruct cfg as [io wt].
  destruct e; try discriminate Hnr; simpl;
    unfold stats.read_started, stats.read_finished, stats.write_started,
           stats.write_finished, stats.wait_started, stats.wait_finished;
    simpl;
    try (destruct io); try (destruct wt); simpl;
    unfold in_step; simpl;
    rewrite ?Hr, ?Hw, ?Hvr, ?Hvw, ?Htr, ?Htw, ?Hpr, ?Hpw, ?Hpio, ?Htwt,
            ?Har, ?Haw, ?Haio, ?Hawt, ?Hlr;
    rewrite ?to_unsigned_incr;
    rewrite Har in Hbr; rewrite Haw in Hbw;
    rewrite Haio in Hbio; rewrite Hawt in Hbwt;
    split_conj;
    try apply to_unsigned_is_unsigned;
    try assumption;
    try reflexivity;
    split_eqb; intros; rewrite ?Hbr, ?Hbw, ?Hbio, ?Hbwt by lia; lia.
Qed.

Lemma in_step_run (cfg : config) (b : stats.t) (es : list event) (s' f' : stats.t) :
  no_reset es ->
  in_step b s' f' ->
  in_step b (run cfg es s') (run cfg es f').
Proof.
  revert s' f'. induction es as [|e es IH]; intros s' f' Hnr H.
  - exact H.
  - unfold no_reset in Hnr. simpl in Hnr.
    apply andb_prop in Hnr. destruct Hnr as [He Hes].
    apply negb_true_iff in He.
    simpl. apply IH; [exact Hes|].
    apply in_step_step; assumption.
Qed.

Lemma in_step_init (b : stats.t) (t1 : ticks) :
  idle b -> stats_well_typed b -> in_step b b (stats.ctor t1).
Proof.
  intros (H1 & H2 & H3 & H4) (Hr & Hw).
  unfold in_step; simpl.
  rewrite !Z.add_0_r, !to_unsigned_small by assumption.
  rewrite H1, H2, H3, H4.
  repeat split; try reflexivity; try lia;
    unfold is_unsigned, UINT_RANGE; lia.
Qed.

Lemma step_well_typed (cfg : config) (s : stats.t) (e : event) :
  stats_well_typed s -> stats_well_typed (step cfg s e).
Proof.
  intros [Hr Hw]. destruct cfg as [io wt].
  destruct e; simpl;
    unfold stats.read_started, stats.read_finished, stats.write_started,
           stats.write_finished, stats.wait_started, stats.wait_finished;
    simpl; try (destruct io); try (destruct wt);
    unfold stats_well_typed; simpl; split;
    try assumption; try apply to_unsigned_is_unsigned;
    unfold is_unsigned, UINT_RANGE; lia.
Qed.

Lemma run_well_typed (cfg : config) (es : list event) (s : stats.t) :
  stats_well_typed s -> stats_well_typed (run cfg es s).
Proof.
  revert s. induction es as [|e es IH]; intros s H; [exact H|].
  simpl. apply IH, step_well_typed, H.
Qed.

Lemma run_last_reset (cfg : config) (es : list event) (s : stats.t) :
  no_reset es -> stats.last_reset (run cfg es s) = stats.last_reset s.
Proof.
  revert s. induction es as [|e es IH]; intros s Hnr; [reflexivity|].
  unfold no_reset in Hnr. simpl in Hnr.
  apply andb_prop in Hnr. destruct Hnr as [He Hes].
  simpl. rewrite (IH _ Hes).
  destruct cfg as [io wt].
  destruct e; try discriminate He; simpl;
    unfold stats.read_started, stats.read_finished, stats.write_started,
           stats.write_finished, stats.wait_started, stats.wait_finished;
    simpl; try (destruct io); try (destruct wt); reflexivity.
Qed.

Lemma plus_minus_cancel (x y : stats_data.t) :
  stats_data.well_typed y ->
  stats_data.plus (stats_data.minus y x) x = y.
Proof.
  intros [Hr Hw].
  destruct x as [r w vr vw tr tw pr pw pio twt el].
  destruct y as [r' w' vr' vw' tr' tw' pr' pw' pio' twt' el'].
  simpl in Hr, Hw.
  unfold stats_data.plus, stats_data.minus; simpl.
  rewrite (to_unsigned_sub_add r' r Hr), (to_unsigned_sub_add w' w Hw).
  f_equal; lia.
Qed.

Lemma to_unsigned_add_sub (b f : Z) :
  is_unsigned f -> to_unsigned (to_unsigned (b + f) - b) = f.
Proof.
  intros Hf. unfold to_unsigned.
  rewrite Zminus_mod_idemp_l.
  replace (b + f - b) with f by lia.
  apply Z.mod_small. exact Hf.
Qed.

(** C2 fails as stated when an operation is in flight at the first
    snapshot.  A read of 100 bytes starts at time 0 and finishes at time
    2; snapshot [A] is taken at time 1, snapshot [B] at time 3; the whole
    execution abides by the callers' contract and contains no reset.
    [B - A] reports one read with a parallel read time of 2.  A fresh
    aggregator that sees what happened between the snapshots - the finish
    alone - reports a parallel read time of 0, and a snapshot of no
    operation at all reports no read.  The binary64 computation gives the
    same two parallel read times, 2 and 0. *)
Lemma difference_with_read_in_flight :
  let before := [ev_read_started 0 100] in
  let between := [ev_read_finished 2 0] in
  let s := run default_config before (stats.ctor 0) in
  let A := stats_data.of_stats 1 s in
  let B := stats_data.of_stats 3 (run default_config between s) in
  let s64 := run64 0 default_config before 0 in
  let A64 := binary64.stats_data.of_stats (seconds 0 1) s64 in
  let B64 := binary64.stats_data.of_stats (seconds 0 3)
               (binary64.run default_config (map (hold_event 0) between) s64) in
  let W64 := binary64.stats_data.of_stats (seconds 0 3)
               (run64 0 default_config between 1) in
  abides 0 (before ++ between) /\ no_reset (before ++ between) /\ 1 < 3 /\
  stats_data.get_reads (stats_data.minus B A) = 1 /\
  stats_data.get_pread_time (stats_data.minus B A) = 2 /\
  stats_data.get_pread_time
    (stats_data.of_stats 3 (run default_config between (stats.ctor 1))) = 0 /\
  stats_data.minus B A
    <> stats_data.of_stats 3 (run default_config between (stats.ctor 1)) /\
  stats_data.minus B A <> stats_data.of_stats 3 (stats.ctor 1) /\
  binary64.stats_data.p_reads (binary64.stats_data.minus B64 A64) = seconds 0 2 /\
  binary64.stats_data.p_reads W64 = seconds 0 0 /\
  PrimFloat.eqb (binary64.stats_data.p_reads (binary64.stats_data.minus B64 A64))
                (binary64.stats_data.p_reads W64) = false.
Proof.
  cbv zeta.
  split; [eexists; reflexivity|].
  split; [reflexivity|]. split; [reflexivity|].
  split; [reflexivity|]. split; [reflexivity|]. split; [reflexivity|].
  split; [vm_compute; discriminate|].
  split; [vm_compute; discriminate|].
  split; [reflexivity|]. split; reflexivity.
Qed.

(** C2, amended.  Let snapshot [A] be taken at time [t1] of an aggregator
    with no operation in flight, and snapshot [B] at time [t2] after any
    events other than a reset.  Then [B - A] equals, member by member,
    the snapshot taken at [t2] of an aggregator freshly constructed at
    [t1] that has seen exactly those events; and [(Y - X) + X = Y] for all
    snapshots [X] and [Y] (whose [unsigned] members hold values of their
    type, as those of [B] do), in every member including [elapsed].  On
    binary64 the same two equations hold between the snapshots that the
    header's constructor, [operator -] and [operator +] compute, as long
    as the executions, the two snapshots and their difference involve
    tick counts below [2^53] only. *)
Theorem snapshot_difference_is_window
  (cfg : config) (s : stats.t) (es : list event) (t1 t2 : ticks) :
  idle s ->
  stats_well_typed s ->
  no_reset es ->
  let A := stats_data.of_stats t1 s in
  let B := stats_data.of_stats t2 (run cfg es s) in
  stats_data.minus B A = stats_data.of_stats t2 (run cfg es (stats.ctor t1)) /\
  stats_data.well_typed B /\
  (forall X Y : stats_data.t,
      stats_data.well_typed Y ->
      stats_data.plus (stats_data.minus Y X) X = Y) /\
  stats_data.plus (stats_data.minus B A) A = B /\
  (forall e0 : Z,
      scale_ok e0 ->
      exact_run cfg s es -> exact_run cfg (stats.ctor t1) es ->
      is_ticks (stats.last_reset s) -> stats.last_reset s <= t1 ->
      is_ticks t1 -> t1 <= t2 -> is_ticks t2 ->
      in_range A -> in_range B -> in_range (stats_data.minus B A) ->
      let s64 := hold_stats e0 s in
      let A64 := binary64.stats_data.of_stats (seconds e0 t1) s64 in
      let B64 := binary64.stats_data.of_stats (seconds e0 t2)
                   (binary64.run cfg (map (hold_event e0) es) s64) in
      binary64.stats_data.minus B64 A64
        = binary64.stats_data.of_stats (seconds e0 t2) (run64 e0 cfg es t1) /\
      binary64.stats_data.plus (binary64.stats_data.minus B64 A64) A64 = B64).
Proof.
  intros Hidle Hwt Hnr A B.
  assert (HB : stats_data.well_typed B).
  { destruct (run_well_typed cfg es s Hwt) as [Hr Hw].
    unfold B, stats_data.well_typed; simpl. split; assumption. }
  assert (Hwin : stats_data.minus B A
                 = stats_data.of_stats t2 (run cfg es (stats.ctor t1))).
  { pose proof (in_step_run cfg s es s (stats.ctor t1) Hnr
                  (in_step_init s t1 Hidle Hwt))
      as ((Hr & Hw & Hur & Huw) & (Hvr & Hvw)
          & (Htr & Htw & Hpr & Hpw & Hpio & Htwt) & _ & _ & Hlr).
    pose proof (run_last_reset cfg es (stats.ctor t1) Hnr) as Hlf.
    simpl in Hlf.
    unfold A, B, stats_data.minus, stats_data.of_stats,
      stats.get_reads, stats.get_writes, stats.get_read_volume,
      stats.get_written_volume, stats.get_read_time, stats.get_write_time,
      stats.get_pread_time, stats.get_pwrite_time, stats.get_pio_time,
      stats.get_io_wait_time, stats.get_last_reset_time; simpl.
    rewrite Hr, Hw, Hvr, Hvw, Htr, Htw, Hpr, Hpw, Hpio, Htwt, Hlr, Hlf.
    rewrite (to_unsigned_add_sub _ _ Hur), (to_unsigned_add_sub _ _ Huw).
    f_equal; lia. }
  split; [exact Hwin|]. split; [exact HB|].
  split; [exact plus_minus_cancel|].
  split; [apply plus_minus_cancel; exact HB|].
  intros e0 He Hx Hx1 Hl Hl1 Ht1 H12 Ht2 HA HBr Hd s64 A64 B64.
  pose proof (run_last_reset cfg es s Hnr) as Hls.
  pose proof (run_last_reset cfg es (stats.ctor t1) Hnr) as Hlf.
  simpl in Hlf.
  assert (EA : A64 = hold e0 A)
    by (apply of_stats_refines; assumption).
  assert (EB : B64 = hold e0 B).
  { unfold B64, s64. rewrite (run_refines e0 cfg es s He Hx).
    apply of_stats_refines; rewrite ?Hls; try assumption. lia. }
  assert (EW : binary64.stats_data.of_stats (seconds e0 t2) (run64 e0 cfg es t1)
               = hold e0 (stats_data.of_stats t2 (run cfg es (stats.ctor t1)))).
  { rewrite (run64_refines e0 cfg es t1 He Hx1).
    apply of_stats_refines; rewrite ?Hlf; assumption. }
  rewrite EA, EB, EW.
  rewrite (minus_refines e0 B A He HBr HA Hd).
  split; [rewrite Hwin; reflexivity|].
  rewrite plus_refines;
    rewrite ?(plus_minus_cancel A B HB); try assumption.
  reflexivity.
Qed.

(** C2, amended, on an aggregator that has completed one read of 100
    bytes over [0, 2]; between the snapshots at times 5 and 20 a write of
    64 bytes runs over [6, 9] and a read of 32 bytes starts at 12. *)
Lemma snapshot_difference_is_window_witness :
  let s := run default_config (read_events (mk_operation 100 0 2)) (stats.ctor 0) in
  let es := write_events (mk_operation 64 6 9) ++ [ev_read_started 12 32] in
  let A := stats_data.of_stats 5 s in
  let B := stats_data.of_stats 20 (run default_config es s) in
  let s64 := hold_stats (-20) s in
  let A64 := binary64.stats_data.of_stats (seconds (-20) 5) s64 in
  let B64 := binary64.stats_data.of_stats (seconds (-20) 20)
               (binary64.run default_config (map (hold_event (-20)) es) s64) in
  idle s /\ stats_well_typed s /\ no_reset es /\
  scale_ok (-20) /\
  exact_run default_config s es /\ exact_run default_config (stats.ctor 5) es /\
  in_range A /\ in_range B /\ in_range (stats_data.minus B A) /\
  stats_data.minus B A = stats_data.mk 0 1 32 64 0 3 0 3 3 0 15 /\
  stats_data.minus B A
    = stats_data.of_stats 20 (run default_config es (stats.ctor 5)) /\
  stats_data.plus (stats_data.minus B A) A = B /\
  binary64.stats_data.minus B64 A64
    = binary64.stats_data.of_stats (seconds (-20) 20)
        (run64 (-20) default_config es 5) /\
  binary64.stats_data.plus (binary64.stats_data.minus B64 A64) A64 = B64.
Proof.
  intros s es A B s64 A64 B64.
  assert (Hi : idle s) by (repeat split).
  assert (Hw : stats_well_typed s)
    by (unfold stats_well_typed, is_unsigned; split; vm_compute; split; congruence).
  assert (Hn : no_reset es) by reflexivity.
  assert (Hs : scale_ok (-20)) by (unfold scale_ok; lia).
  assert (Hx : exact_run default_config s es)
    by (simpl; unfold exact_step, ticks_state, is_ticks; simpl; repeat split; lia).
  assert (Hx1 : exact_run default_config (stats.ctor 5) es)
    by (simpl; unfold exact_step, ticks_state, is_ticks; simpl; repeat split; lia).
  assert (HA : in_range A) by (unfold in_range, is_ticks; simpl; lia).
  assert (HB : in_range B) by (unfold in_range, is_ticks; simpl; lia).
  assert (HD : in_range (stats_data.minus B A))
    by (unfold in_range, is_ticks; simpl; lia).
  split; [exact Hi|]. split; [exact Hw|]. split; [exact Hn|].
  split; [exact Hs|]. split; [exact Hx|]. split; [exact Hx1|].
  split; [exact HA|]. split; [exact HB|]. split; [exact HD|].
  split; [reflexivity|].
  pose proof (snapshot_difference_is_window default_config s es 5 20 Hi Hw Hn)
    as (H1 & _ & _ & H2 & H3).
  split; [exact H1|]. split; [exact H2|].
  apply (H3 (-20) Hs Hx Hx1); unfold is_ticks; simpl; try lia; assumption.
Defined.

(** ** The invariant of the durations *)

Lemma open_time_advance (c c' : ticks) (l : list ticks) :
  c <= c' ->
  open_time c l <= open_time c' l /\
  (l <> [] -> open_time c l + (c' - c) <= open_time c' l).
Proof.
  intros Hc. induction l as [|r l [IH1 IH2]]; simpl.
  - split; [lia|]. intros H; contradiction.
  - split; [lia|]. intros _. lia.
Qed.

Lemma take_out_spec (x : ticks) (l l' : list ticks) :
  take_out x l = Some l' ->
  length l = S (length l') /\
  forall c, open_time c l = (c - x) + open_time c l'.
Proof.
  revert l'. induction l as [|y l IH]; intros l' H; simpl in H.
  - discriminate.
  - destruct (Z.eqb_spec x y) as [->|Hne].
    + inversion H; subst. split; [reflexivity|]. intros c. reflexivity.
    + destruct (take_out x l) as [r|] eqn:E; [|discriminate].
      inversion H; subst. destruct (IH r eq_refl) as [Hl Ho].
      split; [simpl; rewrite Hl; reflexivity|].
      intros c. simpl. rewrite Ho. lia.
Qed.

(** Time passes and nothing happens. *)
Lemma balanced_advance (f : flight) (s : stats.t) (now : ticks) :
  clock f <= now ->
  balanced f s ->
  balanced (mk_flight now (open_reads f) (open_writes f) (open_waits f)) s.
Proof.
  intros Hc (Har & Haw & Haio & [Hr0 Hr] & [Hw0 Hw] & Hrio & Hwio & Hio).
  destruct f as [c R W Wt]. simpl in *.
  destruct (open_time_advance c now R Hc) as [HR1 HR2].
  destruct (open_time_advance c now W Hc) as [HW1 HW2].
  unfold balanced; simpl.
  split; [exact Har|]. split; [exact Haw|]. split; [exact Haio|].
  destruct R as [|r R]; destruct W as [|w W]; simpl in *;
    try (specialize (HR2 ltac:(discriminate)));
    try (specialize (HW2 ltac:(discriminate)));
    lia.
Qed.

Ltac fields :=
  cbn [stats.reads stats.writes stats.volume_read stats.volume_written
       stats.t_reads stats.t_writes stats.p_reads stats.p_writes
       stats.p_begin_read stats.p_begin_write stats.p_ios stats.p_begin_io
       stats.t_waits stats.p_waits stats.p_begin_wait
       stats.acc_reads stats.acc_writes stats.acc_ios stats.acc_waits
       stats.last_reset clock open_reads open_writes open_waits] in *.

Section Balance.
Variable cfg : config.
Hypothesis io_on : STXXL_IO_STATS cfg = true.

Ltac unfold_hooks :=
  unfold step, stats.read_started, stats.read_finished, stats.write_started,
         stats.write_finished, stats.wait_started, stats.wait_finished;
  rewrite ?io_on;
  unfold stats.read_started_body, stats.read_finished_body,
         stats.write_started_body, stats.write_finished_body,
         stats.wait_started_body, stats.wait_finished_body.

(** An event happens at the present clock reading. *)
Lemma balanced_event (f f' : flight) (s : stats.t) (e : event) :
  clock f = event_time e ->
  track f e = Some f' ->
  balanced f s ->
  balanced f' (step cfg s e).
Proof.
  intros Hnow Htr (Har & Haw & Haio & [Hr0 Hr] & [Hw0 Hw] & Hrio & Hwio & Hio).
  destruct f as [c R W Wt]. simpl in Hnow.
  destruct e as [now sz|now st|now sz|now st|now|now st|now];
    simpl in Hnow; subst c; simpl in Htr;
    rewrite Z.leb_refl in Htr.
  - (* write_started *)
    inversion Htr; subst f'; clear Htr.
    unfold_hooks. unfold balanced. fields.
    destruct R as [|r R]; destruct W as [|w W];
      cbn [busy_time open_time fold_right app length] in *;
      split_eqb; split_conj; lia.
  - (* write_finished *)
    destruct (take_out st W) as [W'|] eqn:E; [|discriminate].
    inversion Htr; subst f'; clear Htr.
    destruct (take_out_spec st W W' E) as [Hlen Hopen].
    specialize (Hopen now).
    unfold_hooks. unfold balanced. fields.
    destruct W as [|w W]; [discriminate Hlen|].
    destruct R as [|r R]; destruct W' as [|w' W'];
      cbn [busy_time open_time fold_right app length] in *;
      split_eqb; split_conj; lia.
  - (* read_started *)
    inversion Htr; subst f'; clear Htr.
    unfold_hooks. unfold balanced. fields.
    destruct R as [|r R]; destruct W as [|w W];
      cbn [busy_time open_time fold_right app length] in *;
      split_eqb; split_conj; lia.
  - (* read_finished *)
    destruct (take_out st R) as [R'|] eqn:E; [|discriminate].
    inversion Htr; subst f'; clear Htr.
    destruct (take_out_spec st R R' E) as [Hlen Hopen].
    specialize (Hopen now).
    unfold_hooks. unfold balanced. fields.
    destruct R as [|r R]; [discriminate Hlen|].
    destruct W as [|w W]; destruct R' as [|r' R'];
      cbn [busy_time open_time fold_right app length] in *;
      split_eqb; split_conj; lia.
  - (* wait_started *)
    inversion Htr; subst f'; clear Htr.
    unfold_hooks. unfold balanced.
    destruct (COUNT_WAIT_TIME cfg); simpl in *; split_conj; assumption.
  - (* wait_finished *)
    destruct (take_out st Wt) as [Wt'|] eqn:E; [|discriminate].
    inversion Htr; subst f'; clear Htr.
    unfold_hooks. unfold balanced.
    destruct (COUNT_WAIT_TIME cfg); simpl in *; split_conj; assumption.
  - (* reset *)
    destruct R; [|discriminate]. destruct W; [|discriminate].
    destruct Wt; [|discriminate].
    inversion Htr; subst f'; clear Htr.
    unfold balanced; simpl. split_conj; lia.
Qed.

End Balance.

Lemma track_clock (f f' : flight) (e : event) :
  track f e = Some f' ->
  clock f <= event_time e /\
  track (mk_flight (event_time e) (open_reads f) (open_writes f) (open_waits f)) e
    = Some f'.
Proof.
  intros H.
  destruct e; simpl in *;
    (destruct (Z.leb_spec (clock f) now) as [Hle|Hgt]; [|discriminate H]);
    rewrite Z.leb_refl; split; assumption.
Qed.

Lemma balanced_step (cfg : config) (f f' : flight) (s : stats.t) (e : event) :
  STXXL_IO_STATS cfg = true ->
  track f e = Some f' ->
  balanced f s ->
  balanced f' (step cfg s e).
Proof.
  intros Hon Htr Hb.
  destruct (track_clock f f' e Htr) as [Hle Htr'].
  eapply (balanced_event cfg Hon); [|exact Htr'|].
  - reflexivity.
  - apply balanced_advance; assumption.
Qed.

Lemma balanced_run (cfg : config) (es : list event) (f f' : flight) (s : stats.t) :
  STXXL_IO_STATS cfg = true ->
  track_all f es = Some f' ->
  balanced f s ->
  balanced f' (run cfg es s).
Proof.
  intros Hon. revert f s.
  induction es as [|e es IH]; intros f s Htr Hb; simpl in Htr.
  - inversion Htr; subst. exact Hb.
  - destruct (track f e) as [f1|] eqn:E; [|discriminate].
    simpl. apply (IH f1); [exact Htr|].
    apply (balanced_step cfg f f1 s e Hon E Hb).
Qed.

Lemma balanced_ground (t0 : ticks) : balanced (ground t0) (stats.ctor t0).
Proof. unfold balanced; simpl. lia. Qed.

Lemma length_zero_nil (l : list ticks) : 0 = Z.of_nat (length l) -> l = [].
Proof. destruct l; [reflexivity|]. simpl length. lia. Qed.

(** The order of the durations of an idle aggregator in the exact model. *)
Lemma idle_durations_are_ordered_exact
  (cfg : config) (t0 : ticks) (es : list event) :
  abides t0 es ->
  let s := run cfg es (stats.ctor t0) in
  idle s ->
  (0 <= stats.p_reads s /\ stats.p_reads s <= stats.t_reads s) /\
  (0 <= stats.p_writes s /\ stats.p_writes s <= stats.t_writes s) /\
  Z.max (stats.p_reads s) (stats.p_writes s) <= stats.p_ios s /\
  stats.p_ios s <= stats.p_reads s + stats.p_writes s.
Proof.
  intros [f Htr] s (H1 & H2 & H3 & H4).
  destruct cfg as [io w]. destruct io.
  - pose proof (balanced_run (mk_config true w) es (ground t0) f (stats.ctor t0)
                  eq_refl Htr (balanced_ground t0)) as Hb.
    fold s in Hb.
    destruct Hb as (Har & Haw & _ & Hr & Hw & Hrio & Hwio & Hio).
    rewrite H1 in Har. rewrite H2 in Haw.
    apply length_zero_nil in Har. apply length_zero_nil in Haw.
    rewrite Har, Haw in *. simpl in *. lia.
  - destruct (io_off_counters_zero w es (stats.ctor t0))
      as (_ & _ & _ & _ & Ha & Hb & Hc & Hd & He); try reflexivity.
    fold s in Ha, Hb, Hc, Hd, He.
    rewrite Ha, Hb, Hc, Hd, He. simpl. lia.
Qed.

(** C5 fails as stated on the [double] fields.  Two reads overlap: the
    first starts at clock reading 0 and finishes at 0.2, the second
    starts at 0.2 and finishes at 0.9 (the binary64 numbers nearest to
    these).  The clock never runs backwards, each finish names the start
    of its own operation, and nothing is in flight afterwards.  Yet the
    serial read time, 0.2 + (0.9 - 0.2) rounded twice, is
    0.8999999999999999, below the parallel read time 0.9 - 0 = 0.9. *)
Lemma idle_order_broken_by_rounding :
  let es := [binary64.ev_read_started 0 4096;
             binary64.ev_read_started 0x1.999999999999ap-3 4096;
             binary64.ev_read_finished 0x1.999999999999ap-3 0;
             binary64.ev_read_finished 0x1.ccccccccccccdp-1 0x1.999999999999ap-3] in
  let s := binary64.run default_config es (binary64.stats.ctor 0) in
  PrimFloat.leb 0 0x1.999999999999ap-3 = true /\
  PrimFloat.leb 0x1.999999999999ap-3 0x1.ccccccccccccdp-1 = true /\
  (binary64.stats.acc_reads s = 0 /\ binary64.stats.acc_writes s = 0 /\
   binary64.stats.acc_ios s = 0 /\ binary64.stats.acc_waits s = 0) /\
  binary64.stats.get_reads s = 2 /\
  binary64.stats.get_read_time s = 0x1.cccccccccccccp-1%float /\
  binary64.stats.get_pread_time s = 0x1.ccccccccccccdp-1%float /\
  PrimFloat.ltb (binary64.stats.get_read_time s)
                (binary64.stats.get_pread_time s) = true /\
  PrimFloat.leb (binary64.stats.get_pread_time s)
                (binary64.stats.get_read_time s) = false.
Proof. vm_compute. repeat split. Qed.

(** C5, amended.  Take any execution that abides by the callers'
    contract, on an aggregator constructed at [t0], in either build
    configuration.  Whenever it leaves the aggregator with all active
    counts at zero, the durations, taken as exact numbers, satisfy
    [0 <= p_reads <= t_reads], [0 <= p_writes <= t_writes] and
    [max(p_reads, p_writes) <= p_ios <= p_reads + p_writes].  In
    particular the inequalities hold again after every start/finish pair
    that brings the aggregator back to idle.  On binary64 the same
    comparisons hold, with [p_reads + p_writes] computed in binary64, as
    long as the execution and that sum involve tick counts below [2^53]
    only. *)
Theorem idle_durations_are_ordered
  (cfg : config) (t0 : ticks) (es : list event) :
  abides t0 es ->
  let s := run cfg es (stats.ctor t0) in
  idle s ->
  ((0 <= stats.p_reads s /\ stats.p_reads s <= stats.t_reads s) /\
   (0 <= stats.p_writes s /\ stats.p_writes s <= stats.t_writes s) /\
   Z.max (stats.p_reads s) (stats.p_writes s) <= stats.p_ios s /\
   stats.p_ios s <= stats.p_reads s + stats.p_writes s) /\
  (forall e0 : Z,
      scale_ok e0 ->
      exact_run cfg (stats.ctor t0) es ->
      is_ticks (stats.p_reads s + stats.p_writes s) ->
      let s64 := run64 e0 cfg es t0 in
      let t_reads := binary64.stats.get_read_time s64 in
      let t_writes := binary64.stats.get_write_time s64 in
      let p_reads := binary64.stats.get_pread_time s64 in
      let p_writes := binary64.stats.get_pwrite_time s64 in
      let p_ios := binary64.stats.get_pio_time s64 in
      (PrimFloat.leb PrimFloat.zero p_reads = true /\
       PrimFloat.leb p_reads t_reads = true) /\
      (PrimFloat.leb PrimFloat.zero p_writes = true /\
       PrimFloat.leb p_writes t_writes = true) /\
      (PrimFloat.leb p_reads p_ios = true /\
       PrimFloat.leb p_writes p_ios = true) /\
      PrimFloat.leb p_ios (PrimFloat.add p_reads p_writes) = true).
Proof.
  intros Hab s Hidle.
  destruct (idle_durations_are_ordered_exact cfg t0 es Hab Hidle)
    as ([H1 H2] & [H3 H4] & H5 & H6).
  fold s in H1, H2, H3, H4, H5, H6.
  split; [repeat split; assumption|].
  intros e0 He Hx Hsum s64.
  pose proof (exact_run_ticks cfg _ _ (ctor_ticks t0) Hx)
    as ((T1 & T2 & T3 & T4 & T5 & _) & _).
  fold s in T1, T2, T3, T4, T5.
  assert (T0 : is_ticks 0) by (unfold is_ticks; lia).
  unfold s64. rewrite (run64_refines e0 cfg _ t0 He Hx). fold s.
  unfold binary64.stats.get_read_time, binary64.stats.get_write_time,
    binary64.stats.get_pread_time, binary64.stats.get_pwrite_time,
    binary64.stats.get_pio_time, hold_stats;
    cbn [binary64.stats.t_reads binary64.stats.t_writes binary64.stats.p_reads
         binary64.stats.p_writes binary64.stats.p_ios].
  change PrimFloat.zero with (seconds e0 0).
  rewrite (seconds_add e0) by (unfold is_ticks in *; assumption || lia).
  rewrite !seconds_leb by assumption.
  repeat split; apply Z.leb_le; lia.
Qed.

(** C5, amended, on an execution with two overlapping reads, a write
    that overlaps the second read, and a separate wait, in ticks of
    [2^-20] seconds. *)
Lemma idle_durations_are_ordered_witness :
  let es := [ev_read_started 10 4096; ev_read_started 12 512;
             ev_read_finished 15 10; ev_write_started 16 1024;
             ev_read_finished 20 12; ev_wait_started 21;
             ev_write_finished 25 16; ev_wait_finished 30 21] in
  let s := run default_config es (stats.ctor 0) in
  let s64 := run64 (-20) default_config es 0 in
  abides 0 es /\ idle s /\
  scale_ok (-20) /\ exact_run default_config (stats.ctor 0) es /\
  is_ticks (stats.p_reads s + stats.p_writes s) /\
  stats.t_reads s = 13 /\ stats.p_reads s = 10 /\
  stats.t_writes s = 9 /\ stats.p_writes s = 9 /\ stats.p_ios s = 15 /\
  ((0 <= stats.p_reads s /\ stats.p_reads s <= stats.t_reads s) /\
   (0 <= stats.p_writes s /\ stats.p_writes s <= stats.t_writes s) /\
   Z.max (stats.p_reads s) (stats.p_writes s) <= stats.p_ios s /\
   stats.p_ios s <= stats.p_reads s + stats.p_writes s) /\
  PrimFloat.leb (binary64.stats.get_pread_time s64)
                (binary64.stats.get_read_time s64) = true /\
  PrimFloat.leb (binary64.stats.get_pio_time s64)
                (PrimFloat.add (binary64.stats.get_pread_time s64)
                               (binary64.stats.get_pwrite_time s64)) = true.
Proof.
  intros es s s64.
  assert (Ha : abides 0 es) by (eexists; reflexivity).
  assert (Hi : idle s) by (repeat split).
  assert (Hs : scale_ok (-20)) by (unfold scale_ok; lia).
  assert (Hx : exact_run default_config (stats.ctor 0) es)
    by (unfold es; simpl; unfold exact_step, ticks_state, is_ticks; simpl;
        repeat split; lia).
  assert (Hsum : is_ticks (stats.p_reads s + stats.p_writes s))
    by (unfold is_ticks; simpl; lia).
  split; [exact Ha|]. split; [exact Hi|].
  split; [exact Hs|]. split; [exact Hx|]. split; [exact Hsum|].
  repeat (split; [reflexivity|]).
  pose proof (idle_durations_are_ordered default_config 0 es Ha Hi) as [HZ H64].
  split; [exact HZ|].
  destruct (H64 (-20) Hs Hx Hsum) as ([_ Hb] & _ & _ & Hc).
  split; [exact Hb | exact Hc].
Defined.

(** ** Beyond tick counts below [2^53] *)

(** The binary64 statements above that assume tick counts below [2^53]
    need that assumption.  With clock readings closer together than the
    precision of the durations they produce, binary64 rounds the serial
    time of two overlapping reads below their parallel time: the reads
    cover [0, 2^-53] and [2^-53, 1 + 2^-52]; the two rounded durations sum
    to [1], while the parallel time is [1 + 2^-52]. *)
Remark serial_time_below_parallel_by_rounding :
  let es := [binary64.ev_read_started 0 8;
             binary64.ev_read_started 0x1p-53 8;
             binary64.ev_read_finished 0x1p-53 0;
             binary64.ev_read_finished 0x1.0000000000001p0 0x1p-53] in
  let s := binary64.run default_config es (binary64.stats.ctor 0) in
  binary64.stats.acc_reads s = 0 /\
  binary64.stats.get_read_time s = 1%float /\
  binary64.stats.get_pread_time s = 0x1.0000000000001p0%float /\
  PrimFloat.ltb (binary64.stats.get_read_time s)
                (binary64.stats.get_pread_time s) = true.
Proof. vm_compute. repeat split. Qed.

(** Likewise [(B - A) + A] can differ from [B] in the last bit of a
    [double] member: here in [elapsed], for snapshots of one aggregator,
    reset at time [0], taken at times [2^-53] and [1 + 2^-52]. *)
Remark difference_round_trip_by_rounding :
  let s := binary64.stats.ctor 0 in
  let A := binary64.stats_data.of_stats 0x1p-53 s in
  let B := binary64.stats_data.of_stats 0x1.0000000000001p0 s in
  binary64.stats_data.get_elapsed_time B = 0x1.0000000000001p0%float /\
  binary64.stats_data.get_elapsed_time
    (binary64.stats_data.plus (binary64.stats_data.minus B A) A) = 1%float /\
  binary64.stats_data.equal
    (binary64.stats_data.plus (binary64.stats_data.minus B A) A) B = false.
Proof. vm_compute. repeat split. Qed.

(** * Further properties of the header *)

(** ** Sessions of the scoped timers *)

Lemma alternates_app (k : category) (open : bool) (a b : list hook_call) :
  alternates k open (a ++ b)
  = match alternates k open a with
    | Some open' => alternates k open' b
    | None => None
    end.
Proof.
  revert open. induction a as [|c a IH]; intros open; simpl; [reflexivity|].
  destruct (category_eqb (call_category c) k
            && negb (Bool.eqb (is_started c) open)); [apply IH|reflexivity].
Qed.

Lemma alternates_counts (k : category) (cs : list hook_call) (open open' : bool) :
  alternates k open cs = Some open' ->
  (started_count cs + (if open then 1 else 0)
   = finished_count cs + (if open' then 1 else 0))%nat.
Proof.
  unfold started_count, finished_count.
  revert open. induction cs as [|c cs IH]; intros open; simpl.
  - intros H. injection H as <-. reflexivity.
  - destruct (category_eqb (call_category c) k); simpl; [|discriminate].
    destruct (is_started c) eqn:Ec, open; simpl; try discriminate;
      intros H; apply IH in H; simpl in *; lia.
Qed.

Lemma read_methods_alternate
  (cfg : config) (ms : list timer_method) (g : scoped_read_timer.t) :
  STXXL_IO_STATS cfg = true ->
  alternates cat_read (scoped_read_timer.running g) (snd (read_methods cfg ms g))
  = Some (scoped_read_timer.running (fst (read_methods cfg ms g))).
Proof.
  intros Hon. revert g. induction ms as [|m ms IH]; intros g; [reflexivity|].
  cbn [read_methods].
  destruct m as [size|];
    unfold scoped_read_timer.start, scoped_read_timer.stop; rewrite Hon;
    destruct g as [[|]]; cbn [scoped_read_timer.running negb];
    match goal with
    | |- context [read_methods cfg ms ?g1] =>
        specialize (IH g1); destruct (read_methods cfg ms g1) as [g2 c2]
    end; simpl in *; exact IH.
Qed.

Lemma write_methods_alternate
  (cfg : config) (ms : list timer_method) (g : scoped_write_timer.t) :
  STXXL_IO_STATS cfg = true ->
  alternates cat_write (scoped_write_timer.running g) (snd (write_methods cfg ms g))
  = Some (scoped_write_timer.running (fst (write_methods cfg ms g))).
Proof.
  intros Hon. revert g. induction ms as [|m ms IH]; intros g; [reflexivity|].
  cbn [write_methods].
  destruct m as [size|];
    unfold scoped_write_timer.start, scoped_write_timer.stop; rewrite Hon;
    destruct g as [[|]]; cbn [scoped_write_timer.running negb];
    match goal with
    | |- context [write_methods cfg ms ?g1] =>
        specialize (IH g1); destruct (write_methods cfg ms g1) as [g2 c2]
    end; simpl in *; exact IH.
Qed.

Lemma wait_methods_alternate
  (cfg : config) (ms : list wait_timer_method) (g : scoped_wait_timer.t) :
  COUNT_WAIT_TIME cfg = true ->
  alternates cat_wait (scoped_wait_timer.running g) (snd (wait_methods cfg ms g))
  = Some (scoped_wait_timer.running (fst (wait_methods cfg ms g))).
Proof.
  intros Hon. revert g. induction ms as [|m ms IH]; intros g; [reflexivity|].
  cbn [wait_methods].
  destruct m;
    unfold scoped_wait_timer.start, scoped_wait_timer.stop; rewrite Hon;
    destruct g as [[|]]; cbn [scoped_wait_timer.running negb];
    match goal with
    | |- context [wait_methods cfg ms ?g1] =>
        specialize (IH g1); destruct (wait_methods cfg ms g1) as [g2 c2]
    end; simpl in *; exact IH.
Qed.

(** With read/write instrumentation compiled in, whatever [start] and
    [stop] calls [ms] the owner of a scoped read timer makes between
    construction and destruction: the hook calls made are read calls only;
    the first is [read_started] with the constructor's size; starts and
    finishes alternate; just before destruction [running] tells whether a
    start is still unfinished; and destruction finishes it, so that the
    session as a whole makes as many [read_finished] as [read_started]
    calls. *)
Theorem read_timer_session_is_paired
  (cfg : config) (size : Z) (ms : list timer_method) :
  STXXL_IO_STATS cfg = true ->
  hd_error (read_timer_session cfg size ms)
    = Some (call_read_started (to_unsigned size)) /\
  alternates cat_read false (snd (read_timer_alive cfg size ms))
    = Some (scoped_read_timer.running (fst (read_timer_alive cfg size ms))) /\
  alternates cat_read false (read_timer_session cfg size ms) = Some false /\
  started_count (read_timer_session cfg size ms)
    = finished_count (read_timer_session cfg size ms).
Proof.
  intros Hon.
  assert (Halive :
    alternates cat_read false (snd (read_timer_alive cfg size ms))
    = Some (scoped_read_timer.running (fst (read_timer_alive cfg size ms)))).
  { unfold read_timer_alive, scoped_read_timer.ctor, scoped_read_timer.start.
    rewrite Hon. cbn [scoped_read_timer.running negb].
    pose proof (read_methods_alternate cfg ms (scoped_read_timer.mk true) Hon) as H.
    destruct (read_methods cfg ms (scoped_read_timer.mk true)) as [g1 c1].
    simpl in *. exact H. }
  assert (Hsession :
    alternates cat_read false (read_timer_session cfg size ms) = Some false).
  { unfold read_timer_session.
    destruct (read_timer_alive cfg size ms) as [g cs]. simpl in Halive.
    rewrite alternates_app, Halive.
    unfold scoped_read_timer.dtor, scoped_read_timer.stop. rewrite Hon.
    destruct g as [[|]]; reflexivity. }
  split; [|split; [exact Halive|split; [exact Hsession|]]].
  - unfold read_timer_session, read_timer_alive, scoped_read_timer.ctor,
      scoped_read_timer.start.
    rewrite Hon. cbn [scoped_read_timer.running negb].
    destruct (read_methods cfg ms (scoped_read_timer.mk true)) as [g1 c1].
    reflexivity.
  - pose proof (alternates_counts _ _ _ _ Hsession) as H. lia.
Qed.

(** A read timer constructed for 4096 bytes, stopped, restarted for 512
    bytes, started again while running, stopped twice and restarted. *)
Lemma read_timer_session_is_paired_witness :
  STXXL_IO_STATS default_config = true /\
  let ms := [do_stop; do_start 512; do_start 7; do_stop; do_stop; do_start 9] in
  read_timer_session default_config 4096 ms
    = [call_read_started 4096; call_read_finished;
       call_read_started 512; call_read_finished;
       call_read_started 9; call_read_finished] /\
  alternates cat_read false (read_timer_session default_config 4096 ms)
    = Some false /\
  started_count (read_timer_session default_config 4096 ms)
    = finished_count (read_timer_session default_config 4096 ms).
Proof.
  split; [reflexivity|]. intros ms. split; [reflexivity|].
  destruct (read_timer_session_is_paired default_config 4096 ms eq_refl)
    as (_ & _ & H3 & H4).
  split; [exact H3 | exact H4].
Defined.

(** The same for a scoped write timer: only write calls, the first of
    them [write_started] with the constructor's size, starts and finishes
    in alternation, [running] telling whether one is unfinished, and as
    many [write_finished] as [write_started] calls once the timer is
    destroyed. *)
Theorem write_timer_session_is_paired
  (cfg : config) (size : Z) (ms : list timer_method) :
  STXXL_IO_STATS cfg = true ->
  hd_error (write_timer_session cfg size ms)
    = Some (call_write_started (to_unsigned size)) /\
  alternates cat_write false (snd (write_timer_alive cfg size ms))
    = Some (scoped_write_timer.running (fst (write_timer_alive cfg size ms))) /\
  alternates cat_write false (write_timer_session cfg size ms) = Some false /\
  started_count (write_timer_session cfg size ms)
    = finished_count (write_timer_session cfg size ms).
Proof.
  intros Hon.
  assert (Halive :
    alternates cat_write false (snd (write_timer_alive cfg size ms))
    = Some (scoped_write_timer.running (fst (write_timer_alive cfg size ms)))).
  { unfold write_timer_alive, scoped_write_timer.ctor, scoped_write_timer.start.
    rewrite Hon. cbn [scoped_write_timer.running negb].
    pose proof (write_methods_alternate cfg ms (scoped_write_timer.mk true) Hon) as H.
    destruct (write_methods cfg ms (scoped_write_timer.mk true)) as [g1 c1].
    simpl in *. exact H. }
  assert (Hsession :
    alternates cat_write false (write_timer_session cfg size ms) = Some false).
  { unfold write_timer_session.
    destruct (write_timer_alive cfg size ms) as [g cs]. simpl in Halive.
    rewrite alternates_app, Halive.
    unfold scoped_write_timer.dtor, scoped_write_timer.stop. rewrite Hon.
    destruct g as [[|]]; reflexivity. }
  split; [|split; [exact Halive|split; [exact Hsession|]]].
  - unfold write_timer_session, write_timer_alive, scoped_write_timer.ctor,
      scoped_write_timer.start.
    rewrite Hon. cbn [scoped_write_timer.running negb].
    destruct (write_methods cfg ms (scoped_write_timer.mk true)) as [g1 c1].
    reflexivity.
  - pose proof (alternates_counts _ _ _ _ Hsession) as H. lia.
Qed.

(** A write timer constructed for [2^32 + 5] bytes, started again while
    running, stopped, and restarted for 64 bytes. *)
Lemma write_timer_session_is_paired_witness :
  STXXL_IO_STATS default_config = true /\
  let ms := [do_start 100; do_stop; do_start 64] in
  write_timer_session default_config (2 ^ 32 + 5) ms
    = [call_write_started 5; call_write_finished;
       call_write_started 64; call_write_finished] /\
  alternates cat_write false (write_timer_session default_config (2 ^ 32 + 5) ms)
    = Some false /\
  started_count (write_timer_session default_config (2 ^ 32 + 5) ms)
    = finished_count (write_timer_session default_config (2 ^ 32 + 5) ms).
Proof.
  split; [reflexivity|]. intros ms. split; [reflexivity|].
  destruct (write_timer_session_is_paired default_config (2 ^ 32 + 5) ms eq_refl)
    as (_ & _ & H3 & H4).
  split; [exact H3 | exact H4].
Defined.

(** With wait instrumentation compiled in, the same holds of a scoped wait
    timer, whether read/write instrumentation is compiled in or not:
    construction calls [wait_started]; whatever [start] and [stop] calls
    follow, the hook calls are wait calls only, starts and finishes
    alternate, [running] tells whether a start is unfinished, and after
    destruction there are as many [wait_finished] as [wait_started]
    calls. *)
Theorem wait_timer_session_is_paired
  (cfg : config) (ms : list wait_timer_method) :
  COUNT_WAIT_TIME cfg = true ->
  hd_error (wait_timer_session cfg ms) = Some call_wait_started /\
  alternates cat_wait false (snd (wait_timer_alive cfg ms))
    = Some (scoped_wait_timer.running (fst (wait_timer_alive cfg ms))) /\
  alternates cat_wait false (wait_timer_session cfg ms) = Some false /\
  started_count (wait_timer_session cfg ms)
    = finished_count (wait_timer_session cfg ms).
Proof.
  intros Hon.
  assert (Halive :
    alternates cat_wait false (snd (wait_timer_alive cfg ms))
    = Some (scoped_wait_timer.running (fst (wait_timer_alive cfg ms)))).
  { unfold wait_timer_alive, scoped_wait_timer.ctor, scoped_wait_timer.start.
    rewrite Hon. cbn [scoped_wait_timer.running negb].
    pose proof (wait_methods_alternate cfg ms (scoped_wait_timer.mk true) Hon) as H.
    destruct (wait_methods cfg ms (scoped_wait_timer.mk true)) as [g1 c1].
    simpl in *. exact H. }
  assert (Hsession :
    alternates cat_wait false (wait_timer_session cfg ms) = Some false).
  { unfold wait_timer_session.
    destruct (wait_timer_alive cfg ms) as [g cs]. simpl in Halive.
    rewrite alternates_app, Halive.
    unfold scoped_wait_timer.dtor, scoped_wait_timer.stop. rewrite Hon.
    destruct g as [[|]]; reflexivity. }
  split; [|split; [exact Halive|split; [exact Hsession|]]].
  - unfold wait_timer_session, wait_timer_alive, scoped_wait_timer.ctor,
      scoped_wait_timer.start.
    rewrite Hon. cbn [scoped_wait_timer.running negb].
    destruct (wait_methods cfg ms (scoped_wait_timer.mk true)) as [g1 c1].
    reflexivity.
  - pose proof (alternates_counts _ _ _ _ Hsession) as H. lia.
Qed.

(** A wait timer in a build without read/write instrumentation: never
    stopped by hand, then stopped twice and restarted. *)
Lemma wait_timer_session_is_paired_witness :
  COUNT_WAIT_TIME (mk_config false true) = true /\
  wait_timer_session (mk_config false true) []
    = [call_wait_started; call_wait_finished] /\
  wait_timer_session (mk_config false true)
      [do_wait_stop; do_wait_stop; do_wait_start]
    = [call_wait_started; call_wait_finished;
       call_wait_started; call_wait_finished] /\
  started_count (wait_timer_session (mk_config false true)
                   [do_wait_stop; do_wait_stop; do_wait_start])
    = finished_count (wait_timer_session (mk_config false true)
                        [do_wait_stop; do_wait_stop; do_wait_start]).
Proof.
  split; [reflexivity|]. split; [reflexivity|]. split; [reflexivity|].
  exact (proj2 (proj2 (proj2
           (wait_timer_session_is_paired (mk_config false true)
              [do_wait_stop; do_wait_stop; do_wait_start] eq_refl)))).
Defined.

(** ** The arithmetic of snapshots on binary64 *)

Lemma float_add_comm (x y : float) : PrimFloat.add x y = PrimFloat.add y x.
Proof.
  apply Prim2SF_inj. rewrite !add_spec.
  destruct (Prim2SF x) as [[|]|[|]| |sx mx ex];
    destruct (Prim2SF y) as [[|]|[|]| |sy my ey]; try reflexivity.
  unfold SF64add, SFadd.
  rewrite (Z.min_comm ex ey). f_equal. apply Z.add_comm.
Qed.

Lemma float_sub_zero_r (x : float) : PrimFloat.sub x PrimFloat.zero = x.
Proof.
  apply Prim2SF_inj. rewrite sub_spec.
  change (Prim2SF PrimFloat.zero) with (S754_zero false).
  destruct (Prim2SF x) as [[|]|[|]| |sx mx ex]; reflexivity.
Qed.

Lemma float_is_finite_cases (x : float) :
  PrimFloat.is_finite x = true ->
  (exists s, Prim2SF x = S754_zero s) \/
  (exists s m e, Prim2SF x = S754_finite s m e).
Proof.
  unfold PrimFloat.is_finite, PrimFloat.is_nan, PrimFloat.is_infinity.
  rewrite !eqb_spec, abs_spec.
  destruct (Prim2SF x) as [s|s| |s m e] eqn:E.
  - intros _. left. exists s. reflexivity.
  - destruct s; intros H; vm_compute in H; discriminate H.
  - intros H; vm_compute in H; discriminate H.
  - intros _. right. exists s, m, e. reflexivity.
Qed.

Lemma float_sub_self (x : float) :
  PrimFloat.is_finite x = true -> PrimFloat.sub x x = PrimFloat.zero.
Proof.
  intros H. apply Prim2SF_inj. rewrite sub_spec.
  change (Prim2SF PrimFloat.zero) with (S754_zero false).
  destruct (float_is_finite_cases x H) as [[s E]|(s & m & e & E)]; rewrite E.
  - destruct s; reflexivity.
  - unfold SF64sub, SFsub. rewrite Z.sub_diag. reflexivity.
Qed.

(** [operator +] is commutative on every pair of snapshots, in all eleven
    members: the sums of the [unsigned] and [int64] members commute, and
    so does the binary64 sum of the [double] members, infinities,
    negative zero and NaN included. *)
Theorem snapshot_sum_commutes (a b : binary64.stats_data.t) :
  binary64.stats_data.plus a b = binary64.stats_data.plus b a.
Proof.
  unfold binary64.stats_data.plus.
  rewrite (Z.add_comm (binary64.stats_data.reads a)),
          (Z.add_comm (binary64.stats_data.writes a)),
          (Z.add_comm (binary64.stats_data.volume_read a)),
          (Z.add_comm (binary64.stats_data.volume_written a)),
          (float_add_comm (binary64.stats_data.t_reads a)),
          (float_add_comm (binary64.stats_data.t_writes a)),
          (float_add_comm (binary64.stats_data.p_reads a)),
          (float_add_comm (binary64.stats_data.p_writes a)),
          (float_add_comm (binary64.stats_data.p_ios a)),
          (float_add_comm (binary64.stats_data.t_wait a)),
          (float_add_comm (binary64.stats_data.elapsed a)).
  reflexivity.
Qed.

(** [operator -] has the default-constructed snapshot as a right identity
    on every snapshot whose [unsigned] members hold values of their type:
    [s - stats_data()] is [s] itself in all eleven members, whatever the
    [double] members are. *)
Theorem snapshot_minus_zero (d : binary64.stats_data.t) :
  binary64.stats_data.well_typed d ->
  binary64.stats_data.minus d binary64.stats_data.zero = d.
Proof.
  intros [Hr Hw].
  destruct d as [r w vr vw tr tw pr pw pio twt el]; simpl in Hr, Hw.
  unfold binary64.stats_data.minus, binary64.stats_data.zero; simpl.
  rewrite !Z.sub_0_r, (to_unsigned_small _ Hr), (to_unsigned_small _ Hw).
  rewrite !float_sub_zero_r. reflexivity.
Qed.

Lemma snapshot_minus_zero_witness :
  binary64.stats_data.well_typed
    (binary64.stats_data.mk 12 7 49152 28672 340.5 210.25 (-0) 200 infinity 25 1000) /\
  binary64.stats_data.minus
    (binary64.stats_data.mk 12 7 49152 28672 340.5 210.25 (-0) 200 infinity 25 1000)
    binary64.stats_data.zero
  = binary64.stats_data.mk 12 7 49152 28672 340.5 210.25 (-0) 200 infinity 25 1000.
Proof.
  assert (H : binary64.stats_data.well_typed
    (binary64.stats_data.mk 12 7 49152 28672 340.5 210.25 (-0) 200 infinity 25 1000))
    by (unfold binary64.stats_data.well_typed, is_unsigned, UINT_RANGE; simpl; lia).
  split; [exact H|].
  exact (snapshot_minus_zero _ H).
Defined.

(** Subtracting a snapshot from itself gives the default-constructed
    snapshot, all eleven members zero (the [double] ones the positive
    zero), provided every [double] member is finite; an infinite or NaN
    member would give NaN. *)
Theorem snapshot_minus_self (d : binary64.stats_data.t) :
  finite_members d ->
  binary64.stats_data.minus d d = binary64.stats_data.zero.
Proof.
  intros (F1 & F2 & F3 & F4 & F5 & F6 & F7).
  unfold binary64.stats_data.minus, binary64.stats_data.zero.
  rewrite !Z.sub_diag, !float_sub_self by assumption.
  reflexivity.
Qed.

Lemma snapshot_minus_self_witness :
  finite_members (hold (-20) sample_snapshot) /\
  binary64.stats_data.minus (hold (-20) sample_snapshot) (hold (-20) sample_snapshot)
  = binary64.stats_data.zero.
Proof.
  assert (H : finite_members (hold (-20) sample_snapshot))
    by (unfold finite_members; simpl; repeat split; vm_compute; reflexivity).
  split; [exact H|].
  exact (snapshot_minus_self _ H).
Defined.

(** Two snapshots of an aggregator that no hook has touched in between,
    taken at clock readings [t1] and [t2], differ by the zero of every
    counter: the difference has zero counts, zero volumes and (the
    aggregator's durations being finite) the positive zero in every
    duration; only [elapsed] is left, as the difference of the two
    elapsed times. *)
Theorem unchanged_aggregator_difference
  (s : binary64.stats.t) (t1 t2 : float) :
  finite_counters s ->
  let A := binary64.stats_data.of_stats t1 s in
  let B := binary64.stats_data.of_stats t2 s in
  binary64.stats_data.minus B A
  = binary64.stats_data.mk 0 0 0 0
      PrimFloat.zero PrimFloat.zero PrimFloat.zero PrimFloat.zero
      PrimFloat.zero PrimFloat.zero
      (PrimFloat.sub (binary64.stats_data.get_elapsed_time B)
                     (binary64.stats_data.get_elapsed_time A)).
Proof.
  intros (F1 & F2 & F3 & F4 & F5 & F6) A B.
  unfold A, B, binary64.stats_data.minus, binary64.stats_data.of_stats,
    binary64.stats_data.get_elapsed_time.
  cbn [binary64.stats_data.reads binary64.stats_data.writes
       binary64.stats_data.volume_read binary64.stats_data.volume_written
       binary64.stats_data.t_reads binary64.stats_data.t_writes
       binary64.stats_data.p_reads binary64.stats_data.p_writes
       binary64.stats_data.p_ios binary64.stats_data.t_wait
       binary64.stats_data.elapsed].
  rewrite !Z.sub_diag, !float_sub_self by assumption.
  reflexivity.
Qed.

(** An aggregator reset at [0.5] that has counted two reads, snapshot at
    [2.5] and at [10.25]: the difference shows 7.75 seconds and nothing
    else. *)
Lemma unchanged_aggregator_difference_witness :
  let s := binary64.stats.mk 2 0 8192 0 1.5 0 1.25 0 0.75 0 1.25 0.75 0.5 0.5 2
             0 0 0 0 0.5 in
  finite_counters s /\
  binary64.stats_data.minus (binary64.stats_data.of_stats 10.25 s)
                            (binary64.stats_data.of_stats 2.5 s)
  = binary64.stats_data.mk 0 0 0 0 0 0 0 0 0 0 7.75.
Proof.
  intros s.
  assert (H : finite_counters s)
    by (unfold finite_counters; repeat split; vm_compute; reflexivity).
  split; [exact H|].
  rewrite (unchanged_aggregator_difference s 2.5 10.25 H).
  vm_compute. reflexivity.
Defined.

(** The counts of a sum or a difference of snapshots stay within
    [unsigned] by wrapping around: [reads] of [a + b] is the sum of the
    two counts, less [2^32] once that is reached, and [reads] of [a - b]
    is the difference of the two counts, plus [2^32] when [b] has counted
    more than [a]; likewise [writes].  No error is raised in either
    case. *)
Theorem snapshot_counts_wrap (a b : binary64.stats_data.t) :
  binary64.stats_data.well_typed a ->
  binary64.stats_data.well_typed b ->
  let ra := binary64.stats_data.get_reads a in
  let rb := binary64.stats_data.get_reads b in
  let wa := binary64.stats_data.get_writes a in
  let wb := binary64.stats_data.get_writes b in
  binary64.stats_data.well_typed (binary64.stats_data.plus a b) /\
  binary64.stats_data.well_typed (binary64.stats_data.minus a b) /\
  binary64.stats_data.get_reads (binary64.stats_data.plus a b)
    = (if ra + rb <? 2 ^ 32 then ra + rb else ra + rb - 2 ^ 32) /\
  binary64.stats_data.get_writes (binary64.stats_data.plus a b)
    = (if wa + wb <? 2 ^ 32 then wa + wb else wa + wb - 2 ^ 32) /\
  binary64.stats_data.get_reads (binary64.stats_data.minus a b)
    = (if rb <=? ra then ra - rb else ra - rb + 2 ^ 32) /\
  binary64.stats_data.get_writes (binary64.stats_data.minus a b)
    = (if wb <=? wa then wa - wb else wa - wb + 2 ^ 32).
Proof.
  intros [Har Haw] [Hbr Hbw] ra rb wa wb.
  unfold binary64.stats_data.well_typed, binary64.stats_data.get_reads,
    binary64.stats_data.get_writes in *.
  subst ra rb wa wb.
  unfold binary64.stats_data.plus, binary64.stats_data.minus.
  cbn [binary64.stats_data.reads binary64.stats_data.writes].
  unfold is_unsigned, UINT_RANGE in Har, Haw, Hbr, Hbw.
  assert (Hadd : forall x y, 0 <= x < 2 ^ 32 -> 0 <= y < 2 ^ 32 ->
            to_unsigned (x + y) = if x + y <? 2 ^ 32 then x + y else x + y - 2 ^ 32).
  { intros x y Hx Hy. unfold to_unsigned, UINT_RANGE.
    destruct (x + y <? 2 ^ 32) eqn:E.
    - apply Z.ltb_lt in E. apply Z.mod_small. lia.
    - apply Z.ltb_ge in E. symmetry.
      apply (Z.mod_unique_pos _ _ 1); lia. }
  assert (Hsub : forall x y, 0 <= x < 2 ^ 32 -> 0 <= y < 2 ^ 32 ->
            to_unsigned (x - y) = if y <=? x then x - y else x - y + 2 ^ 32).
  { intros x y Hx Hy. unfold to_unsigned, UINT_RANGE.
    destruct (y <=? x) eqn:E.
    - apply Z.leb_le in E. apply Z.mod_small. lia.
    - apply Z.leb_gt in E. symmetry.
      apply (Z.mod_unique_pos _ _ (-1)); lia. }
  split_conj; try apply to_unsigned_is_unsigned;
    (apply Hadd || apply Hsub); assumption.
Qed.

(** A snapshot with 5 reads less one with 7 reads reports [2^32 - 2]
    reads; two snapshots with [2^31] writes each add up to 0 writes. *)
Lemma snapshot_counts_wrap_witness :
  let a := binary64.stats_data.mk 5 (2 ^ 31) 0 0 0 0 0 0 0 0 0 in
  let b := binary64.stats_data.mk 7 (2 ^ 31) 0 0 0 0 0 0 0 0 0 in
  binary64.stats_data.well_typed a /\ binary64.stats_data.well_typed b /\
  binary64.stats_data.get_reads (binary64.stats_data.minus a b) = 2 ^ 32 - 2 /\
  binary64.stats_data.get_writes (binary64.stats_data.plus a b) = 0.
Proof.
  intros a b.
  assert (Ha : binary64.stats_data.well_typed a)
    by (unfold binary64.stats_data.well_typed, is_unsigned, UINT_RANGE; simpl; lia).
  assert (Hb : binary64.stats_data.well_typed b)
    by (unfold binary64.stats_data.well_typed, is_unsigned, UINT_RANGE; simpl; lia).
  split; [exact Ha|]. split; [exact Hb|].
  destruct (snapshot_counts_wrap a b Ha Hb) as (_ & _ & _ & Hw & Hr & _).
  split; [rewrite Hr | rewrite Hw]; reflexivity.
Defined.

Lemma in_range_plus_assoc (x y z : stats_data.t) :
  in_range (stats_data.plus (stats_data.plus x y) z) ->
  in_range (stats_data.plus x (stats_data.plus y z)).
Proof.
  unfold in_range, is_ticks, stats_data.plus; simpl.
  rewrite !Z.add_assoc. exact (fun H => H).
Qed.

Lemma exact_plus_assoc (x y z : stats_data.t) :
  stats_data.plus (stats_data.plus x y) z
  = stats_data.plus x (stats_data.plus y z).
Proof.
  unfold stats_data.plus; simpl.
  rewrite !to_unsigned_add_l, !to_unsigned_add_r, !Z.add_assoc. reflexivity.
Qed.

(** [operator +] is associative on the four integer members of any three
    snapshots (the counts modulo [2^32]).  On the [double] members it is
    associative when all values involved are whole numbers of clock ticks
    below [2^53], but not in general: with [t_reads] of [2^53], 1 and 1
    the two groupings give [2^53] and [2^53 + 2]. *)
Theorem snapshot_sum_associates :
  (forall a b c : binary64.stats_data.t,
      let l := binary64.stats_data.plus (binary64.stats_data.plus a b) c in
      let r := binary64.stats_data.plus a (binary64.stats_data.plus b c) in
      binary64.stats_data.get_reads l = binary64.stats_data.get_reads r /\
      binary64.stats_data.get_writes l = binary64.stats_data.get_writes r /\
      binary64.stats_data.get_read_volume l
        = binary64.stats_data.get_read_volume r /\
      binary64.stats_data.get_written_volume l
        = binary64.stats_data.get_written_volume r) /\
  (forall (e0 : Z) (x y z : stats_data.t),
      scale_ok e0 ->
      in_range x -> in_range y -> in_range z ->
      in_range (stats_data.plus x y) -> in_range (stats_data.plus y z) ->
      in_range (stats_data.plus (stats_data.plus x y) z) ->
      binary64.stats_data.plus
        (binary64.stats_data.plus (hold e0 x) (hold e0 y)) (hold e0 z)
      = binary64.stats_data.plus
          (hold e0 x) (binary64.stats_data.plus (hold e0 y) (hold e0 z))) /\
  (let a := binary64.stats_data.mk 0 0 0 0 0x1p53 0 0 0 0 0 0 in
   let b := binary64.stats_data.mk 0 0 0 0 1 0 0 0 0 0 0 in
   binary64.stats_data.get_read_time
     (binary64.stats_data.plus (binary64.stats_data.plus a b) b) = 0x1p53%float /\
   binary64.stats_data.get_read_time
     (binary64.stats_data.plus a (binary64.stats_data.plus b b))
     = 0x1.0000000000001p53%float /\
   binary64.stats_data.equal
     (binary64.stats_data.plus (binary64.stats_data.plus a b) b)
     (binary64.stats_data.plus a (binary64.stats_data.plus b b)) = false).
Proof.
  split; [|split].
  - intros a b c l r. unfold l, r, binary64.stats_data.plus,
      binary64.stats_data.get_reads, binary64.stats_data.get_writes,
      binary64.stats_data.get_read_volume,
      binary64.stats_data.get_written_volume.
    cbn [binary64.stats_data.reads binary64.stats_data.writes
         binary64.stats_data.volume_read binary64.stats_data.volume_written].
    rewrite !to_unsigned_add_l, !to_unsigned_add_r, !Z.add_assoc.
    repeat split.
  - intros e0 x y z He Hx Hy Hz Hxy Hyz Hxyz.
    rewrite (plus_refines e0 x y He Hx Hy Hxy).
    rewrite (plus_refines e0 _ z He Hxy Hz Hxyz).
    rewrite (plus_refines e0 y z He Hy Hz Hyz).
    rewrite (plus_refines e0 x _ He Hx Hyz (in_range_plus_assoc x y z Hxyz)).
    rewrite exact_plus_assoc. reflexivity.
  - vm_compute. repeat split.
Qed.

(** Three snapshots in ticks of half a second whose sums stay far below
    [2^53] ticks. *)
Lemma snapshot_sum_associates_witness :
  let y := stats_data.mk 2 1 100 50 40 10 30 10 50 5 100 in
  let z := stats_data.mk 1 1 10 10 3 3 3 3 6 1 7 in
  scale_ok (-1) /\
  in_range sample_snapshot /\ in_range y /\ in_range z /\
  in_range (stats_data.plus sample_snapshot y) /\
  in_range (stats_data.plus y z) /\
  in_range (stats_data.plus (stats_data.plus sample_snapshot y) z) /\
  binary64.stats_data.plus
    (binary64.stats_data.plus (hold (-1) sample_snapshot) (hold (-1) y))
    (hold (-1) z)
  = binary64.stats_data.plus
      (hold (-1) sample_snapshot)
      (binary64.stats_data.plus (hold (-1) y) (hold (-1) z)).
Proof.
  intros y z.
  assert (Hs : scale_ok (-1)) by (unfold scale_ok; lia).
  assert (Hx : in_range sample_snapshot)
    by (unfold in_range, is_ticks; simpl; lia).
  assert (Hy : in_range y) by (unfold in_range, is_ticks; simpl; lia).
  assert (Hz : in_range z) by (unfold in_range, is_ticks; simpl; lia).
  assert (Hxy : in_range (stats_data.plus sample_snapshot y))
    by (unfold in_range, is_ticks; simpl; lia).
  assert (Hyz : in_range (stats_data.plus y z))
    by (unfold in_range, is_ticks; simpl; lia).
  assert (Hxyz : in_range (stats_data.plus (stats_data.plus sample_snapshot y) z))
    by (unfold in_range, is_ticks; simpl; lia).
  split; [exact Hs|]. split; [exact Hx|]. split; [exact Hy|]. split; [exact Hz|].
  split; [exact Hxy|]. split; [exact Hyz|]. split; [exact Hxyz|].
  exact (proj1 (proj2 snapshot_sum_associates)
           (-1) sample_snapshot y z Hs Hx Hy Hz Hxy Hyz Hxyz).
Defined.

Lemma in_range_plus_minus (x y : stats_data.t) :
  in_range x ->
  in_range (stats_data.minus (stats_data.plus x y) y).
Proof.
  unfold in_range, is_ticks, stats_data.plus, stats_data.minus; simpl.
  intros H. replace (stats_data.t_reads x + stats_data.t_reads y
                     - stats_data.t_reads y) with (stats_data.t_reads x) by lia.
  replace (stats_data.t_writes x + stats_data.t_writes y
           - stats_data.t_writes y) with (stats_data.t_writes x) by lia.
  replace (stats_data.p_reads x + stats_data.p_reads y
           - stats_data.p_reads y) with (stats_data.p_reads x) by lia.
  replace (stats_data.p_writes x + stats_data.p_writes y
           - stats_data.p_writes y) with (stats_data.p_writes x) by lia.
  replace (stats_data.p_ios x + stats_data.p_ios y
           - stats_data.p_ios y) with (stats_data.p_ios x) by lia.
  replace (stats_data.t_wait x + stats_data.t_wait y
           - stats_data.t_wait y) with (stats_data.t_wait x) by lia.
  replace (stats_data.elapsed x + stats_data.elapsed y
           - stats_data.elapsed y) with (stats_data.elapsed x) by lia.
  exact H.
Qed.

Lemma to_unsigned_sub_l (a b : Z) :
  to_unsigned (to_unsigned a - b) = to_unsigned (a - b).
Proof. unfold to_unsigned. apply Zminus_mod_idemp_l. Qed.

Lemma exact_plus_minus (x y : stats_data.t) :
  stats_data.well_typed x ->
  stats_data.minus (stats_data.plus x y) y = x.
Proof.
  intros [Hr Hw]. destruct x as [r w vr vw tr tw pr pw pio twt el].
  simpl in Hr, Hw. unfold stats_data.plus, stats_data.minus; simpl.
  rewrite !to_unsigned_sub_l.
  replace (r + stats_data.reads y - stats_data.reads y) with r by lia.
  replace (w + stats_data.writes y - stats_data.writes y) with w by lia.
  rewrite (to_unsigned_small _ Hr), (to_unsigned_small _ Hw).
  f_equal; lia.
Qed.

(** Adding a snapshot [a] to a snapshot [s] and subtracting it again
    restores the four integer members of [s], whatever [a] holds and even
    when the count wrapped around in between.  It restores the [double]
    members too when all values involved are whole numbers of clock ticks
    below [2^53], but not in general: a [t_reads] of [2^-53] is lost by
    adding and subtracting 1. *)
Theorem snapshot_sum_then_difference :
  (forall s a : binary64.stats_data.t,
      binary64.stats_data.well_typed s ->
      let d := binary64.stats_data.minus (binary64.stats_data.plus s a) a in
      binary64.stats_data.get_reads d = binary64.stats_data.get_reads s /\
      binary64.stats_data.get_writes d = binary64.stats_data.get_writes s /\
      binary64.stats_data.get_read_volume d
        = binary64.stats_data.get_read_volume s /\
      binary64.stats_data.get_written_volume d
        = binary64.stats_data.get_written_volume s) /\
  (forall (e0 : Z) (x y : stats_data.t),
      scale_ok e0 -> stats_data.well_typed x ->
      in_range x -> in_range y -> in_range (stats_data.plus x y) ->
      binary64.stats_data.minus
        (binary64.stats_data.plus (hold e0 x) (hold e0 y)) (hold e0 y)
      = hold e0 x) /\
  (let s := binary64.stats_data.mk 0 0 0 0 0x1p-53 0 0 0 0 0 0 in
   let a := binary64.stats_data.mk 0 0 0 0 1 0 0 0 0 0 0 in
   binary64.stats_data.get_read_time
     (binary64.stats_data.minus (binary64.stats_data.plus s a) a) = 0%float /\
   binary64.stats_data.equal
     (binary64.stats_data.minus (binary64.stats_data.plus s a) a) s = false).
Proof.
  split; [|split].
  - intros s a [Hr Hw] d. unfold d, binary64.stats_data.plus,
      binary64.stats_data.minus, binary64.stats_data.get_reads,
      binary64.stats_data.get_writes, binary64.stats_data.get_read_volume,
      binary64.stats_data.get_written_volume.
    cbn [binary64.stats_data.reads binary64.stats_data.writes
         binary64.stats_data.volume_read binary64.stats_data.volume_written].
    rewrite !to_unsigned_sub_l.
    replace (binary64.stats_data.reads s + binary64.stats_data.reads a
             - binary64.stats_data.reads a)
      with (binary64.stats_data.reads s) by lia.
    replace (binary64.stats_data.writes s + binary64.stats_data.writes a
             - binary64.stats_data.writes a)
      with (binary64.stats_data.writes s) by lia.
    rewrite (to_unsigned_small _ Hr), (to_unsigned_small _ Hw).
    repeat split; lia.
  - intros e0 x y He Hwt Hx Hy Hxy.
    rewrite (plus_refines e0 x y He Hx Hy Hxy).
    rewrite (minus_refines e0 _ y He Hxy Hy (in_range_plus_minus x y Hx)).
    rewrite (exact_plus_minus x y Hwt). reflexivity.
  - vm_compute. repeat split.
Qed.

(** A snapshot in ticks of half a second, with another one added and
    subtracted again. *)
Lemma snapshot_sum_then_difference_witness :
  let y := stats_data.mk 2 1 100 50 40 10 30 10 50 5 100 in
  scale_ok (-1) /\ stats_data.well_typed sample_snapshot /\
  in_range sample_snapshot /\ in_range y /\
  in_range (stats_data.plus sample_snapshot y) /\
  binary64.stats_data.minus
    (binary64.stats_data.plus (hold (-1) sample_snapshot) (hold (-1) y))
    (hold (-1) y)
  = hold (-1) sample_snapshot.
Proof.
  intros y.
  assert (Hs : scale_ok (-1)) by (unfold scale_ok; lia).
  assert (Hwt : stats_data.well_typed sample_snapshot)
    by (unfold stats_data.well_typed, is_unsigned, UINT_RANGE; simpl; lia).
  assert (Hx : in_range sample_snapshot)
    by (unfold in_range, is_ticks; simpl; lia).
  assert (Hy : in_range y) by (unfold in_range, is_ticks; simpl; lia).
  assert (Hxy : in_range (stats_data.plus sample_snapshot y))
    by (unfold in_range, is_ticks; simpl; lia).
  split; [exact Hs|]. split; [exact Hwt|]. split; [exact Hx|].
  split; [exact Hy|]. split; [exact Hxy|].
  exact (proj1 (proj2 snapshot_sum_then_difference)
           (-1) sample_snapshot y Hs Hwt Hx Hy Hxy).
Defined.

(** ** Sessions when instrumentation is compiled out *)

Lemma read_methods_off (w : bool) (ms : list timer_method) (g : scoped_read_timer.t) :
  read_methods (mk_config false w) ms g = (g, []).
Proof.
  induction ms as [|m ms IH]; [reflexivity|].
  cbn [read_methods]. destruct m; cbn; rewrite IH; reflexivity.
Qed.

Lemma write_methods_off (w : bool) (ms : list timer_method) (g : scoped_write_timer.t) :
  write_methods (mk_config false w) ms g = (g, []).
Proof.
  induction ms as [|m ms IH]; [reflexivity|].
  cbn [write_methods]. destruct m; cbn; rewrite IH; reflexivity.
Qed.

Lemma wait_methods_off (io : bool) (ms : list wait_timer_method) (g : scoped_wait_timer.t) :
  wait_methods (mk_config io false) ms g = (g, []).
Proof.
  induction ms as [|m ms IH]; [reflexivity|].
  cbn [wait_methods]. destruct m; cbn; rewrite IH; reflexivity.
Qed.

Lemma read_methods_any_wait (io w : bool) (ms : list timer_method)
  (g : scoped_read_timer.t) :
  read_methods (mk_config io w) ms g = read_methods (mk_config io (negb w)) ms g.
Proof.
  revert g. induction ms as [|m ms IH]; intros g; [reflexivity|].
  cbn [read_methods].
  destruct m; unfold scoped_read_timer.start, scoped_read_timer.stop;
    cbn [STXXL_IO_STATS]; destruct io, g as [[|]];
    cbn [scoped_read_timer.running negb]; rewrite IH; reflexivity.
Qed.

Lemma write_methods_any_wait (io w : bool) (ms : list timer_method)
  (g : scoped_write_timer.t) :
  write_methods (mk_config io w) ms g = write_methods (mk_config io (negb w)) ms g.
Proof.
  revert g. induction ms as [|m ms IH]; intros g; [reflexivity|].
  cbn [write_methods].
  destruct m; unfold scoped_write_timer.start, scoped_write_timer.stop;
    cbn [STXXL_IO_STATS]; destruct io, g as [[|]];
    cbn [scoped_write_timer.running negb]; rewrite IH; reflexivity.
Qed.

Lemma wait_methods_any_io (io w : bool) (ms : list wait_timer_method)
  (g : scoped_wait_timer.t) :
  wait_methods (mk_config io w) ms g = wait_methods (mk_config (negb io) w) ms g.
Proof.
  revert g. induction ms as [|m ms IH]; intros g; [reflexivity|].
  cbn [wait_methods].
  destruct m; unfold scoped_wait_timer.start, scoped_wait_timer.stop;
    cbn [COUNT_WAIT_TIME]; destruct w, g as [[|]];
    cbn [scoped_wait_timer.running negb]; rewrite IH; reflexivity.
Qed.

(** Without read/write instrumentation no session of a scoped read or
    write timer calls any hook, whatever [start] and [stop] calls it
    contains; without wait instrumentation no session of a scoped wait
    timer does.  And each switch matters to its own timers only: the calls
    of a read or write session are the same with and without wait
    instrumentation, those of a wait session the same with and without
    read/write instrumentation. *)
Theorem timer_sessions_follow_their_switch :
  (forall (w : bool) (size : Z) (ms : list timer_method),
      read_timer_session (mk_config false w) size ms = [] /\
      write_timer_session (mk_config false w) size ms = []) /\
  (forall (io : bool) (ms : list wait_timer_method),
      wait_timer_session (mk_config io false) ms = []) /\
  (forall (io w : bool) (size : Z) (ms : list timer_method),
      read_timer_session (mk_config io w) size ms
        = read_timer_session (mk_config io (negb w)) size ms /\
      write_timer_session (mk_config io w) size ms
        = write_timer_session (mk_config io (negb w)) size ms) /\
  (forall (io w : bool) (ms : list wait_timer_method),
      wait_timer_session (mk_config io w) ms
        = wait_timer_session (mk_config (negb io) w) ms).
Proof.
  split; [|split; [|split]].
  - intros w size ms. split.
    + unfold read_timer_session, read_timer_alive. cbn.
      rewrite read_methods_off. reflexivity.
    + unfold write_timer_session, write_timer_alive. cbn.
      rewrite write_methods_off. reflexivity.
  - intros io ms. unfold wait_timer_session, wait_timer_alive. cbn.
    rewrite wait_methods_off. reflexivity.
  - intros io w size ms. split.
    + unfold read_timer_session, read_timer_alive, scoped_read_timer.ctor,
        scoped_read_timer.start, scoped_read_timer.dtor, scoped_read_timer.stop.
      cbn [STXXL_IO_STATS scoped_read_timer.running negb].
      destruct io; cbn [negb]; rewrite (read_methods_any_wait _ w); reflexivity.
    + unfold write_timer_session, write_timer_alive, scoped_write_timer.ctor,
        scoped_write_timer.start, scoped_write_timer.dtor, scoped_write_timer.stop.
      cbn [STXXL_IO_STATS scoped_write_timer.running negb].
      destruct io; cbn [negb]; rewrite (write_methods_any_wait _ w); reflexivity.
  - intros io w ms.
    unfold wait_timer_session, wait_timer_alive, scoped_wait_timer.ctor,
      scoped_wait_timer.start, scoped_wait_timer.dtor, scoped_wait_timer.stop.
    cbn [COUNT_WAIT_TIME scoped_wait_timer.running negb].
    destruct w; cbn [negb]; rewrite (wait_methods_any_io io); reflexivity.
Qed.

(** ** Snapshots at clock resolution *)

(** When the [double] members of two snapshots are whole numbers of ticks
    of [2^e0] seconds, each below [2^53] ticks, [operator +] rounds
    nothing as long as the sums stay below [2^53] ticks, and [operator -]
    rounds nothing as long as no difference is negative: every [double]
    member of the result is the exact sum, resp. difference, and the
    integer members are those of the exact model. *)
Theorem snapshot_arithmetic_is_exact_on_ticks (e0 : Z) (x y : stats_data.t) :
  scale_ok e0 -> in_range x -> in_range y ->
  (in_range (stats_data.plus x y) ->
   binary64.stats_data.plus (hold e0 x) (hold e0 y)
   = hold e0 (stats_data.plus x y)) /\
  (in_range (stats_data.minus x y) ->
   binary64.stats_data.minus (hold e0 x) (hold e0 y)
   = hold e0 (stats_data.minus x y)).
Proof.
  intros He Hx Hy. split; intros H.
  - exact (plus_refines e0 x y He Hx Hy H).
  - exact (minus_refines e0 x y He Hx Hy H).
Qed.

(** At a resolution of half a second: 340 and 40 ticks of serial read
    time, the binary64 numbers 170 and 20, add up to 190 and differ by
    150. *)
Lemma snapshot_arithmetic_is_exact_on_ticks_witness :
  let y := stats_data.mk 2 1 100 50 40 10 30 10 50 5 100 in
  scale_ok (-1) /\ in_range sample_snapshot /\ in_range y /\
  in_range (stats_data.plus sample_snapshot y) /\
  in_range (stats_data.minus sample_snapshot y) /\
  binary64.stats_data.get_read_time (hold (-1) sample_snapshot) = 170%float /\
  binary64.stats_data.get_read_time (hold (-1) y) = 20%float /\
  binary64.stats_data.get_read_time
    (binary64.stats_data.plus (hold (-1) sample_snapshot) (hold (-1) y))
  = 190%float /\
  binary64.stats_data.get_read_time
    (binary64.stats_data.minus (hold (-1) sample_snapshot) (hold (-1) y))
  = 150%float.
Proof.
  intros y.
  assert (Hs : scale_ok (-1)) by (unfold scale_ok; lia).
  assert (Hx : in_range sample_snapshot)
    by (unfold in_range, is_ticks; simpl; lia).
  assert (Hy : in_range y) by (unfold in_range, is_ticks; simpl; lia).
  assert (Hp : in_range (stats_data.plus sample_snapshot y))
    by (unfold in_range, is_ticks; simpl; lia).
  assert (Hm : in_range (stats_data.minus sample_snapshot y))
    by (unfold in_range, is_ticks; simpl; lia).
  split; [exact Hs|]. split; [exact Hx|]. split; [exact Hy|].
  split; [exact Hp|]. split; [exact Hm|].
  split; [vm_compute; reflexivity|]. split; [vm_compute; reflexivity|].
  destruct (snapshot_arithmetic_is_exact_on_ticks (-1) sample_snapshot y Hs Hx Hy)
    as [Hplus Hminus].
  rewrite (Hplus Hp), (Hminus Hm). split; vm_compute; reflexivity.
Defined.
